(** * rdy2cpl: corner and mask synthesis of the ORCA grids

    A shallow embedding of [src/rdy2cpl/grids/base/orca.py].  The file
    is organised as the Python module is: a small model of the numpy
    operations the module calls (module [np]), the netCDF dataset as a
    pair of dictionaries, the module-level helpers, and the class
    [OrcaGrid] with its constructor and its [read_*] methods.

    - An array is its shape together with its entry at each
      multi-index; subscripts follow Python's rules for integers,
      slices and negative bounds, and an assignment to a selection
      returns the updated array.
    - A call returns [Ok] with its value or [Raise] with the exception.
    - Numbers read from the dataset are kept abstract (class
      [Number]): the code only copies them, multiplies by two,
      subtracts, and compares with zero, and every statement below
      holds for any interpretation of these operations.  Equality of
      array entries is equality of the stored values. *)

From Stdlib Require Import ZArith Lia Bool.
From stdpp Require Import base gmap strings list.

Local Open Scope Z_scope.

(** ** Exceptions *)

Inductive exn : Type :=
| ValueError (msg : string)
| RuntimeError (msg : string)
| KeyError
| IndexError (msg : string).

Inductive result (A : Type) : Type :=
| Ok (a : A)
| Raise (e : exn).
Arguments Ok {A} a.
Arguments Raise {A} e.

Definition bind {A B} (r : result A) (k : A -> result B) : result B :=
  match r with
  | Ok a => k a
  | Raise e => Raise e
  end.

Notation "'let*' x ':=' r 'in' k" := (bind r (fun x => k))
  (at level 10, x pattern, r at level 100, k at level 200).

(** [try: body except KeyError: handler] *)
Definition except_KeyError {A} (body handler : result A) : result A :=
  match body with
  | Raise KeyError => handler
  | r => r
  end.

(** [d[k]] for a dictionary: KeyError when the key is absent. *)
Definition subscript {K V} `{Countable K} (d : gmap K V) (k : K) : result V :=
  match d !! k with
  | Some v => Ok v
  | None => Raise KeyError
  end.

(** ** Numbers stored in the dataset *)

Class Number (F : Type) : Type := {
  of_int : Z -> F;          (* a Python int used as an operand *)
  fmul : F -> F -> F;       (* x * y *)
  fsub : F -> F -> F;       (* x - y *)
  feqb : F -> F -> bool;    (* x == y *)
  fgtb : F -> F -> bool;    (* x > y *)
}.

(** The integers are one interpretation; it is the one used to run the
    model on concrete grids. *)
#[export] Instance Z_Number : Number Z := {
  of_int z := z;
  fmul := Z.mul;
  fsub := Z.sub;
  feqb := Z.eqb;
  fgtb := Z.gtb;
}.

(** ** The part of numpy the module uses *)

Module np.

(** An n-dimensional array: its shape and its entry at a multi-index.
    A numpy scalar is the array of shape [[]]. *)
Record ndarray (A : Type) : Type := mk {
  shape : list Z;
  item : list Z -> A;
}.
Arguments mk {A} shape item.
Arguments shape {A} _.
Arguments item {A} _ _.

(** One subscript position: an integer, a slice [start:stop:step], or
    the ellipsis. *)
Inductive index : Type :=
| At (z : Z)
| Slice (start stop step : option Z)
| Ellipsis.

(** What a subscript selects along an axis of length n. *)
Inductive selector : Type :=
| Pick (i : Z)
| Range (start step len : Z).

(** Python's [slice.indices] followed by the length of the range. *)
Definition clamp (step n : Z) (bound : option Z) (default : Z) : Z :=
  match bound with
  | None => default
  | Some b =>
      if b <? 0 then
        let b' := b + n in
        if b' <? 0 then (if step <? 0 then -1 else 0) else b'
      else if n <=? b then (if step <? 0 then n - 1 else n)
      else b
  end.

Definition slice_indices (start stop step : option Z) (n : Z)
  : result (Z * Z * Z) :=
  let step := default 1 step in
  if step =? 0 then Raise (ValueError "slice step cannot be zero")
  else
    let start := clamp step n start (if step <? 0 then n - 1 else 0) in
    let stop := clamp step n stop (if step <? 0 then -1 else n) in
    let len :=
      if step <? 0
      then (if stop <? start then (start - stop - 1) / (- step) + 1 else 0)
      else (if start <? stop then (stop - start - 1) / step + 1 else 0) in
    Ok (start, step, len).

Definition resolve (ix : index) (n : Z) : result selector :=
  match ix with
  | At z =>
      let z' := if z <? 0 then z + n else z in
      if (0 <=? z') && (z' <? n) then Ok (Pick z')
      else Raise (IndexError "index is out of bounds")
  | Slice start stop step =>
      let* r := slice_indices start stop step n in
      Ok (Range r.1.1 r.1.2 r.2)
  | Ellipsis =>
      Raise (IndexError "an index can only have a single ellipsis")
  end.

(** The first ellipsis stands for as many full slices as the rank
    leaves open. *)
Fixpoint expand_ellipsis (ixs : list index) (rank : nat) : list index :=
  match ixs with
  | [] => []
  | Ellipsis :: rest =>
      repeat (Slice None None None) (rank - length rest) ++ rest
  | ix :: rest => ix :: expand_ellipsis rest (rank - 1)
  end.

(** Subscripts against a shape; missing trailing subscripts are full
    slices. *)
Fixpoint resolve_all (ixs : list index) (shp : list Z)
  : result (list selector) :=
  match ixs, shp with
  | [], _ => Ok (map (fun n => Range 0 1 n) shp)
  | _ :: _, [] => Raise (IndexError "too many indices for array")
  | ix :: ixs', n :: shp' =>
      let* s := resolve ix n in
      let* ss := resolve_all ixs' shp' in
      Ok (s :: ss)
  end.

Fixpoint selected_shape (ss : list selector) : list Z :=
  match ss with
  | [] => []
  | Pick _ :: ss' => selected_shape ss'
  | Range _ _ len :: ss' => len :: selected_shape ss'
  end.

(** The multi-index in the array of entry [mi] of the selection. *)
Fixpoint source_index (ss : list selector) (mi : list Z) : list Z :=
  match ss with
  | [] => []
  | Pick i :: ss' => i :: source_index ss' mi
  | Range start step _ :: ss' =>
      match mi with
      | p :: mi' => (start + step * p) :: source_index ss' mi'
      | [] => start :: source_index ss' []
      end
  end.

(** The position in the selection of the array's multi-index [mi], when
    it is selected. *)
Fixpoint locate (ss : list selector) (mi : list Z) : option (list Z) :=
  match ss, mi with
  | [], [] => Some []
  | Pick i :: ss', m :: mi' => if m =? i then locate ss' mi' else None
  | Range start step len :: ss', m :: mi' =>
      let p := (m - start) / step in
      if ((m - start) mod step =? 0) && (0 <=? p) && (p <? len)
      then option_map (cons p) (locate ss' mi')
      else None
  | _, _ => None
  end.

Definition shape_eqb (s1 s2 : list Z) : bool :=
  bool_decide (s1 = s2).

(** [a[ixs]] *)
Definition getitem {A} (a : ndarray A) (ixs : list index)
  : result (ndarray A) :=
  let* ss := resolve_all (expand_ellipsis ixs (length (shape a))) (shape a) in
  Ok (mk (selected_shape ss) (fun mi => item a (source_index ss mi))).

(** [a[ixs] = v].  The code only assigns values whose shape is the
    shape of the selection; any other shape is reported as the
    broadcast error. *)
Definition setitem {A} (a : ndarray A) (ixs : list index) (v : ndarray A)
  : result (ndarray A) :=
  let* ss := resolve_all (expand_ellipsis ixs (length (shape a))) (shape a) in
  if shape_eqb (shape v) (selected_shape ss)
  then Ok (mk (shape a)
             (fun mi => match locate ss mi with
                        | Some p => item v p
                        | None => item a mi
                        end))
  else Raise (ValueError "could not broadcast input array").

(** [np.full(shape, fill_value)] *)
Definition full {A} (shp : list Z) (fill_value : A) : ndarray A :=
  mk shp (fun _ => fill_value).

(** An operation applied entry by entry, with a scalar operand or
    alone. *)
Definition map {A B} (f : A -> B) (a : ndarray A) : ndarray B :=
  mk (shape a) (fun mi => f (item a mi)).

(** A binary operation entry by entry, on operands of one shape. *)
Definition zip {A B C} (f : A -> B -> C) (a : ndarray A) (b : ndarray B)
  : result (ndarray C) :=
  if shape_eqb (shape a) (shape b)
  then Ok (mk (shape a) (fun mi => f (item a mi) (item b mi)))
  else Raise (ValueError "operands could not be broadcast together").

(** [np.where(condition, x, y)] with scalar x and y *)
Definition where_ {A} (condition : ndarray bool) (x y : A) : ndarray A :=
  map (fun c : bool => if c then x else y) condition.

(** [a.T] *)
Definition T {A} (a : ndarray A) : ndarray A :=
  mk (reverse (shape a)) (fun mi => item a (reverse mi)).

Inductive take_mode : Type := mode_raise | mode_wrap | mode_clip.

Definition adjust (mode : take_mode) (n i : Z) : result Z :=
  match mode with
  | mode_raise =>
      let i' := if i <? 0 then i + n else i in
      if (0 <=? i') && (i' <? n) then Ok i'
      else Raise (IndexError "index is out of bounds")
  | mode_wrap => Ok (i mod n)
  | mode_clip => Ok (Z.max 0 (Z.min i (n - 1)))
  end.

Fixpoint adjust_all (mode : take_mode) (n : Z) (indices : list Z)
  : result (list Z) :=
  match indices with
  | [] => Ok []
  | i :: rest =>
      let* i' := adjust mode n i in
      let* rest' := adjust_all mode n rest in
      Ok (i' :: rest')
  end.

(** [a.take(indices, axis=axis, mode=mode)] *)
Definition take {A} (a : ndarray A) (indices : list Z) (axis : nat)
    (mode : take_mode) : result (ndarray A) :=
  match shape a !! axis with
  | None => Raise (ValueError "axis is out of bounds for array")
  | Some n =>
      let* picked := adjust_all mode n indices in
      Ok (mk (<[axis := Z.of_nat (length indices)]> (shape a))
            (fun mi =>
               match mi !! axis with
               | Some p => item a (<[axis := nth (Z.to_nat p) picked 0]> mi)
               | None => item a mi
               end))
  end.

End np.

(** Python's [range(start, stop)]. *)
Definition range (start stop : Z) : list Z := seqZ start (stop - start).

(** Subscript abbreviations: [:], [a:], [:b], [::-1]. *)
Abbreviation all := (np.Slice None None None).
Abbreviation from a := (np.Slice (Some a) None None).
Abbreviation upto b := (np.Slice None (Some b) None).
Abbreviation reversed := (np.Slice None None (Some (-1))).

Abbreviation At := np.At.

(** [a[i, j]] as an expression, and the statement [x[i, j, k] = v] on
    the array variable x, which is rebound to the updated array. *)
Notation "a .[ i ; .. ; j ]" := (np.getitem a (cons i .. (cons j nil) ..))
  (at level 1, left associativity, format "a .[ i ;  .. ;  j ]").

(** [s1 in s2] on strings: s1 occurs in s2. *)
Definition str_in (s1 s2 : string) : bool :=
  match String.index 0 s1 s2 with
  | Some _ => true
  | None => false
  end.

(** ** The dataset

    [Dataset(path)] gives the dimensions and the variables of a netCDF
    file, each a dictionary by name.  A dimension is kept as its size.
    The model starts from the opened file: a grid refers to the contents
    of its files, not to their paths. *)

Record Dataset (F : Type) : Type := {
  dimensions : gmap string Z;
  variables : gmap string (np.ndarray F);
}.
Arguments dimensions {F} _.
Arguments variables {F} _.

(** [required.issubset(d)] *)
Definition issubset {V} (required : gset string) (d : gmap string V) : bool :=
  bool_decide (required ⊆ dom d).

(** ** Module-level definitions of orca.py *)

Definition dquote : string := String (Ascii.ascii_of_nat 34) EmptyString.

Definition _check (subgrid : string) : result unit :=
  if negb (bool_decide (subgrid ∈ ["t"; "u"; "v"]))
  then Raise (ValueError
                ("Invalid ORCA subgrid: " +:+ dquote +:+ subgrid +:+ dquote))
  else Ok tt.

Definition _orca_names : gmap (Z * Z * Z) string :=
  {[ (362, 292, 75) := "ORCA1L75";
     (360, 331, 75) := "eORCA1L75" ]}.

(** The variables [__init__] requires in the domain file (the set
    literal of lines 40 to 58). *)
Definition _required : list string :=
  ["glamt"; "glamu"; "glamv"; "glamf";
   "gphit"; "gphiu"; "gphiv"; "gphif";
   "e1t"; "e1u"; "e1v"; "e1f";
   "e2t"; "e2u"; "e2v"; "e2f";
   "top_level"].

Section Orca.

Context {F : Type} `{Number F}.

(** 1e20 is the integer 10^20, which a double holds exactly. *)
Definition _MISSING_VALUE : F := of_int (10 ^ 20).

(** [nc.variables[name][0, ...].data.T] *)
Definition first_record_T (nc : Dataset F) (name : string)
  : result (np.ndarray F) :=
  let* var := subscript (variables nc) name in
  let* rec := var.[At 0; np.Ellipsis] in
  Ok (np.T rec).

(** [target[ixs] = value]: the value is evaluated first. *)
Definition assign (target : np.ndarray F) (ixs : list np.index)
    (value : result (np.ndarray F)) : result (np.ndarray F) :=
  let* v := value in
  np.setitem target ixs v.

(** [k * a] and [a - b] on arrays. *)
Definition times (k : Z) (a : result (np.ndarray F))
  : result (np.ndarray F) :=
  let* a := a in
  Ok (np.map (fmul (of_int k)) a).

Definition minus (a b : result (np.ndarray F)) : result (np.ndarray F) :=
  let* a := a in
  let* b := b in
  np.zip fsub a b.

Notation "'store' x .[ i ; .. ; j ] ':=' v 'in' k" :=
  (bind (assign x (cons i .. (cons j nil) ..) v) (fun x => k))
  (at level 10, x name, v at level 100, k at level 200,
   format "'store'  x .[ i ;  .. ;  j ]  ':='  v  'in' '//' k").

(** *** class OrcaGrid *)

Record OrcaGrid : Type := {
  domain_cfg : Dataset F;
  masks : option (Dataset F);
  shape : Z * Z;
  size : Z;
  name : string;
}.

Definition __init__ (domain_cfg : Dataset F) (masks : option (Dataset F))
  : result OrcaGrid :=
  let nc := domain_cfg in
  let* dims :=
    except_KeyError
      (let* ni := subscript (dimensions nc) "x" in
       let* nj := subscript (dimensions nc) "y" in
       let* nk := subscript (dimensions nc) "z" in
       Ok (ni, nj, nk))
      (Raise (RuntimeError "Missing dimensions in NEMO domain config")) in
  let ni := dims.1.1 in
  let nj := dims.1.2 in
  let nk := dims.2 in
  let shape := (ni, nj) in
  let size := ni * nj in
  let* name :=
    except_KeyError
      (subscript _orca_names (ni, nj, nk))
      (Raise (RuntimeError "Unknown dimensions in NEMO domain config")) in
  let* _ :=
    if negb (issubset (list_to_set _required) (variables nc))
    then Raise (RuntimeError "Missing variables in NEMO domain config")
    else Ok tt in
  let* _ :=
    match masks with
    | Some nc =>
        if negb (issubset (list_to_set ["tmaskutil"; "umaskutil"; "vmaskutil"])
                   (variables nc))
        then Raise (RuntimeError "Missing variables in NEMO masks file")
        else Ok tt
    | None => Ok tt
    end in
  Ok {| domain_cfg := domain_cfg; masks := masks;
        shape := shape; size := size; name := name |}.

Definition read_center_latitudes (self : OrcaGrid) (subgrid : string)
  : result (np.ndarray F) :=
  let* _ := _check subgrid in
  first_record_T (domain_cfg self) ("gphi" +:+ subgrid).

Definition read_center_longitudes (self : OrcaGrid) (subgrid : string)
  : result (np.ndarray F) :=
  let* _ := _check subgrid in
  first_record_T (domain_cfg self) ("glam" +:+ subgrid).

(** The if/elif chain of [read_corner_latitudes] (lines 98 to 132).
    The statements update [corner_lats] in place; here the array is
    passed along, one binding per assignment. *)
Definition fill_corner_lats (subgrid : string)
    (lat_values corner_lats : np.ndarray F) : result (np.ndarray F) :=
  if str_in subgrid "t" then
    store corner_lats.[all; all; At 0] := Ok lat_values in
    store corner_lats.[from 1; all; At 1] := lat_values.[upto (-1); all] in
    store corner_lats.[At 0; all; At 1] := lat_values.[At (-1); all] in
    store corner_lats.[all; from 1; At 3] := lat_values.[all; upto (-1)] in
    store corner_lats.[all; At 0; At 3] :=
      minus (times 2 lat_values.[all; At 1]) lat_values.[all; At 2] in
    store corner_lats.[from 1; from 1; At 2] :=
      lat_values.[upto (-1); upto (-1)] in
    store corner_lats.[At 0; from 1; At 2] :=
      lat_values.[At (-1); upto (-1)] in
    store corner_lats.[from 1; At 0; At 2] :=
      minus (times 2 lat_values.[upto (-1); At 1])
            lat_values.[upto (-1); At 2] in
    store corner_lats.[At 0; At 0; At 2] :=
      minus (times 2 lat_values.[At (-1); At 1]) lat_values.[At (-1); At 2] in
    Ok corner_lats
  else if String.eqb subgrid "u" then
    store corner_lats.[all; all; At 1] := Ok lat_values in
    store corner_lats.[upto (-1); all; At 0] := lat_values.[from 1; all] in
    store corner_lats.[At (-1); all; At 0] := lat_values.[At 0; all] in
    store corner_lats.[all; from 1; At 2] := lat_values.[all; upto (-1)] in
    store corner_lats.[all; At 0; At 2] :=
      minus (times 2 lat_values.[all; At 1]) lat_values.[all; At 2] in
    store corner_lats.[upto (-1); from 1; At 3] :=
      lat_values.[from 1; upto (-1)] in
    store corner_lats.[At (-1); from 1; At 3] :=
      lat_values.[At 0; upto (-1)] in
    store corner_lats.[upto (-1); At 0; At 3] :=
      minus (times 2 lat_values.[from 1; At 1]) lat_values.[from 1; At 2] in
    store corner_lats.[At (-1); At 0; At 3] :=
      minus (times 2 lat_values.[At 0; At 1]) lat_values.[At 0; At 2] in
    Ok corner_lats
  else if String.eqb subgrid "v" then
    (* F-pivot special treatment *)
    let* rever_lats := lat_values.[reversed; At (-1)] in
    store corner_lats.[all; upto (-1); At 0] := lat_values.[all; from 1] in
    store corner_lats.[upto (-1); At (-1); At 0] := rever_lats.[from 1] in
    store corner_lats.[At (-1); At (-1); At 0] := rever_lats.[At 0] in
    store corner_lats.[from 1; upto (-1); At 1] :=
      lat_values.[upto (-1); from 1] in
    store corner_lats.[At 0; upto (-1); At 1] :=
      lat_values.[At (-1); from 1] in
    store corner_lats.[all; At (-1); At 1] := rever_lats.[all] in
    store corner_lats.[from 1; all; At 2] := lat_values.[upto (-1); all] in
    store corner_lats.[At 0; all; At 2] := lat_values.[At (-1); all] in
    store corner_lats.[all; all; At 3] := Ok lat_values in
    Ok corner_lats
  else Ok corner_lats.

Definition lat_var : gmap string string :=
  {[ "t" := "gphif"; "u" := "gphiv"; "v" := "gphiu" ]}.

Definition read_corner_latitudes (self : OrcaGrid) (subgrid : string)
  : result (np.ndarray F) :=
  let* _ := _check subgrid in
  let* var_name := subscript lat_var subgrid in
  let* lat_values := first_record_T (domain_cfg self) var_name in
  let corner_lats :=
    np.full [(shape self).1; (shape self).2; 4] _MISSING_VALUE in
  fill_corner_lats subgrid lat_values corner_lats.

(** The if/elif chain of [read_corner_longitudes] (lines 146 to 179). *)
Definition fill_corner_lons (subgrid : string)
    (lon_values corner_lons : np.ndarray F) : result (np.ndarray F) :=
  if str_in subgrid "t" then
    store corner_lons.[all; all; At 0] := Ok lon_values in
    store corner_lons.[from 1; all; At 1] := lon_values.[upto (-1); all] in
    store corner_lons.[At 0; all; At 1] := lon_values.[At (-1); all] in
    store corner_lons.[all; from 1; At 3] := lon_values.[all; upto (-1)] in
    store corner_lons.[all; At 0; At 3] := lon_values.[all; At 1] in
    store corner_lons.[from 1; from 1; At 2] :=
      lon_values.[upto (-1); upto (-1)] in
    store corner_lons.[At 0; from 1; At 2] :=
      lon_values.[At (-1); upto (-1)] in
    store corner_lons.[from 1; At 0; At 2] := lon_values.[upto (-1); At 1] in
    store corner_lons.[At 0; At 0; At 2] := lon_values.[At (-1); At 1] in
    Ok corner_lons
  else if String.eqb subgrid "u" then
    store corner_lons.[all; all; At 1] := Ok lon_values in
    store corner_lons.[upto (-1); all; At 0] := lon_values.[from 1; all] in
    store corner_lons.[At (-1); all; At 0] := lon_values.[At 0; all] in
    store corner_lons.[all; from 1; At 2] := lon_values.[all; upto (-1)] in
    store corner_lons.[all; At 0; At 2] := lon_values.[all; At 1] in
    store corner_lons.[upto (-1); from 1; At 3] :=
      lon_values.[from 1; upto (-1)] in
    store corner_lons.[At (-1); from 1; At 3] :=
      lon_values.[At 0; upto (-1)] in
    store corner_lons.[all; At 0; At 3] := corner_lons.[all; At 1; At 3] in
    Ok corner_lons
  else if String.eqb subgrid "v" then
    (* F-pivot special treatment *)
    let* rever_lons := lon_values.[reversed; At (-1)] in
    store corner_lons.[all; upto (-1); At 0] := lon_values.[all; from 1] in
    store corner_lons.[upto (-1); At (-1); At 0] := rever_lons.[from 1] in
    store corner_lons.[At (-1); At (-1); At 0] := rever_lons.[At 0] in
    store corner_lons.[from 1; upto (-1); At 1] :=
      lon_values.[upto (-1); from 1] in
    store corner_lons.[At 0; upto (-1); At 1] :=
      lon_values.[At (-1); from 1] in
    store corner_lons.[all; At (-1); At 1] := rever_lons.[all] in
    store corner_lons.[from 1; all; At 2] := lon_values.[upto (-1); all] in
    store corner_lons.[At 0; all; At 2] := lon_values.[At (-1); all] in
    store corner_lons.[all; all; At 3] := Ok lon_values in
    Ok corner_lons
  else Ok corner_lons.

Definition lon_var : gmap string string :=
  {[ "t" := "glamf"; "u" := "glamv"; "v" := "glamu" ]}.

Definition read_corner_longitudes (self : OrcaGrid) (subgrid : string)
  : result (np.ndarray F) :=
  let* _ := _check subgrid in
  let* var_name := subscript lon_var subgrid in
  let* lon_values := first_record_T (domain_cfg self) var_name in
  let corner_lons :=
    np.full [(shape self).1; (shape self).2; 4] _MISSING_VALUE in
  fill_corner_lons subgrid lon_values corner_lons.

Definition read_areas (self : OrcaGrid) (subgrid : string)
  : result (np.ndarray F) :=
  let* _ := _check subgrid in
  let* e1 := first_record_T (domain_cfg self) ("e1" +:+ subgrid) in
  let* e2 := first_record_T (domain_cfg self) ("e2" +:+ subgrid) in
  np.zip fmul e1 e2.

(** [a.shape[k]] *)
Definition shape_at {A} (a : np.ndarray A) (k : nat) : result Z :=
  match np.shape a !! k with
  | Some n => Ok n
  | None => Raise (IndexError "tuple index out of range")
  end.

(** When no branch of the last chain is taken Python returns None.
    [_check] has excluded that case (lemma [_check_covers_chain]
    below), so the last [else] is never reached; the model puts an
    error there. *)
Definition read_mask (self : OrcaGrid) (subgrid : string)
  : result (np.ndarray Z) :=
  let* _ := _check subgrid in
  match masks self with
  | Some nc =>
      (* If a NEMO mask file is provided, just read T, U, V masks *)
      let* util := first_record_T nc (subgrid +:+ "maskutil") in
      let mask := np.where_ (np.map (fun x => fgtb x (of_int 0)) util) 0 1 in
      Ok mask
  | None =>
      (* Without a NEMO mask file, compute masks from top_level *)
      let nc := domain_cfg self in
      let* top_level := first_record_T nc "top_level" in
      let tmask :=
        np.where_ (np.map (fun x => feqb x (of_int 0)) top_level) 1 0 in
      if String.eqb subgrid "t" then
        Ok tmask
      else if String.eqb subgrid "u" then
        let* n := shape_at tmask 0 in
        let* shifted := np.take tmask (range 1 (n + 1)) 0 np.mode_wrap in
        let* umask := np.zip Z.mul tmask shifted in
        Ok umask
      else if String.eqb subgrid "v" then
        let* n := shape_at tmask 1 in
        let* shifted := np.take tmask (range 1 (n + 1)) 1 np.mode_clip in
        let* vmask := np.zip Z.mul tmask shifted in
        Ok vmask
      else Raise (ValueError "no mask")
  end.

(** *** Notions used to state the properties *)

(** The linear reflection [2 * v[i, 1] - v[i, 2]] at column i. *)
Definition linear_reflection (v : np.ndarray F) (i : Z) : F :=
  fsub (fmul (of_int 2) (np.item v [i; 1])) (np.item v [i; 2]).

(** The T mask value of a cell: [np.where(x == 0, 1, 0)] at one entry. *)
Definition land (x : F) : Z := if feqb x (of_int 0) then 1 else 0.

(** x is an entry of the (ni, nj) array v. *)
Definition is_entry (v : np.ndarray F) (ni nj : Z) (x : F) : Prop :=
  exists i j, 0 <= i < ni /\ 0 <= j < nj /\ x = np.item v [i; j].

(** x is the linear reflection of v at one of its columns. *)
Definition is_reflection (v : np.ndarray F) (ni : Z) (x : F) : Prop :=
  exists i, 0 <= i < ni /\ x = linear_reflection v i.

(** The corner array on entry to a chain:
    [np.full((ni, nj, 4), _MISSING_VALUE)]. *)
Definition fresh_corners (ni nj : Z) : np.ndarray F :=
  np.full [ni; nj; 4] _MISSING_VALUE.

(** The chain [fill] assigns entry [mi] of an array of shape [shp]:
    it runs to its end, and the entry it leaves does not depend on
    what the array held on entry. *)
Definition assigns (fill : np.ndarray F -> result (np.ndarray F))
    (shp mi : list Z) : Prop :=
  forall c0 c0' : np.ndarray F,
    np.shape c0 = shp -> np.shape c0' = shp ->
    exists c c', fill c0 = Ok c /\ fill c0' = Ok c' /\
                 np.item c mi = np.item c' mi.

(** The variable [var_name] of the grid's domain file, read as the
    methods read it, is the array [v] and has the shape of the grid. *)
Definition reads (self : OrcaGrid) (var_name : string) (v : np.ndarray F)
  : Prop :=
  first_record_T (domain_cfg self) var_name = Ok v /\
  np.shape v = [(shape self).1; (shape self).2].

End Orca.

(** The entry at [mi] of the array a call returned. *)
Definition entry {A} (r : result (np.ndarray A)) (mi : list Z) : option A :=
  match r with
  | Ok a => Some (np.item a mi)
  | Raise _ => None
  end.

(** *** classes OrcaTGrid, OrcaUGrid, OrcaVGrid

    The three classes have the same attributes and no method; an
    instance of any of them is a record of these attributes.  Each
    constructor builds an [OrcaGrid] and reads the six fields of its
    subgrid, in the order of the source. *)

Module view.
Record t (F : Type) : Type := mk {
  name : string;
  shape : Z * Z;
  size : Z;
  center_latitudes : np.ndarray F;
  center_longitudes : np.ndarray F;
  corner_latitudes : np.ndarray F;
  corner_longitudes : np.ndarray F;
  areas : np.ndarray F;
  mask : np.ndarray Z;
}.
Arguments mk {F} _ _ _ _ _ _ _ _ _.
Arguments name {F} _.
Arguments shape {F} _.
Arguments size {F} _.
Arguments center_latitudes {F} _.
Arguments center_longitudes {F} _.
Arguments corner_latitudes {F} _.
Arguments corner_longitudes {F} _.
Arguments areas {F} _.
Arguments mask {F} _.
End view.

Definition OrcaTGrid {F} `{Number F}
    (domain_cfg : Dataset F) (masks : option (Dataset F))
  : result (view.t F) :=
  let* ogrid := __init__ domain_cfg masks in
  let* center_latitudes := read_center_latitudes ogrid "t" in
  let* center_longitudes := read_center_longitudes ogrid "t" in
  let* corner_latitudes := read_corner_latitudes ogrid "t" in
  let* corner_longitudes := read_corner_longitudes ogrid "t" in
  let* areas := read_areas ogrid "t" in
  let* mask := read_mask ogrid "t" in
  Ok (view.mk (name ogrid) (shape ogrid) (size ogrid)
        center_latitudes center_longitudes
        corner_latitudes corner_longitudes areas mask).

Definition OrcaUGrid {F} `{Number F}
    (domain_cfg : Dataset F) (masks : option (Dataset F))
  : result (view.t F) :=
  let* ogrid := __init__ domain_cfg masks in
  let* center_latitudes := read_center_latitudes ogrid "u" in
  let* center_longitudes := read_center_longitudes ogrid "u" in
  let* corner_latitudes := read_corner_latitudes ogrid "u" in
  let* corner_longitudes := read_corner_longitudes ogrid "u" in
  let* areas := read_areas ogrid "u" in
  let* mask := read_mask ogrid "u" in
  Ok (view.mk (name ogrid) (shape ogrid) (size ogrid)
        center_latitudes center_longitudes
        corner_latitudes corner_longitudes areas mask).

Definition OrcaVGrid {F} `{Number F}
    (domain_cfg : Dataset F) (masks : option (Dataset F))
  : result (view.t F) :=
  let* ogrid := __init__ domain_cfg masks in
  let* center_latitudes := read_center_latitudes ogrid "v" in
  let* center_longitudes := read_center_longitudes ogrid "v" in
  let* corner_latitudes := read_corner_latitudes ogrid "v" in
  let* corner_longitudes := read_corner_longitudes ogrid "v" in
  let* areas := read_areas ogrid "v" in
  let* mask := read_mask ogrid "v" in
  Ok (view.mk (name ogrid) (shape ogrid) (size ogrid)
        center_latitudes center_longitudes
        corner_latitudes corner_longitudes areas mask).

(** Every required variable of the file has the shape (nt, nj, ni) of
    a field on the grid, with at least one record. *)
Definition fields_shaped {F} (cfg : Dataset F) (ni nj : Z) : Prop :=
  forall var_name, var_name ∈ _required ->
    exists var nt,
      variables cfg !! var_name = Some var /\
      np.shape var = [nt; nj; ni] /\ 1 <= nt.

(** ** prpoas/grids/assign.py

    The classes [GridA], [GridB] and [CoupleGrid] are defined in
    modules that are not among the sources; they are taken as
    parameters, together with the reading and the writing of the
    [mask] attribute of a base grid.  [couple_grid] returns the records
    it logs with [_log.error] and its outcome. *)

Module assign.
Section Assign.

Variables Grid Coupled Mask Kwarg : Type.
Variables GridA GridB : list Z -> gmap string Kwarg -> result Grid.
Variable CoupleGrid : Grid -> string -> result Coupled.
Variable get_mask : Grid -> Mask.
Variable set_mask : Grid -> Mask -> Grid.

(** The namedtuple [BaseGridFactory]. *)
Record BaseGridFactory : Type := {
  type : list Z -> gmap string Kwarg -> result Grid;
  args : list Z;
  kwargs : gmap string Kwarg;
  mask_mod : list (Mask -> result Mask);
}.

(** [_bgf(type, args)]: the defaults [({}, [])] go to the last two
    fields. *)
Definition _bgf (type : list Z -> gmap string Kwarg -> result Grid)
    (args : list Z) : BaseGridFactory :=
  {| type := type; args := args; kwargs := ∅; mask_mod := [] |}.

Definition _map : gmap string BaseGridFactory :=
  list_to_map
    [("IOCL", _bgf GridB [180; 90]);
     ("ILCL", _bgf GridB [181; 91]);
     ("RNFA", _bgf GridB [90; 45]);
     ("NOUM", _bgf GridA [54; 18]);
     ("NOVM", _bgf GridA [55; 19]);
     ("NOTM", _bgf GridA [56; 18])].

(** The loop [for mm in ...: base_grid.mask = mm(base_grid.mask)]. *)
Fixpoint apply_mask_mod (mods : list (Mask -> result Mask))
    (base_grid : Grid) : result Grid :=
  match mods with
  | [] => Ok base_grid
  | mm :: rest =>
      let* m := mm (get_mask base_grid) in
      apply_mask_mod rest (set_mask base_grid m)
  end.

Definition couple_grid (name : string) : list string * result Coupled :=
  let attempt :=
    let* factory := subscript _map name in
    type factory (args factory) (kwargs factory) in
  match attempt with
  | Raise KeyError =>
      (["Grid id " +:+ dquote +:+ name +:+ dquote
          +:+ " not found in the assign map"],
       Raise KeyError)
  | Raise e => ([], Raise e)
  | Ok base_grid =>
      ([],
       let* factory := subscript _map name in
       let* base_grid := apply_mask_mod (mask_mod factory) base_grid in
       CoupleGrid base_grid name)
  end.

End Assign.

Arguments type {Grid Mask Kwarg} _ _ _.
Arguments args {Grid Mask Kwarg} _.
Arguments kwargs {Grid Mask Kwarg} _.
Arguments mask_mod {Grid Mask Kwarg} _.
Arguments _bgf {Grid Mask Kwarg} _ _.
Arguments _map {Grid Mask Kwarg} _ _.
Arguments apply_mask_mod {Grid Mask} _ _ _ _.
Arguments couple_grid {Grid Coupled Mask Kwarg} _ _ _ _ _ _.
End assign.

(** ** Concrete datasets

    A domain file of the ORCA1L75 dimensions.  Every coordinate
    variable holds 1000 * i + j at (i, j), the scale factors are 1, and
    [top_level] is a checkerboard: 0 where i + j is even. *)

Definition ramp : np.ndarray Z :=
  np.mk [1; 292; 362]
    (fun mi => match mi with [_; j; i] => 1000 * i + j | _ => 0 end).

Definition checkerboard : np.ndarray Z :=
  np.mk [1; 292; 362]
    (fun mi => match mi with [_; j; i] => (i + j) mod 2 | _ => 0 end).

Definition orca1_variables (top_level : np.ndarray Z)
  : gmap string (np.ndarray Z) :=
  list_to_map
    [("glamt", ramp); ("glamu", ramp); ("glamv", ramp); ("glamf", ramp);
     ("gphit", ramp); ("gphiu", ramp); ("gphiv", ramp); ("gphif", ramp);
     ("e1t", np.full [1; 292; 362] 1); ("e1u", np.full [1; 292; 362] 1);
     ("e1v", np.full [1; 292; 362] 1); ("e1f", np.full [1; 292; 362] 1);
     ("e2t", np.full [1; 292; 362] 1); ("e2u", np.full [1; 292; 362] 1);
     ("e2v", np.full [1; 292; 362] 1); ("e2f", np.full [1; 292; 362] 1);
     ("top_level", top_level)].

Definition orca1_cfg : Dataset Z :=
  {| dimensions := {[ "x" := 362; "y" := 292; "z" := 75 ]};
     variables := orca1_variables checkerboard |}.

(** The same file with [top_level] zero everywhere. *)
Definition orca1_zero_cfg : Dataset Z :=
  {| dimensions := {[ "x" := 362; "y" := 292; "z" := 75 ]};
     variables := orca1_variables (np.full [1; 292; 362] 0) |}.

(** A file of dimensions that are in no supported configuration. *)
Definition small_cfg : Dataset Z :=
  {| dimensions := {[ "x" := 4; "y" := 4; "z" := 1 ]};
     variables := orca1_variables checkerboard |}.

(** The grids the constructor builds from them (lemma [orca1_built]). *)
Definition orca1 : OrcaGrid :=
  {| domain_cfg := orca1_cfg; masks := None;
     shape := (362, 292); size := 105704; name := "ORCA1L75" |}.

Definition orca1_zero : OrcaGrid :=
  {| domain_cfg := orca1_zero_cfg; masks := None;
     shape := (362, 292); size := 105704; name := "ORCA1L75" |}.

(** A small coordinate array, 10 * i + j at (i, j) for ni = 2 and
    nj = 3, and the list of the entries of a corner array. *)
Definition small_values : np.ndarray Z :=
  np.mk [2; 3] (fun mi => match mi with [i; j] => 10 * i + j | _ => 0 end).

Definition corners (ni nj : nat) (r : result (np.ndarray Z))
  : option (list (list (list Z))) :=
  match r with
  | Ok a =>
      Some (List.map (fun i =>
              List.map (fun j =>
                List.map (fun k => np.item a [Z.of_nat i; Z.of_nat j; k])
                  [0; 1; 2; 3])
                (seq 0 nj))
              (seq 0 ni))
  | Raise _ => None
  end.

(** A 2D array as the methods read it from [var]. *)
Definition read_of (cfg : Dataset Z) (var_name : string) : np.ndarray Z :=
  match first_record_T cfg var_name with
  | Ok v => v
  | Raise _ => np.full [] 0
  end.

(** The same file with [top_level] 1 everywhere. *)
Definition orca1_land_cfg : Dataset Z :=
  {| dimensions := {[ "x" := 362; "y" := 292; "z" := 75 ]};
     variables := orca1_variables (np.full [1; 292; 362] 1) |}.

Definition orca1_land : OrcaGrid :=
  {| domain_cfg := orca1_land_cfg; masks := None;
     shape := (362, 292); size := 105704; name := "ORCA1L75" |}.

(** A mask file whose three variables are the checkerboard, the grid
    that reads its masks there, and a mask file without [vmaskutil]. *)
Definition orca1_masks : Dataset Z :=
  {| dimensions := {[ "x" := 362; "y" := 292; "z" := 75 ]};
     variables :=
       list_to_map [("tmaskutil", checkerboard); ("umaskutil", checkerboard);
                    ("vmaskutil", checkerboard)] |}.

Definition orca1_masked : OrcaGrid :=
  {| domain_cfg := orca1_cfg; masks := Some orca1_masks;
     shape := (362, 292); size := 105704; name := "ORCA1L75" |}.

Definition incomplete_masks : Dataset Z :=
  {| dimensions := {[ "x" := 362; "y" := 292; "z" := 75 ]};
     variables :=
       list_to_map [("tmaskutil", checkerboard);
                    ("umaskutil", checkerboard)] |}.

(** A coordinate array of two rows, 10 * i + j at (i, j). *)
Definition two_rows : np.ndarray Z :=
  np.mk [2; 2] (fun mi => match mi with [i; j] => 10 * i + j | _ => 0 end).

(** Grid classes for [couple_grid] to call: a base grid is the letter
    of its class with its arguments, a coupled grid is the base grid
    with the id, and a class that refuses every argument. *)
Definition example_GridA (args : list Z) (kwargs : gmap string unit)
  : result (string * list Z) := Ok ("A", args).

Definition example_GridB (args : list Z) (kwargs : gmap string unit)
  : result (string * list Z) := Ok ("B", args).

Definition refusing_Grid (args : list Z) (kwargs : gmap string unit)
  : result (string * list Z) := Raise (ValueError "no such resolution").

Definition example_CoupleGrid (base_grid : string * list Z) (name : string)
  : result (string * list Z * string) := Ok (base_grid, name).

Definition example_get_mask (base_grid : string * list Z) : unit := tt.

Definition example_set_mask (base_grid : string * list Z) (mask : unit)
  : string * list Z := base_grid.

(** * Proofs *)

(** ** Subscripts and slices

    What each subscript of the module selects along an axis of length
    n: [:], [a:], [:b] and [k] with b and k possibly negative, and
    [::-1]. *)

Ltac zcases :=
  repeat match goal with
    | |- context [ (?a <? ?b) ] => destruct (Z.ltb_spec a b)
    | |- context [ (?a <=? ?b) ] => destruct (Z.leb_spec a b)
    | |- context [ (?a =? ?b) ] => destruct (Z.eqb_spec a b)
    | H : context [ (?a <? ?b) ] |- _ => destruct (Z.ltb_spec a b)
    | H : context [ (?a <=? ?b) ] |- _ => destruct (Z.leb_spec a b)
    | H : context [ (?a =? ?b) ] |- _ => destruct (Z.eqb_spec a b)
    end.

Ltac unfold_slice :=
  unfold np.resolve, np.slice_indices, np.clamp;
  cbn [default from_option id].

Ltac close_slice :=
  rewrite Z.div_1_r; zcases; cbn [bind fst snd]; f_equal; f_equal; lia.

Lemma resolve_all_slice n :
  0 <= n -> np.resolve all n = Ok (np.Range 0 1 n).
Proof.
  intros Hn. unfold_slice.
  change (1 =? 0) with false. change (1 <? 0) with false. cbv iota.
  close_slice.
Qed.

Lemma resolve_from a n :
  0 <= a <= n -> np.resolve (from a) n = Ok (np.Range a 1 (n - a)).
Proof.
  intros Hn. unfold_slice.
  change (1 =? 0) with false. change (1 <? 0) with false. cbv iota.
  close_slice.
Qed.

Lemma resolve_upto_neg b n :
  b < 0 <= b + n -> np.resolve (upto b) n = Ok (np.Range 0 1 (b + n)).
Proof.
  intros Hn. unfold_slice.
  change (1 =? 0) with false. change (1 <? 0) with false. cbv iota.
  close_slice.
Qed.

Lemma resolve_reversed n :
  0 <= n -> np.resolve reversed n = Ok (np.Range (n - 1) (-1) n).
Proof.
  intros Hn. unfold_slice.
  change (-1 =? 0) with false. change (-1 <? 0) with true. cbv iota.
  change (- -1) with 1.
  close_slice.
Qed.

Lemma resolve_At k n :
  0 <= k < n -> np.resolve (At k) n = Ok (np.Pick k).
Proof. intros Hn. unfold np.resolve. zcases; try lia; reflexivity. Qed.

Lemma resolve_At_neg k n :
  k < 0 <= k + n -> np.resolve (At k) n = Ok (np.Pick (k + n)).
Proof. intros Hn. unfold np.resolve. zcases; try lia; reflexivity. Qed.

(** Whether an assignment reaches a given multi-index. *)

Lemma locate_Range1 s len ss m mi :
  np.locate (np.Range s 1 len :: ss) (m :: mi) =
  if (s <=? m) && (m <? s + len)
  then option_map (cons (m - s)) (np.locate ss mi)
  else None.
Proof.
  cbn [np.locate]. rewrite Z.mod_1_r, Z.div_1_r.
  change (0 =? 0) with true. cbn [andb].
  destruct (Z.leb_spec 0 (m - s)), (Z.ltb_spec (m - s) len),
           (Z.leb_spec s m), (Z.ltb_spec m (s + len));
    cbn [andb]; try reflexivity; lia.
Qed.

Lemma locate_Pick k ss m mi :
  np.locate (np.Pick k :: ss) (m :: mi) =
  if m =? k then np.locate ss mi else None.
Proof. reflexivity. Qed.

Lemma locate_nil : np.locate [] [] = Some [].
Proof. reflexivity. Qed.

Lemma shape_eqb_true s1 s2 : s1 = s2 -> np.shape_eqb s1 s2 = true.
Proof.
  intros ->. unfold np.shape_eqb. apply bool_decide_eq_true_2. reflexivity.
Qed.

(** The zonal neighbours of a column, wrapped. *)

Lemma pred_mod i n :
  0 <= i < n -> (i - 1) mod n = if i =? 0 then n - 1 else i - 1.
Proof.
  intros Hi. destruct (Z.eqb_spec i 0) as [->|Hne].
  - symmetry. apply (Z.mod_unique _ _ (-1)); lia.
  - apply Z.mod_small. lia.
Qed.

Lemma succ_mod i n :
  0 <= i < n -> (i + 1) mod n = if i =? n - 1 then 0 else i + 1.
Proof.
  intros Hi. destruct (Z.eqb_spec i (n - 1)) as [->|Hne].
  - symmetry. apply (Z.mod_unique _ _ 1); lia.
  - apply Z.mod_small. lia.
Qed.

(** One assignment statement of a chain, once its value, its subscripts
    and the agreement of the shapes are known. *)
Lemma bind_assign {F} `{Number F} {B} (target : np.ndarray F) ixs value v ss
    (k : np.ndarray F -> result B) :
  value = Ok v ->
  np.resolve_all (np.expand_ellipsis ixs (length (np.shape target)))
    (np.shape target) = Ok ss ->
  np.shape v = np.selected_shape ss ->
  bind (assign target ixs value) k =
  k (np.mk (np.shape target)
       (fun mi => match np.locate ss mi with
                  | Some p => np.item v p
                  | None => np.item target mi
                  end)).
Proof.
  intros -> Hss Hv. unfold assign, np.setitem. cbn [bind].
  rewrite Hss. cbn [bind].
  rewrite shape_eqb_true by exact Hv. reflexivity.
Qed.

(** ** Running a chain of assignments

    [step] executes the next assignment of a chain on arrays of
    symbolic shape; [eval_item] then reads one entry of the array the
    chain leaves, in a region of the grid where every comparison of
    indices is decided. *)

Ltac shape_eq := repeat (apply (f_equal2 cons); [lia|]); reflexivity.

Ltac np_eval :=
  repeat first
    [ progress unfold np.getitem, minus, times, np.zip, np.map
    | progress cbn [bind np.getitem np.expand_ellipsis np.resolve_all
                      length Nat.sub np.shape np.item np.selected_shape
                      np.map np.zip minus times List.map]
    | rewrite resolve_all_slice by lia
    | rewrite resolve_from by lia
    | rewrite resolve_upto_neg by lia
    | rewrite resolve_reversed by lia
    | rewrite resolve_At by lia
    | rewrite resolve_At_neg by lia
    | rewrite shape_eqb_true by shape_eq ].

Ltac step :=
  erewrite bind_assign;
  [ cbv beta
  | np_eval; reflexivity
  | np_eval; reflexivity
  | np_eval; shape_eq ].

Ltac entry_eq :=
  repeat match goal with
    | |- fsub _ _ = fsub _ _ => apply f_equal2
    | |- fmul _ _ = fmul _ _ => apply f_equal2
    | |- of_int _ = of_int _ => reflexivity
    | |- ?f (_ :: _) = ?f (_ :: _) => apply (f_equal f)
    | |- _ :: _ = _ :: _ => apply f_equal2; [lia | ]
    | |- [] = [] => reflexivity
    end.

Ltac decide_cmp :=
  match goal with
  | |- context [ ?a <? ?b ] =>
      first [ rewrite (proj2 (Z.ltb_lt a b)) by lia
            | rewrite (proj2 (Z.ltb_ge a b)) by lia ]
  | |- context [ ?a <=? ?b ] =>
      first [ rewrite (proj2 (Z.leb_le a b)) by lia
            | rewrite (proj2 (Z.leb_gt a b)) by lia ]
  | |- context [ ?a =? ?b ] =>
      first [ rewrite (proj2 (Z.eqb_eq a b)) by lia
            | rewrite (proj2 (Z.eqb_neq a b)) by lia ]
  end.

Ltac eval_item :=
  cbn [np.item];
  rewrite ?pred_mod, ?succ_mod by lia;
  repeat first
    [ rewrite locate_Range1
    | rewrite locate_Pick
    | rewrite locate_nil
    | decide_cmp
    | progress cbn [andb option_map np.source_index] ];
  entry_eq.

Ltac start_fill Hlat Hc0 :=
  let s := fresh "s" in let f := fresh "f" in
  let s0 := fresh "s" in let f0 := fresh "f" in
  match goal with
  | |- context [ ?fill _ ?lat ?c0 ] =>
      destruct lat as [s f], c0 as [s0 f0]
  end;
  cbn [np.shape] in Hlat, Hc0; subst.

(** ** The entries the six chains leave

    For each subgrid, and for latitudes and longitudes, the chain runs
    to its end on a coordinate array of shape (ni, nj) with ni >= 1 and
    nj >= 3, whatever the corner array holds on entry, and every entry
    of the result is given by the coordinate array alone. *)

Section CornerProofs.
Context {F : Type} `{Number F}.

Lemma fill_corner_lats_t (lat c0 : np.ndarray F) ni nj :
  np.shape lat = [ni; nj] -> np.shape c0 = [ni; nj; 4] -> 1 <= ni -> 3 <= nj ->
  exists c, fill_corner_lats "t" lat c0 = Ok c /\ np.shape c = [ni; nj; 4] /\
  forall i j, 0 <= i < ni -> 0 <= j < nj ->
    np.item c [i; j; 0] = np.item lat [i; j] /\
    np.item c [i; j; 1] = np.item lat [(i - 1) mod ni; j] /\
    np.item c [i; j; 2] =
      (if j =? 0 then linear_reflection lat ((i - 1) mod ni)
       else np.item lat [(i - 1) mod ni; j - 1]) /\
    np.item c [i; j; 3] =
      (if j =? 0 then linear_reflection lat i else np.item lat [i; j - 1]).
Proof.
  intros Hlat Hc0 Hni Hnj. start_fill Hlat Hc0.
  unfold fill_corner_lats. change (str_in "t" "t") with true. cbv iota.
  do 9 step.
  eexists; split; [reflexivity|]. split; [reflexivity|].
  intros i j Hi Hj. unfold linear_reflection.
  destruct (Z.eqb_spec i 0), (Z.eqb_spec j 0); repeat split; eval_item.
Qed.

Lemma fill_corner_lons_t (lon c0 : np.ndarray F) ni nj :
  np.shape lon = [ni; nj] -> np.shape c0 = [ni; nj; 4] -> 1 <= ni -> 3 <= nj ->
  exists c, fill_corner_lons "t" lon c0 = Ok c /\ np.shape c = [ni; nj; 4] /\
  forall i j, 0 <= i < ni -> 0 <= j < nj ->
    np.item c [i; j; 0] = np.item lon [i; j] /\
    np.item c [i; j; 1] = np.item lon [(i - 1) mod ni; j] /\
    np.item c [i; j; 2] =
      (if j =? 0 then np.item lon [(i - 1) mod ni; 1]
       else np.item lon [(i - 1) mod ni; j - 1]) /\
    np.item c [i; j; 3] =
      (if j =? 0 then np.item lon [i; 1] else np.item lon [i; j - 1]).
Proof.
  intros Hlon Hc0 Hni Hnj. start_fill Hlon Hc0.
  unfold fill_corner_lons. change (str_in "t" "t") with true. cbv iota.
  do 9 step.
  eexists; split; [reflexivity|]. split; [reflexivity|].
  intros i j Hi Hj.
  destruct (Z.eqb_spec i 0), (Z.eqb_spec j 0); repeat split; eval_item.
Qed.

Lemma fill_corner_lats_u (lat c0 : np.ndarray F) ni nj :
  np.shape lat = [ni; nj] -> np.shape c0 = [ni; nj; 4] -> 1 <= ni -> 3 <= nj ->
  exists c, fill_corner_lats "u" lat c0 = Ok c /\ np.shape c = [ni; nj; 4] /\
  forall i j, 0 <= i < ni -> 0 <= j < nj ->
    np.item c [i; j; 0] = np.item lat [(i + 1) mod ni; j] /\
    np.item c [i; j; 1] = np.item lat [i; j] /\
    np.item c [i; j; 2] =
      (if j =? 0 then linear_reflection lat i else np.item lat [i; j - 1]) /\
    np.item c [i; j; 3] =
      (if j =? 0 then linear_reflection lat ((i + 1) mod ni)
       else np.item lat [(i + 1) mod ni; j - 1]).
Proof.
  intros Hlat Hc0 Hni Hnj. start_fill Hlat Hc0.
  unfold fill_corner_lats. change (str_in "u" "t") with false.
  change (String.eqb "u" "u") with true. cbv iota.
  do 9 step.
  eexists; split; [reflexivity|]. split; [reflexivity|].
  intros i j Hi Hj. unfold linear_reflection.
  destruct (Z.eqb_spec i (ni - 1)), (Z.eqb_spec j 0); repeat split; eval_item.
Qed.

Lemma fill_corner_lons_u (lon c0 : np.ndarray F) ni nj :
  np.shape lon = [ni; nj] -> np.shape c0 = [ni; nj; 4] -> 1 <= ni -> 3 <= nj ->
  exists c, fill_corner_lons "u" lon c0 = Ok c /\ np.shape c = [ni; nj; 4] /\
  forall i j, 0 <= i < ni -> 0 <= j < nj ->
    np.item c [i; j; 0] = np.item lon [(i + 1) mod ni; j] /\
    np.item c [i; j; 1] = np.item lon [i; j] /\
    np.item c [i; j; 2] =
      (if j =? 0 then np.item lon [i; 1] else np.item lon [i; j - 1]) /\
    np.item c [i; j; 3] =
      (if j =? 0 then np.item lon [(i + 1) mod ni; 0]
       else np.item lon [(i + 1) mod ni; j - 1]).
Proof.
  intros Hlon Hc0 Hni Hnj. start_fill Hlon Hc0.
  unfold fill_corner_lons. change (str_in "u" "t") with false.
  change (String.eqb "u" "u") with true. cbv iota.
  do 8 step.
  eexists; split; [reflexivity|]. split; [reflexivity|].
  intros i j Hi Hj.
  destruct (Z.eqb_spec i (ni - 1)), (Z.eqb_spec j 0); repeat split; eval_item.
Qed.

Lemma fill_corner_lats_v (lat c0 : np.ndarray F) ni nj :
  np.shape lat = [ni; nj] -> np.shape c0 = [ni; nj; 4] -> 1 <= ni -> 3 <= nj ->
  exists c, fill_corner_lats "v" lat c0 = Ok c /\ np.shape c = [ni; nj; 4] /\
  forall i j, 0 <= i < ni -> 0 <= j < nj ->
    np.item c [i; j; 0] =
      (if j =? nj - 1
       then (if i =? ni - 1 then np.item lat [ni - 1; nj - 1]
             else np.item lat [ni - 2 - i; nj - 1])
       else np.item lat [i; j + 1]) /\
    np.item c [i; j; 1] =
      (if j =? nj - 1 then np.item lat [ni - 1 - i; nj - 1]
       else np.item lat [(i - 1) mod ni; j + 1]) /\
    np.item c [i; j; 2] = np.item lat [(i - 1) mod ni; j] /\
    np.item c [i; j; 3] = np.item lat [i; j].
Proof.
  intros Hlat Hc0 Hni Hnj. start_fill Hlat Hc0.
  unfold fill_corner_lats. change (str_in "v" "t") with false.
  change (String.eqb "v" "u") with false.
  change (String.eqb "v" "v") with true. cbv iota.
  np_eval. do 9 step.
  eexists; split; [reflexivity|]. split; [reflexivity|].
  intros i j Hi Hj.
  destruct (Z.eqb_spec i 0), (Z.eqb_spec i (ni - 1)), (Z.eqb_spec j (nj - 1));
    repeat split; eval_item.
Qed.

Lemma fill_corner_lons_v (lon c0 : np.ndarray F) ni nj :
  np.shape lon = [ni; nj] -> np.shape c0 = [ni; nj; 4] -> 1 <= ni -> 3 <= nj ->
  exists c, fill_corner_lons "v" lon c0 = Ok c /\ np.shape c = [ni; nj; 4] /\
  forall i j, 0 <= i < ni -> 0 <= j < nj ->
    np.item c [i; j; 0] =
      (if j =? nj - 1
       then (if i =? ni - 1 then np.item lon [ni - 1; nj - 1]
             else np.item lon [ni - 2 - i; nj - 1])
       else np.item lon [i; j + 1]) /\
    np.item c [i; j; 1] =
      (if j =? nj - 1 then np.item lon [ni - 1 - i; nj - 1]
       else np.item lon [(i - 1) mod ni; j + 1]) /\
    np.item c [i; j; 2] = np.item lon [(i - 1) mod ni; j] /\
    np.item c [i; j; 3] = np.item lon [i; j].
Proof.
  intros Hlon Hc0 Hni Hnj. start_fill Hlon Hc0.
  unfold fill_corner_lons. change (str_in "v" "t") with false.
  change (String.eqb "v" "u") with false.
  change (String.eqb "v" "v") with true. cbv iota.
  np_eval. do 9 step.
  eexists; split; [reflexivity|]. split; [reflexivity|].
  intros i j Hi Hj.
  destruct (Z.eqb_spec i 0), (Z.eqb_spec i (ni - 1)), (Z.eqb_spec j (nj - 1));
    repeat split; eval_item.
Qed.
End CornerProofs.

(** ** Masks *)

Lemma _check_Ok subgrid : subgrid ∈ ["t"; "u"; "v"] -> _check subgrid = Ok tt.
Proof.
  intros Hin. unfold _check.
  rewrite bool_decide_eq_true_2 by exact Hin. reflexivity.
Qed.

(** After [_check] one branch of an if/elif chain on the subgrid is
    taken. *)
Lemma _check_covers_chain subgrid :
  _check subgrid = Ok tt ->
  String.eqb subgrid "t" || String.eqb subgrid "u" || String.eqb subgrid "v"
  = true.
Proof.
  unfold _check. destruct (bool_decide (subgrid ∈ ["t"; "u"; "v"])) eqn:Hin;
    [|discriminate].
  intros _. apply bool_decide_eq_true_1 in Hin.
  rewrite !elem_of_cons, elem_of_nil in Hin.
  destruct Hin as [->|[->|[->|[]]]]; reflexivity.
Qed.

(** [take] with mode wrap or clip never fails. *)

Lemma adjust_all_wrap n l :
  np.adjust_all np.mode_wrap n l = Ok (List.map (fun i => i mod n) l).
Proof.
  induction l as [|i l IH]; [reflexivity|].
  cbn [np.adjust_all np.adjust bind]. rewrite IH. reflexivity.
Qed.

Lemma adjust_all_clip n l :
  np.adjust_all np.mode_clip n l =
  Ok (List.map (fun i => Z.max 0 (Z.min i (n - 1))) l).
Proof.
  induction l as [|i l IH]; [reflexivity|].
  cbn [np.adjust_all np.adjust bind]. rewrite IH. reflexivity.
Qed.

Lemma length_range a b : a <= b -> Z.of_nat (length (range a b)) = b - a.
Proof. intros Hab. unfold range. rewrite length_seqZ. lia. Qed.

Lemma nth_map_range (f : Z -> Z) a b p :
  0 <= p < b - a -> nth (Z.to_nat p) (List.map f (range a b)) 0 = f (a + p).
Proof.
  intros Hp. rewrite nth_lookup. unfold range.
  change (List.map f (seqZ a (b - a))) with (f <$> seqZ a (b - a)).
  rewrite list_lookup_fmap.
  rewrite (proj2 (lookup_seqZ a (b - a) (Z.to_nat p) (a + p))) by lia.
  reflexivity.
Qed.

Section MaskProofs.
Context {F : Type} `{Number F}.

(** The three masks read without a mask file, in terms of
    [top_level]. *)
Lemma read_mask_derived (self : OrcaGrid) (top_level : np.ndarray F) ni nj :
  masks self = None ->
  first_record_T (domain_cfg self) "top_level" = Ok top_level ->
  np.shape top_level = [ni; nj] -> 0 <= ni -> 0 <= nj ->
  exists tmask umask vmask,
    read_mask self "t" = Ok tmask /\ read_mask self "u" = Ok umask /\
    read_mask self "v" = Ok vmask /\
    np.shape tmask = [ni; nj] /\ np.shape umask = [ni; nj] /\
    np.shape vmask = [ni; nj] /\
    forall i j, 0 <= i < ni -> 0 <= j < nj ->
      np.item tmask [i; j] = land (np.item top_level [i; j]) /\
      np.item umask [i; j] =
        land (np.item top_level [i; j]) *
        land (np.item top_level [(i + 1) mod ni; j]) /\
      np.item vmask [i; j] =
        land (np.item top_level [i; j]) *
        land (np.item top_level [i; Z.min (j + 1) (nj - 1)]).
Proof.
  intros Hmasks Hread Hshape Hni Hnj.
  destruct top_level as [s f]. cbn [np.shape] in Hshape. subst s.
  unfold read_mask. rewrite Hmasks, Hread.
  rewrite !_check_Ok by set_solver.
  cbn [bind].
  change (String.eqb "t" "t") with true.
  change (String.eqb "u" "t") with false. change (String.eqb "u" "u") with true.
  change (String.eqb "v" "t") with false.
  change (String.eqb "v" "u") with false.
  change (String.eqb "v" "v") with true. cbv iota.
  unfold shape_at, np.take, np.where_, np.map, np.zip.
  cbn [np.shape np.item lookup list_lookup bind].
  rewrite adjust_all_wrap, adjust_all_clip.
  cbn [bind np.shape np.item insert list_insert].
  rewrite !length_range by lia.
  rewrite !shape_eqb_true by shape_eq.
  do 3 eexists. do 3 (split; [reflexivity|]).
  cbn [np.shape np.item]. do 3 (split; [reflexivity|]).
  intros i j Hi Hj. cbn [lookup list_lookup insert list_insert].
  rewrite !nth_map_range by lia. unfold land.
  rewrite (Z.add_comm 1 i), (Z.add_comm 1 j).
  replace (Z.max 0 (Z.min (j + 1) (nj - 1))) with (Z.min (j + 1) (nj - 1))
    by lia.
  repeat split; reflexivity.
Qed.
End MaskProofs.

(** ** The properties *)

Lemma subgrid_cases (subgrid : string) :
  subgrid ∈ ["t"; "u"; "v"] ->
  subgrid = "t" \/ subgrid = "u" \/ subgrid = "v".
Proof. rewrite !elem_of_cons, elem_of_nil. tauto. Qed.

Ltac in_range := first [lia | apply Z.mod_pos_bound; lia].

(** The entry is an entry of the values, or else a reflection of them. *)
Ltac find_source :=
  repeat match goal with
    | |- context [ if ?a =? ?b then _ else _ ] => destruct (Z.eqb_spec a b)
    end;
  first
    [ left; eexists _, _; split; [|split]; cycle 2;
      [reflexivity | in_range | in_range]
    | right; eexists; split; cycle 1; [reflexivity | in_range]
    | eexists _, _; split; [|split]; cycle 2;
      [reflexivity | in_range | in_range] ].

Ltac four_cases k :=
  let Hk := fresh in
  assert (k = 0 \/ k = 1 \/ k = 2 \/ k = 3) as Hk by lia;
  destruct Hk as [->|[->|[->| ->]]].

Section ClaimProofs.
Context {F : Type} `{Number F}.

(** The two methods are their chains, run on the filled array. *)

Lemma read_corner_latitudes_fill
    (self : OrcaGrid) subgrid var_name lat_values ni nj :
  subgrid ∈ ["t"; "u"; "v"] -> shape self = (ni, nj) ->
  lat_var !! subgrid = Some var_name -> reads self var_name lat_values ->
  read_corner_latitudes self subgrid =
    fill_corner_lats subgrid lat_values (fresh_corners ni nj) /\
  np.shape lat_values = [ni; nj].
Proof.
  intros Hin Hshape Hvar [Hread Hs].
  unfold read_corner_latitudes, subscript.
  rewrite _check_Ok by exact Hin. rewrite Hvar. cbn [bind].
  rewrite Hread, Hshape in *. split; [reflexivity | exact Hs].
Qed.

Lemma read_corner_longitudes_fill
    (self : OrcaGrid) subgrid var_name lon_values ni nj :
  subgrid ∈ ["t"; "u"; "v"] -> shape self = (ni, nj) ->
  lon_var !! subgrid = Some var_name -> reads self var_name lon_values ->
  read_corner_longitudes self subgrid =
    fill_corner_lons subgrid lon_values (fresh_corners ni nj) /\
  np.shape lon_values = [ni; nj].
Proof.
  intros Hin Hshape Hvar [Hread Hs].
  unfold read_corner_longitudes, subscript.
  rewrite _check_Ok by exact Hin. rewrite Hvar. cbn [bind].
  rewrite Hread, Hshape in *. split; [reflexivity | exact Hs].
Qed.

(** An entry that a chain sets to a value free of the initial array is
    assigned by the chain. *)
Lemma assigns_intro
    (fill : np.ndarray F -> result (np.ndarray F)) shp mi (x : F) :
  (forall c0, np.shape c0 = shp ->
     exists c, fill c0 = Ok c /\ np.item c mi = x) ->
  assigns fill shp mi.
Proof.
  intros Hfill c1 c2 H1 H2.
  destruct (Hfill c1 H1) as (r1 & E1 & V1), (Hfill c2 H2) as (r2 & E2 & V2).
  exists r1, r2. split; [exact E1|]. split; [exact E2|]. congruence.
Qed.

Ltac assigned_by lemma Hs Hni Hnj Hi Hj k :=
  four_cases k;
  (eapply assigns_intro; intros c0 Hc0;
   destruct (lemma _ c0 _ _ Hs Hc0 Hni Hnj) as (r & E & _ & V);
   exists r; split; [exact E|];
   destruct (V _ _ Hi Hj) as (A0 & A1 & A2 & A3);
   first [exact A0 | exact A1 | exact A2 | exact A3]).

Ltac sourced V Hi Hj k :=
  destruct (V _ _ Hi Hj) as (A0 & A1 & A2 & A3);
  four_cases k;
  first [rewrite A0 | rewrite A1 | rewrite A2 | rewrite A3];
  find_source.

Ltac all_assigned lats lons Hlats Hlons Hni Hnj :=
  let cl := fresh "cl" in let co := fresh "co" in
  let El := fresh "El" in let Eo := fresh "Eo" in
  let Sl := fresh "Sl" in let So := fresh "So" in
  let Vl := fresh "Vl" in let Vo := fresh "Vo" in
  let i := fresh "i" in let j := fresh "j" in let k := fresh "k" in
  let Hi := fresh "Hi" in let Hj := fresh "Hj" in let Hk := fresh "Hk" in
  destruct (lats _ (fresh_corners _ _) _ _ Hlats eq_refl Hni Hnj)
    as (cl & El & Sl & Vl);
  destruct (lons _ (fresh_corners _ _) _ _ Hlons eq_refl Hni Hnj)
    as (co & Eo & So & Vo);
  exists cl, co; do 4 (split; [assumption|]); intros i j k Hi Hj Hk;
  split; [assigned_by lats Hlats Hni Hnj Hi Hj k|];
  split; [assigned_by lons Hlons Hni Hnj Hi Hj k|];
  split; [sourced Vl Hi Hj k | sourced Vo Hi Hj k].

(** C1.  For each subgrid tag t, u, v and coordinate arrays of the
    grid's shape (ni >= 2, nj >= 3), [read_corner_latitudes] and
    [read_corner_longitudes] return an (ni, nj, 4) array each of whose
    ni*nj*4 entries has been assigned: the final entry is independent
    of the array's initial content (the 1e20 fill), and it is an entry
    of the coordinate array read from the file or, for latitudes, a
    linear reflection of two of them. *)
Theorem corner_arrays_fully_assigned
    (self : OrcaGrid) (subgrid lat_name lon_name : string)
    (lat_values lon_values : np.ndarray F) (ni nj : Z) :
  subgrid ∈ ["t"; "u"; "v"] ->
  shape self = (ni, nj) -> 2 <= ni -> 3 <= nj ->
  lat_var !! subgrid = Some lat_name -> reads self lat_name lat_values ->
  lon_var !! subgrid = Some lon_name -> reads self lon_name lon_values ->
  exists corner_lats corner_lons,
    read_corner_latitudes self subgrid = Ok corner_lats /\
    read_corner_longitudes self subgrid = Ok corner_lons /\
    np.shape corner_lats = [ni; nj; 4] /\
    np.shape corner_lons = [ni; nj; 4] /\
    forall i j k, 0 <= i < ni -> 0 <= j < nj -> 0 <= k < 4 ->
      assigns (fill_corner_lats subgrid lat_values) [ni; nj; 4] [i; j; k] /\
      assigns (fill_corner_lons subgrid lon_values) [ni; nj; 4] [i; j; k] /\
      (is_entry lat_values ni nj (np.item corner_lats [i; j; k]) \/
       is_reflection lat_values ni (np.item corner_lats [i; j; k])) /\
      is_entry lon_values ni nj (np.item corner_lons [i; j; k]).
Proof.
  intros Hin Hshape Hni Hnj Hlat_name Hlat Hlon_name Hlon.
  destruct (read_corner_latitudes_fill self subgrid lat_name lat_values
              ni nj Hin Hshape Hlat_name Hlat) as [-> Hlats].
  destruct (read_corner_longitudes_fill self subgrid lon_name lon_values
              ni nj Hin Hshape Hlon_name Hlon) as [-> Hlons].
  assert (1 <= ni) as Hni1 by lia.
  unfold is_entry, is_reflection.
  destruct (subgrid_cases _ Hin) as [->|[->| ->]].
  - all_assigned (@fill_corner_lats_t F _) (@fill_corner_lons_t F _)
      Hlats Hlons Hni1 Hnj.
  - all_assigned (@fill_corner_lats_u F _) (@fill_corner_lons_u F _)
      Hlats Hlons Hni1 Hnj.
  - all_assigned (@fill_corner_lats_v F _) (@fill_corner_lons_v F _)
      Hlats Hlons Hni1 Hnj.
Qed.

(** The entries of the two arrays returned for the V subgrid. *)
Lemma read_corner_v
    (self : OrcaGrid) (lat_values lon_values : np.ndarray F) ni nj :
  shape self = (ni, nj) -> 1 <= ni -> 3 <= nj ->
  reads self "gphiu" lat_values -> reads self "glamu" lon_values ->
  exists corner_lats corner_lons,
    read_corner_latitudes self "v" = Ok corner_lats /\
    read_corner_longitudes self "v" = Ok corner_lons /\
    forall (v c : np.ndarray F),
      (v = lat_values /\ c = corner_lats) \/
      (v = lon_values /\ c = corner_lons) ->
      forall i j, 0 <= i < ni -> 0 <= j < nj ->
        np.item c [i; j; 0] =
          (if j =? nj - 1
           then (if i =? ni - 1 then np.item v [ni - 1; nj - 1]
                 else np.item v [ni - 2 - i; nj - 1])
           else np.item v [i; j + 1]) /\
        np.item c [i; j; 1] =
          (if j =? nj - 1 then np.item v [ni - 1 - i; nj - 1]
           else np.item v [(i - 1) mod ni; j + 1]) /\
        np.item c [i; j; 2] = np.item v [(i - 1) mod ni; j] /\
        np.item c [i; j; 3] = np.item v [i; j].
Proof.
  intros Hshape Hni Hnj Hlat Hlon.
  assert ("v" ∈ ["t"; "u"; "v"]) as Hin by set_solver.
  destruct (read_corner_latitudes_fill self "v" "gphiu" lat_values
              ni nj Hin Hshape eq_refl Hlat) as [-> Hlats].
  destruct (read_corner_longitudes_fill self "v" "glamu" lon_values
              ni nj Hin Hshape eq_refl Hlon) as [-> Hlons].
  destruct (fill_corner_lats_v _ (fresh_corners ni nj) _ _
              Hlats eq_refl Hni Hnj) as (cl & El & Sl & Vl).
  destruct (fill_corner_lons_v _ (fresh_corners ni nj) _ _
              Hlons eq_refl Hni Hnj) as (co & Eo & So & Vo).
  exists cl, co. do 2 (split; [assumption|]).
  intros v c [[-> ->]|[-> ->]]; assumption.
Qed.

(** C3, as the code has it.  On the V subgrid the two fold-affected
    corners of the northern row mirror the opposite corners: corner 0
    at column i is corner 2 at column ni-1-i, and corner 1 at column i
    is corner 3 at column ni-1-i, in both returned arrays and for every
    input. *)
Theorem v_fold_mirrors_opposite_corners
    (self : OrcaGrid) (lat_values lon_values : np.ndarray F) (ni nj : Z) :
  shape self = (ni, nj) -> 2 <= ni -> 3 <= nj ->
  reads self "gphiu" lat_values -> reads self "glamu" lon_values ->
  exists corner_lats corner_lons,
    read_corner_latitudes self "v" = Ok corner_lats /\
    read_corner_longitudes self "v" = Ok corner_lons /\
    forall i, 0 <= i < ni ->
      np.item corner_lats [i; nj - 1; 0] =
        np.item corner_lats [ni - 1 - i; nj - 1; 2] /\
      np.item corner_lats [i; nj - 1; 1] =
        np.item corner_lats [ni - 1 - i; nj - 1; 3] /\
      np.item corner_lons [i; nj - 1; 0] =
        np.item corner_lons [ni - 1 - i; nj - 1; 2] /\
      np.item corner_lons [i; nj - 1; 1] =
        np.item corner_lons [ni - 1 - i; nj - 1; 3].
Proof.
  intros Hshape Hni Hnj Hlat Hlon.
  destruct (read_corner_v self lat_values lon_values ni nj
              Hshape ltac:(lia) Hnj Hlat Hlon) as (cl & co & El & Eo & V).
  exists cl, co. do 2 (split; [assumption|]). intros i Hi.
  assert (0 <= ni - 1 - i < ni) as Hi' by lia.
  assert (0 <= nj - 1 < nj) as Hj by lia.
  pose proof (V lat_values cl (or_introl (conj eq_refl eq_refl))) as Vl.
  pose proof (V lon_values co (or_intror (conj eq_refl eq_refl))) as Vo.
  destruct (Vl i (nj - 1) Hi Hj) as (A0 & A1 & _ & _).
  destruct (Vl (ni - 1 - i) (nj - 1) Hi' Hj) as (_ & _ & A2 & A3).
  destruct (Vo i (nj - 1) Hi Hj) as (B0 & B1 & _ & _).
  destruct (Vo (ni - 1 - i) (nj - 1) Hi' Hj) as (_ & _ & B2 & B3).
  rewrite A0, A1, A2, A3, B0, B1, B2, B3.
  rewrite !pred_mod by lia.
  destruct (Z.eqb_spec i (ni - 1)); repeat decide_cmp; repeat split; entry_eq.
Qed.

(** C9.  The V subgrid wraps zonally as T and U do: at column 0,
    corner 1 of every row below the northern one and corner 2 of every
    row are read at column ni-1 of the other-family array, for
    latitudes and for longitudes. *)
Theorem v_zonal_wraparound
    (self : OrcaGrid) (lat_values lon_values : np.ndarray F) (ni nj : Z) :
  shape self = (ni, nj) -> 2 <= ni -> 3 <= nj ->
  reads self "gphiu" lat_values -> reads self "glamu" lon_values ->
  exists corner_lats corner_lons,
    read_corner_latitudes self "v" = Ok corner_lats /\
    read_corner_longitudes self "v" = Ok corner_lons /\
    forall j, 0 <= j < nj ->
      (j < nj - 1 ->
         np.item corner_lats [0; j; 1] = np.item lat_values [ni - 1; j + 1] /\
         np.item corner_lons [0; j; 1] = np.item lon_values [ni - 1; j + 1]) /\
      np.item corner_lats [0; j; 2] = np.item lat_values [ni - 1; j] /\
      np.item corner_lons [0; j; 2] = np.item lon_values [ni - 1; j].
Proof.
  intros Hshape Hni Hnj Hlat Hlon.
  destruct (read_corner_v self lat_values lon_values ni nj
              Hshape ltac:(lia) Hnj Hlat Hlon) as (cl & co & El & Eo & V).
  exists cl, co. do 2 (split; [assumption|]). intros j Hj.
  assert (0 <= 0 < ni) as Hi by lia.
  pose proof (V lat_values cl (or_introl (conj eq_refl eq_refl))) as Vl.
  pose proof (V lon_values co (or_intror (conj eq_refl eq_refl))) as Vo.
  destruct (Vl 0 j Hi Hj) as (_ & A1 & A2 & _).
  destruct (Vo 0 j Hi Hj) as (_ & B1 & B2 & _).
  rewrite A1, A2, B1, B2. rewrite !pred_mod by lia.
  change (0 =? 0) with true. cbv iota.
  split; [|split; reflexivity].
  intros Hj'. repeat decide_cmp. split; reflexivity.
Qed.

(** C6.  On the T subgrid, at the southern row j = 0, the latitude
    corners 3 and 2 are the linear reflection 2*v[:,1] - v[:,2] of the
    other-family array (at the cell's column, and at the column to its
    west, wrapped), and the longitude corners 3 and 2 are the copies
    of v[:,1] at the same columns. *)
Theorem t_southern_row_extrapolation
    (self : OrcaGrid) (lat_values lon_values : np.ndarray F) (ni nj : Z) :
  shape self = (ni, nj) -> 2 <= ni -> 3 <= nj ->
  reads self "gphif" lat_values -> reads self "glamf" lon_values ->
  exists corner_lats corner_lons,
    read_corner_latitudes self "t" = Ok corner_lats /\
    read_corner_longitudes self "t" = Ok corner_lons /\
    forall i, 0 <= i < ni ->
      np.item corner_lats [i; 0; 3] =
        fsub (fmul (of_int 2) (np.item lat_values [i; 1]))
             (np.item lat_values [i; 2]) /\
      np.item corner_lats [i; 0; 2] =
        fsub (fmul (of_int 2) (np.item lat_values [(i - 1) mod ni; 1]))
             (np.item lat_values [(i - 1) mod ni; 2]) /\
      np.item corner_lons [i; 0; 3] = np.item lon_values [i; 1] /\
      np.item corner_lons [i; 0; 2] = np.item lon_values [(i - 1) mod ni; 1].
Proof.
  intros Hshape Hni Hnj Hlat Hlon.
  assert ("t" ∈ ["t"; "u"; "v"]) as Hin by set_solver.
  destruct (read_corner_latitudes_fill self "t" "gphif" lat_values
              ni nj Hin Hshape eq_refl Hlat) as [-> Hlats].
  destruct (read_corner_longitudes_fill self "t" "glamf" lon_values
              ni nj Hin Hshape eq_refl Hlon) as [-> Hlons].
  destruct (fill_corner_lats_t _ (fresh_corners ni nj) _ _
              Hlats eq_refl ltac:(lia) Hnj) as (cl & El & Sl & Vl).
  destruct (fill_corner_lons_t _ (fresh_corners ni nj) _ _
              Hlons eq_refl ltac:(lia) Hnj) as (co & Eo & So & Vo).
  exists cl, co. do 2 (split; [assumption|]). intros i Hi.
  assert (0 <= 0 < nj) as Hj by lia.
  destruct (Vl i 0 Hi Hj) as (_ & _ & A2 & A3).
  destruct (Vo i 0 Hi Hj) as (_ & _ & B2 & B3).
  change (0 =? 0) with true in *. cbv iota in *.
  unfold linear_reflection in *. repeat split; assumption.
Qed.

(** C7, as the code has it.  It is on the U subgrid that the corner
    longitudes of row j = 0 at corner 3 are the copy of those of row
    j = 1, for every input. *)
Theorem u_row0_corner3_copies_row1
    (self : OrcaGrid) (lon_values : np.ndarray F) (ni nj : Z) :
  shape self = (ni, nj) -> 2 <= ni -> 3 <= nj ->
  reads self "glamv" lon_values ->
  exists corner_lons,
    read_corner_longitudes self "u" = Ok corner_lons /\
    forall i, 0 <= i < ni ->
      np.item corner_lons [i; 0; 3] = np.item corner_lons [i; 1; 3].
Proof.
  intros Hshape Hni Hnj Hlon.
  assert ("u" ∈ ["t"; "u"; "v"]) as Hin by set_solver.
  destruct (read_corner_longitudes_fill self "u" "glamv" lon_values
              ni nj Hin Hshape eq_refl Hlon) as [-> Hlons].
  destruct (fill_corner_lons_u _ (fresh_corners ni nj) _ _
              Hlons eq_refl ltac:(lia) Hnj) as (co & Eo & So & Vo).
  exists co. split; [assumption|]. intros i Hi.
  destruct (Vo i 0 Hi ltac:(lia)) as (_ & _ & _ & B0).
  destruct (Vo i 1 Hi ltac:(lia)) as (_ & _ & _ & B1).
  rewrite B0, B1. reflexivity.
Qed.

Lemma land_cases (x : F) : land x = 0 \/ land x = 1.
Proof. unfold land. destruct (feqb x (of_int 0)); auto. Qed.

(** C2.  Without a mask file, for every cell (i, j): tmask is 1 where
    top_level == 0 and 0 elsewhere; umask is tmask times tmask one
    cell to the east, wrapped around in i; vmask is tmask times tmask
    one cell to the north, clamped to the last row. *)
Theorem read_mask_derivation
    (self : OrcaGrid) (top_level : np.ndarray F) (ni nj : Z) :
  masks self = None ->
  first_record_T (domain_cfg self) "top_level" = Ok top_level ->
  np.shape top_level = [ni; nj] -> 0 <= ni -> 0 <= nj ->
  exists tmask umask vmask,
    read_mask self "t" = Ok tmask /\
    read_mask self "u" = Ok umask /\
    read_mask self "v" = Ok vmask /\
    forall i j, 0 <= i < ni -> 0 <= j < nj ->
      np.item tmask [i; j] =
        (if feqb (np.item top_level [i; j]) (of_int 0) then 1 else 0) /\
      np.item umask [i; j] =
        np.item tmask [i; j] * np.item tmask [(i + 1) mod ni; j] /\
      np.item vmask [i; j] =
        np.item tmask [i; j] * np.item tmask [i; Z.min (j + 1) (nj - 1)].
Proof.
  intros Hmasks Hread Hshape Hni Hnj.
  destruct (read_mask_derived self top_level ni nj Hmasks Hread Hshape Hni Hnj)
    as (tm & um & vm & Et & Eu & Ev & _ & _ & _ & V).
  exists tm, um, vm. do 3 (split; [assumption|]). intros i j Hi Hj.
  destruct (V i j Hi Hj) as (At & Au & Av).
  assert (0 <= (i + 1) mod ni < ni) as Hi' by (apply Z.mod_pos_bound; lia).
  destruct (V ((i + 1) mod ni) j Hi' Hj) as (At' & _).
  destruct (V i (Z.min (j + 1) (nj - 1)) Hi ltac:(lia)) as (At'' & _).
  rewrite At, Au, Av, At', At''. repeat split; reflexivity.
Qed.

(** C4, as the code has it.  Without a mask file a U or V point is
    masked exactly when both T points it lies between are masked:
    umask[i,j] == 1 if and only if tmask[i,j] == 1 and
    tmask[(i+1) mod ni, j] == 1, and vmask[i,j] == 1 if and only if
    tmask[i,j] == 1 and tmask[i, min(j+1, nj-1)] == 1. *)
Theorem mask_needs_both_neighbours
    (self : OrcaGrid) (top_level : np.ndarray F) (ni nj : Z) :
  masks self = None ->
  first_record_T (domain_cfg self) "top_level" = Ok top_level ->
  np.shape top_level = [ni; nj] -> 0 <= ni -> 0 <= nj ->
  exists tmask umask vmask,
    read_mask self "t" = Ok tmask /\
    read_mask self "u" = Ok umask /\
    read_mask self "v" = Ok vmask /\
    forall i j, 0 <= i < ni -> 0 <= j < nj ->
      (np.item umask [i; j] = 1 <->
         np.item tmask [i; j] = 1 /\ np.item tmask [(i + 1) mod ni; j] = 1) /\
      (np.item vmask [i; j] = 1 <->
         np.item tmask [i; j] = 1 /\
         np.item tmask [i; Z.min (j + 1) (nj - 1)] = 1).
Proof.
  intros Hmasks Hread Hshape Hni Hnj.
  destruct (read_mask_derived self top_level ni nj Hmasks Hread Hshape Hni Hnj)
    as (tm & um & vm & Et & Eu & Ev & _ & _ & _ & V).
  exists tm, um, vm. do 3 (split; [assumption|]). intros i j Hi Hj.
  destruct (V i j Hi Hj) as (At & Au & Av).
  assert (0 <= (i + 1) mod ni < ni) as Hi' by (apply Z.mod_pos_bound; lia).
  destruct (V ((i + 1) mod ni) j Hi' Hj) as (At' & _).
  destruct (V i (Z.min (j + 1) (nj - 1)) Hi ltac:(lia)) as (At'' & _).
  rewrite At, Au, Av, At', At''.
  destruct (land_cases (np.item top_level [i; j])) as [-> | ->],
           (land_cases (np.item top_level [(i + 1) mod ni; j])) as [-> | ->],
           (land_cases (np.item top_level [i; Z.min (j + 1) (nj - 1)]))
             as [-> | ->];
    lia.
Qed.

(** C10.  Without a mask file the U and V masks are bounded, cell by
    cell, by the T mask, and every entry of the three masks is 0 or
    1. *)
Theorem derived_masks_bounded
    (self : OrcaGrid) (top_level : np.ndarray F) (ni nj : Z) :
  masks self = None ->
  first_record_T (domain_cfg self) "top_level" = Ok top_level ->
  np.shape top_level = [ni; nj] -> 0 <= ni -> 0 <= nj ->
  exists tmask umask vmask,
    read_mask self "t" = Ok tmask /\
    read_mask self "u" = Ok umask /\
    read_mask self "v" = Ok vmask /\
    forall i j, 0 <= i < ni -> 0 <= j < nj ->
      np.item umask [i; j] <= np.item tmask [i; j] /\
      np.item vmask [i; j] <= np.item tmask [i; j] /\
      (np.item tmask [i; j] = 0 \/ np.item tmask [i; j] = 1) /\
      (np.item umask [i; j] = 0 \/ np.item umask [i; j] = 1) /\
      (np.item vmask [i; j] = 0 \/ np.item vmask [i; j] = 1).
Proof.
  intros Hmasks Hread Hshape Hni Hnj.
  destruct (read_mask_derived self top_level ni nj Hmasks Hread Hshape Hni Hnj)
    as (tm & um & vm & Et & Eu & Ev & _ & _ & _ & V).
  exists tm, um, vm. do 3 (split; [assumption|]). intros i j Hi Hj.
  destruct (V i j Hi Hj) as (-> & -> & ->).
  destruct (land_cases (np.item top_level [i; j])) as [-> | ->],
           (land_cases (np.item top_level [(i + 1) mod ni; j])) as [-> | ->],
           (land_cases (np.item top_level [i; Z.min (j + 1) (nj - 1)]))
             as [-> | ->];
    lia.
Qed.

(** C5, as the code has it.  When top_level is zero everywhere, the
    mask read without a mask file is 1 everywhere, for each of the
    subgrids T, U and V. *)
Theorem zero_top_level_mask_all_one
    (self : OrcaGrid) (top_level : np.ndarray F) (ni nj : Z)
    (subgrid : string) :
  masks self = None ->
  first_record_T (domain_cfg self) "top_level" = Ok top_level ->
  np.shape top_level = [ni; nj] -> 0 <= ni -> 0 <= nj ->
  (forall i j, 0 <= i < ni -> 0 <= j < nj ->
     feqb (np.item top_level [i; j]) (of_int 0) = true) ->
  subgrid ∈ ["t"; "u"; "v"] ->
  exists mask,
    read_mask self subgrid = Ok mask /\
    np.shape mask = [ni; nj] /\
    forall i j, 0 <= i < ni -> 0 <= j < nj -> np.item mask [i; j] = 1.
Proof.
  intros Hmasks Hread Hshape Hni Hnj Hzero Hin.
  destruct (read_mask_derived self top_level ni nj Hmasks Hread Hshape Hni Hnj)
    as (tm & um & vm & Et & Eu & Ev & St & Su & Sv & V).
  assert (forall i j, 0 <= i < ni -> 0 <= j < nj ->
            land (np.item top_level [i; j]) = 1) as Hland.
  { intros i j Hi Hj. unfold land. rewrite (Hzero i j Hi Hj). reflexivity. }
  destruct (subgrid_cases _ Hin) as [->|[->| ->]];
    [exists tm | exists um | exists vm];
    (split; [assumption|]); (split; [assumption|]);
    intros i j Hi Hj; destruct (V i j Hi Hj) as (At & Au & Av);
    rewrite ?At, ?Au, ?Av, ?Hland; try reflexivity; try assumption;
    try (apply Z.mod_pos_bound; lia); lia.
Qed.

(** C8.  The constructor fails closed.  When a dimension x, y or z is
    absent, when the triple (ni, nj, nk) is neither (362, 292, 75) nor
    (360, 331, 75), or when a required variable is absent, it raises
    the error by which the code reports a bad configuration, a
    RuntimeError with the message of the case, and so returns no grid
    object. *)
Theorem init_fails_closed
    (cfg : Dataset F) (mask_file : option (Dataset F)) :
  ((dimensions cfg !! "x" = None \/ dimensions cfg !! "y" = None \/
    dimensions cfg !! "z" = None) ->
   __init__ cfg mask_file =
     Raise (RuntimeError "Missing dimensions in NEMO domain config")) /\
  (forall ni nj nk,
     dimensions cfg !! "x" = Some ni -> dimensions cfg !! "y" = Some nj ->
     dimensions cfg !! "z" = Some nk ->
     (ni, nj, nk) <> (362, 292, 75) -> (ni, nj, nk) <> (360, 331, 75) ->
     __init__ cfg mask_file =
       Raise (RuntimeError "Unknown dimensions in NEMO domain config")) /\
  (forall ni nj nk var_name,
     dimensions cfg !! "x" = Some ni -> dimensions cfg !! "y" = Some nj ->
     dimensions cfg !! "z" = Some nk ->
     (ni, nj, nk) = (362, 292, 75) \/ (ni, nj, nk) = (360, 331, 75) ->
     var_name ∈ _required -> variables cfg !! var_name = None ->
     __init__ cfg mask_file =
       Raise (RuntimeError "Missing variables in NEMO domain config")).
Proof.
  split; [|split].
  - intros Hmissing. unfold __init__, subscript.
    destruct (dimensions cfg !! "x"); [|reflexivity].
    destruct (dimensions cfg !! "y"); [|reflexivity].
    destruct (dimensions cfg !! "z"); [|reflexivity].
    destruct Hmissing as [?|[?|?]]; discriminate.
  - intros ni nj nk Hx Hy Hz Hne1 Hne2. unfold __init__, subscript.
    rewrite Hx, Hy, Hz. cbn [bind except_KeyError fst snd].
    unfold _orca_names.
    rewrite lookup_insert_ne by (intros E; apply Hne1; symmetry; exact E).
    rewrite lookup_singleton_ne by (intros E; apply Hne2; symmetry; exact E).
    reflexivity.
  - intros ni nj nk var_name Hx Hy Hz Hknown Hin Hnone.
    unfold __init__, subscript.
    rewrite Hx, Hy, Hz. cbn [bind except_KeyError fst snd].
    assert (exists n, _orca_names !! (ni, nj, nk) = Some n) as [n ->].
    { destruct Hknown as [-> | ->]; eexists; reflexivity. }
    cbn [bind except_KeyError]. unfold issubset.
    rewrite bool_decide_eq_false_2; [reflexivity|].
    intros Hsub. assert (var_name ∈ dom (variables cfg)) as Hdom.
    { apply Hsub. apply elem_of_list_to_set. exact Hin. }
    apply elem_of_dom in Hdom. rewrite Hnone in Hdom.
    destruct Hdom. discriminate.
Qed.
End ClaimProofs.

(** ** The chains on the 2 x 3 array

    The four corners of each cell, row by row, as the chains leave
    them. *)

Example fill_corner_lats_t_small :
  corners 2 3 (fill_corner_lats "t" small_values (fresh_corners 2 3)) =
  Some [[[0; 10; 10; 0]; [1; 11; 10; 0]; [2; 12; 11; 1]];
        [[10; 0; 0; 10]; [11; 1; 0; 10]; [12; 2; 1; 11]]].
Proof. vm_compute. reflexivity. Qed.

Example fill_corner_lons_u_small :
  corners 2 3 (fill_corner_lons "u" small_values (fresh_corners 2 3)) =
  Some [[[10; 0; 1; 10]; [11; 1; 0; 10]; [12; 2; 1; 11]];
        [[0; 10; 11; 0]; [1; 11; 10; 0]; [2; 12; 11; 1]]].
Proof. vm_compute. reflexivity. Qed.

Example fill_corner_lats_v_small :
  corners 2 3 (fill_corner_lats "v" small_values (fresh_corners 2 3)) =
  Some [[[1; 11; 10; 0]; [2; 12; 11; 1]; [2; 12; 12; 2]];
        [[11; 1; 0; 10]; [12; 2; 1; 11]; [12; 2; 2; 12]]].
Proof. vm_compute. reflexivity. Qed.

(** With nj = 2 the T chain stops at the reflection, which reads row 2. *)
Example fill_corner_lats_t_two_rows :
  fill_corner_lats "t" (np.full [2; 2] 0) (fresh_corners 2 2) =
  Raise (IndexError "index is out of bounds").
Proof. vm_compute. reflexivity. Qed.

(** ** The model at work on the ORCA1L75 file

    The constructor accepts the two example files, and every required
    variable, read as the methods read it, has the shape of the grid. *)

Lemma init_Ok {F} `{Number F} (cfg : Dataset F) mask_file (self : OrcaGrid) :
  __init__ cfg mask_file = Ok self ->
  domain_cfg self = cfg /\ masks self = mask_file /\
  (shape self = (362, 292) \/ shape self = (360, 331)) /\
  size self = (shape self).1 * (shape self).2.
Proof.
  unfold __init__, subscript.
  destruct (dimensions cfg !! "x") as [ni|]; [|discriminate].
  destruct (dimensions cfg !! "y") as [nj|]; [|discriminate].
  destruct (dimensions cfg !! "z") as [nk|]; [|discriminate].
  cbn [bind except_KeyError fst snd].
  destruct (_orca_names !! (ni, nj, nk)) as [n|] eqn:Hname; [|discriminate].
  cbn [bind except_KeyError].
  destruct (negb (issubset (list_to_set _required) (variables cfg)));
    [discriminate|]. cbn [bind].
  assert (shape_known : (ni, nj) = (362, 292) \/ (ni, nj) = (360, 331)).
  { unfold _orca_names in Hname.
    apply lookup_insert_Some in Hname as [[E _]|[_ Hname]];
      [left; congruence|].
    apply lookup_singleton_Some in Hname as [E _]. right; congruence. }
  destruct mask_file as [m|];
    [destruct (negb (issubset _ (variables m))); [discriminate|]|];
    cbn [bind]; intros [= <-]; cbn; auto.
Qed.

Lemma orca1_built : __init__ orca1_cfg None = Ok orca1.
Proof. vm_compute. reflexivity. Qed.

Lemma orca1_zero_built : __init__ orca1_zero_cfg None = Ok orca1_zero.
Proof. vm_compute. reflexivity. Qed.

(** Witness of C1: the V subgrid of the ORCA1L75 example. *)
Lemma corner_arrays_fully_assigned_orca1 :
  exists corner_lats corner_lons,
    read_corner_latitudes orca1 "v" = Ok corner_lats /\
    read_corner_longitudes orca1 "v" = Ok corner_lons /\
    np.shape corner_lats = [362; 292; 4] /\
    np.shape corner_lons = [362; 292; 4] /\
    forall i j k, 0 <= i < 362 -> 0 <= j < 292 -> 0 <= k < 4 ->
      assigns (fill_corner_lats "v" (read_of orca1_cfg "gphiu"))
        [362; 292; 4] [i; j; k] /\
      assigns (fill_corner_lons "v" (read_of orca1_cfg "glamu"))
        [362; 292; 4] [i; j; k] /\
      (is_entry (read_of orca1_cfg "gphiu") 362 292
         (np.item corner_lats [i; j; k]) \/
       is_reflection (read_of orca1_cfg "gphiu") 362
         (np.item corner_lats [i; j; k])) /\
      is_entry (read_of orca1_cfg "glamu") 362 292
        (np.item corner_lons [i; j; k]).
Proof.
  apply (corner_arrays_fully_assigned orca1 "v" "gphiu" "glamu"
           (read_of orca1_cfg "gphiu") (read_of orca1_cfg "glamu") 362 292);
    [ apply (bool_decide_unpack _); vm_compute; exact I
    | reflexivity | lia | lia
    | reflexivity | split; vm_compute; reflexivity
    | reflexivity | split; vm_compute; reflexivity ].
Defined.

(** Witness of C2: the masks of the ORCA1L75 example. *)
Lemma read_mask_derivation_orca1 :
  exists tmask umask vmask,
    read_mask orca1 "t" = Ok tmask /\
    read_mask orca1 "u" = Ok umask /\
    read_mask orca1 "v" = Ok vmask /\
    forall i j, 0 <= i < 362 -> 0 <= j < 292 ->
      np.item tmask [i; j] =
        (if feqb (np.item (read_of orca1_cfg "top_level") [i; j]) (of_int 0)
         then 1 else 0) /\
      np.item umask [i; j] =
        np.item tmask [i; j] * np.item tmask [(i + 1) mod 362; j] /\
      np.item vmask [i; j] =
        np.item tmask [i; j] * np.item tmask [i; Z.min (j + 1) (292 - 1)].
Proof.
  apply (read_mask_derivation orca1 (read_of orca1_cfg "top_level") 362 292);
    [ reflexivity | vm_compute; reflexivity | vm_compute; reflexivity
    | lia | lia ].
Defined.

(** Counterexample to C3 as stated: on the ORCA1L75 example the
    northern-row entries of corner 1, and those of corner 0, differ
    between column 0 and its mirror column 361. *)
Lemma v_fold_same_corner_fails :
  exists x y x' y',
    entry (read_corner_latitudes orca1 "v") [0; 291; 1] = Some x /\
    entry (read_corner_latitudes orca1 "v") [361; 291; 1] = Some y /\
    x <> y /\
    entry (read_corner_latitudes orca1 "v") [0; 291; 0] = Some x' /\
    entry (read_corner_latitudes orca1 "v") [361; 291; 0] = Some y' /\
    x' <> y'.
Proof.
  exists 361291, 291, 360291, 361291.
  repeat split; try (vm_compute; reflexivity); lia.
Qed.

(** Witness of C3 as amended. *)
Lemma v_fold_mirrors_opposite_corners_orca1 :
  exists corner_lats corner_lons,
    read_corner_latitudes orca1 "v" = Ok corner_lats /\
    read_corner_longitudes orca1 "v" = Ok corner_lons /\
    forall i, 0 <= i < 362 ->
      np.item corner_lats [i; 292 - 1; 0] =
        np.item corner_lats [362 - 1 - i; 292 - 1; 2] /\
      np.item corner_lats [i; 292 - 1; 1] =
        np.item corner_lats [362 - 1 - i; 292 - 1; 3] /\
      np.item corner_lons [i; 292 - 1; 0] =
        np.item corner_lons [362 - 1 - i; 292 - 1; 2] /\
      np.item corner_lons [i; 292 - 1; 1] =
        np.item corner_lons [362 - 1 - i; 292 - 1; 3].
Proof.
  apply (v_fold_mirrors_opposite_corners orca1
           (read_of orca1_cfg "gphiu") (read_of orca1_cfg "glamu") 362 292);
    [ reflexivity | lia | lia
    | split; vm_compute; reflexivity | split; vm_compute; reflexivity ].
Defined.

(** Counterexample to C4 as stated: at cell (0, 0) of the ORCA1L75
    example the T mask is 1 and the U and V masks are 0. *)
Lemma mask_either_neighbour_fails :
  entry (read_mask orca1 "t") [0; 0] = Some 1 /\
  entry (read_mask orca1 "u") [0; 0] = Some 0 /\
  entry (read_mask orca1 "v") [0; 0] = Some 0.
Proof. repeat split; vm_compute; reflexivity. Qed.

(** Witness of C4 as amended. *)
Lemma mask_needs_both_neighbours_orca1 :
  exists tmask umask vmask,
    read_mask orca1 "t" = Ok tmask /\
    read_mask orca1 "u" = Ok umask /\
    read_mask orca1 "v" = Ok vmask /\
    forall i j, 0 <= i < 362 -> 0 <= j < 292 ->
      (np.item umask [i; j] = 1 <->
         np.item tmask [i; j] = 1 /\ np.item tmask [(i + 1) mod 362; j] = 1) /\
      (np.item vmask [i; j] = 1 <->
         np.item tmask [i; j] = 1 /\
         np.item tmask [i; Z.min (j + 1) (292 - 1)] = 1).
Proof.
  apply (mask_needs_both_neighbours orca1
           (read_of orca1_cfg "top_level") 362 292);
    [ reflexivity | vm_compute; reflexivity | vm_compute; reflexivity
    | lia | lia ].
Defined.

(** Counterexample to C5 as stated: with [top_level] zero everywhere,
    the three masks are 1, not 0, at cell (0, 0). *)
Lemma zero_top_level_mask_not_zero :
  (forall i j, np.item (read_of orca1_zero_cfg "top_level") [i; j] = 0) /\
  entry (read_mask orca1_zero "t") [0; 0] = Some 1 /\
  entry (read_mask orca1_zero "u") [0; 0] = Some 1 /\
  entry (read_mask orca1_zero "v") [0; 0] = Some 1.
Proof.
  split; [intros i j; reflexivity|].
  repeat split; vm_compute; reflexivity.
Qed.

(** Witness of C5 as amended. *)
Lemma zero_top_level_mask_all_one_orca1 :
  exists mask,
    read_mask orca1_zero "u" = Ok mask /\
    np.shape mask = [362; 292] /\
    forall i j, 0 <= i < 362 -> 0 <= j < 292 -> np.item mask [i; j] = 1.
Proof.
  apply (zero_top_level_mask_all_one orca1_zero
           (read_of orca1_zero_cfg "top_level") 362 292 "u");
    [ reflexivity | vm_compute; reflexivity | vm_compute; reflexivity
    | lia | lia
    | intros i j _ _; reflexivity
    | apply (bool_decide_unpack _); vm_compute; exact I ].
Defined.

(** Witness of C6. *)
Lemma t_southern_row_extrapolation_orca1 :
  exists corner_lats corner_lons,
    read_corner_latitudes orca1 "t" = Ok corner_lats /\
    read_corner_longitudes orca1 "t" = Ok corner_lons /\
    forall i, 0 <= i < 362 ->
      np.item corner_lats [i; 0; 3] =
        fsub (fmul (of_int 2) (np.item (read_of orca1_cfg "gphif") [i; 1]))
             (np.item (read_of orca1_cfg "gphif") [i; 2]) /\
      np.item corner_lats [i; 0; 2] =
        fsub (fmul (of_int 2)
                (np.item (read_of orca1_cfg "gphif") [(i - 1) mod 362; 1]))
             (np.item (read_of orca1_cfg "gphif") [(i - 1) mod 362; 2]) /\
      np.item corner_lons [i; 0; 3] =
        np.item (read_of orca1_cfg "glamf") [i; 1] /\
      np.item corner_lons [i; 0; 2] =
        np.item (read_of orca1_cfg "glamf") [(i - 1) mod 362; 1].
Proof.
  apply (t_southern_row_extrapolation orca1
           (read_of orca1_cfg "gphif") (read_of orca1_cfg "glamf") 362 292);
    [ reflexivity | lia | lia
    | split; vm_compute; reflexivity | split; vm_compute; reflexivity ].
Defined.

(** Counterexample to C7 as stated: on the V subgrid of the ORCA1L75
    example, corner 3 of cell (0, 0) and of cell (0, 1) differ. *)
Lemma v_row0_corner3_not_copied :
  exists x y,
    entry (read_corner_longitudes orca1 "v") [0; 0; 3] = Some x /\
    entry (read_corner_longitudes orca1 "v") [0; 1; 3] = Some y /\
    x <> y.
Proof.
  exists 0, 1. repeat split; try (vm_compute; reflexivity); lia.
Qed.

(** Witness of C7 as amended. *)
Lemma u_row0_corner3_copies_row1_orca1 :
  exists corner_lons,
    read_corner_longitudes orca1 "u" = Ok corner_lons /\
    forall i, 0 <= i < 362 ->
      np.item corner_lons [i; 0; 3] = np.item corner_lons [i; 1; 3].
Proof.
  apply (u_row0_corner3_copies_row1 orca1 (read_of orca1_cfg "glamv") 362 292);
    [ reflexivity | lia | lia | split; vm_compute; reflexivity ].
Defined.

(** Witness of C8: a file of dimensions (4, 4, 1), one without the
    dimension z, and one of the ORCA1L75 dimensions without variables. *)
Lemma init_fails_closed_examples :
  __init__ small_cfg None =
    Raise (RuntimeError "Unknown dimensions in NEMO domain config") /\
  __init__ {| dimensions := {[ "x" := 362; "y" := 292 ]};
              variables := orca1_variables checkerboard |} None =
    Raise (RuntimeError "Missing dimensions in NEMO domain config") /\
  __init__ {| dimensions := dimensions orca1_cfg;
              variables := (∅ : gmap string (np.ndarray Z)) |} None =
    Raise (RuntimeError "Missing variables in NEMO domain config").
Proof.
  split; [|split].
  - apply (proj1 (proj2 (init_fails_closed small_cfg None)) 4 4 1);
      [ reflexivity | reflexivity | reflexivity | discriminate | discriminate ].
  - apply (proj1 (init_fails_closed _ None)). right. right. reflexivity.
  - apply (proj2 (proj2 (init_fails_closed _ None)) 362 292 75 "top_level");
      [ reflexivity | reflexivity | reflexivity | left; reflexivity
      | apply (bool_decide_unpack _); vm_compute; exact I | reflexivity ].
Defined.

(** Witness of C9. *)
Lemma v_zonal_wraparound_orca1 :
  exists corner_lats corner_lons,
    read_corner_latitudes orca1 "v" = Ok corner_lats /\
    read_corner_longitudes orca1 "v" = Ok corner_lons /\
    forall j, 0 <= j < 292 ->
      (j < 292 - 1 ->
         np.item corner_lats [0; j; 1] =
           np.item (read_of orca1_cfg "gphiu") [362 - 1; j + 1] /\
         np.item corner_lons [0; j; 1] =
           np.item (read_of orca1_cfg "glamu") [362 - 1; j + 1]) /\
      np.item corner_lats [0; j; 2] =
        np.item (read_of orca1_cfg "gphiu") [362 - 1; j] /\
      np.item corner_lons [0; j; 2] =
        np.item (read_of orca1_cfg "glamu") [362 - 1; j].
Proof.
  apply (v_zonal_wraparound orca1
           (read_of orca1_cfg "gphiu") (read_of orca1_cfg "glamu") 362 292);
    [ reflexivity | lia | lia
    | split; vm_compute; reflexivity | split; vm_compute; reflexivity ].
Defined.

(** Witness of C10. *)
Lemma derived_masks_bounded_orca1 :
  exists tmask umask vmask,
    read_mask orca1 "t" = Ok tmask /\
    read_mask orca1 "u" = Ok umask /\
    read_mask orca1 "v" = Ok vmask /\
    forall i j, 0 <= i < 362 -> 0 <= j < 292 ->
      np.item umask [i; j] <= np.item tmask [i; j] /\
      np.item vmask [i; j] <= np.item tmask [i; j] /\
      (np.item tmask [i; j] = 0 \/ np.item tmask [i; j] = 1) /\
      (np.item umask [i; j] = 0 \/ np.item umask [i; j] = 1) /\
      (np.item vmask [i; j] = 0 \/ np.item vmask [i; j] = 1).
Proof.
  apply (derived_masks_bounded orca1 (read_of orca1_cfg "top_level") 362 292);
    [ reflexivity | vm_compute; reflexivity | vm_compute; reflexivity
    | lia | lia ].
Defined.

(** * Further properties of the module *)

(** ** Corners of neighbouring cells *)

Section CornerMesh.
Context {F : Type} `{Number F}.

(** The entries of the two arrays returned for the T subgrid; [south]
    is the rule of the southern row. *)
Lemma read_corner_t
    (self : OrcaGrid) (lat_values lon_values : np.ndarray F) ni nj :
  shape self = (ni, nj) -> 1 <= ni -> 3 <= nj ->
  reads self "gphif" lat_values -> reads self "glamf" lon_values ->
  exists corner_lats corner_lons,
    read_corner_latitudes self "t" = Ok corner_lats /\
    read_corner_longitudes self "t" = Ok corner_lons /\
    forall (v c : np.ndarray F) (south : Z -> F),
      (v = lat_values /\ c = corner_lats /\
       south = linear_reflection lat_values) \/
      (v = lon_values /\ c = corner_lons /\
       south = (fun i => np.item lon_values [i; 1])) ->
      forall i j, 0 <= i < ni -> 0 <= j < nj ->
        np.item c [i; j; 0] = np.item v [i; j] /\
        np.item c [i; j; 1] = np.item v [(i - 1) mod ni; j] /\
        np.item c [i; j; 2] =
          (if j =? 0 then south ((i - 1) mod ni)
           else np.item v [(i - 1) mod ni; j - 1]) /\
        np.item c [i; j; 3] =
          (if j =? 0 then south i else np.item v [i; j - 1]).
Proof.
  intros Hshape Hni Hnj Hlat Hlon.
  assert ("t" ∈ ["t"; "u"; "v"]) as Hin by set_solver.
  destruct (read_corner_latitudes_fill self "t" "gphif" lat_values
              ni nj Hin Hshape eq_refl Hlat) as [-> Hlats].
  destruct (read_corner_longitudes_fill self "t" "glamf" lon_values
              ni nj Hin Hshape eq_refl Hlon) as [-> Hlons].
  destruct (fill_corner_lats_t _ (fresh_corners ni nj) _ _
              Hlats eq_refl Hni Hnj) as (cl & El & Sl & Vl).
  destruct (fill_corner_lons_t _ (fresh_corners ni nj) _ _
              Hlons eq_refl Hni Hnj) as (co & Eo & So & Vo).
  exists cl, co. do 2 (split; [assumption|]).
  intros v c south [(-> & -> & ->)|(-> & -> & ->)]; assumption.
Qed.

(** The same for the U subgrid; [south2] and [south3] are the rules of
    the southern row for corners 2 and 3. *)
Lemma read_corner_u
    (self : OrcaGrid) (lat_values lon_values : np.ndarray F) ni nj :
  shape self = (ni, nj) -> 1 <= ni -> 3 <= nj ->
  reads self "gphiv" lat_values -> reads self "glamv" lon_values ->
  exists corner_lats corner_lons,
    read_corner_latitudes self "u" = Ok corner_lats /\
    read_corner_longitudes self "u" = Ok corner_lons /\
    forall (v c : np.ndarray F) (south2 south3 : Z -> F),
      (v = lat_values /\ c = corner_lats /\
       south2 = linear_reflection lat_values /\
       south3 = linear_reflection lat_values) \/
      (v = lon_values /\ c = corner_lons /\
       south2 = (fun i => np.item lon_values [i; 1]) /\
       south3 = (fun i => np.item lon_values [i; 0])) ->
      forall i j, 0 <= i < ni -> 0 <= j < nj ->
        np.item c [i; j; 0] = np.item v [(i + 1) mod ni; j] /\
        np.item c [i; j; 1] = np.item v [i; j] /\
        np.item c [i; j; 2] =
          (if j =? 0 then south2 i else np.item v [i; j - 1]) /\
        np.item c [i; j; 3] =
          (if j =? 0 then south3 ((i + 1) mod ni)
           else np.item v [(i + 1) mod ni; j - 1]).
Proof.
  intros Hshape Hni Hnj Hlat Hlon.
  assert ("u" ∈ ["t"; "u"; "v"]) as Hin by set_solver.
  destruct (read_corner_latitudes_fill self "u" "gphiv" lat_values
              ni nj Hin Hshape eq_refl Hlat) as [-> Hlats].
  destruct (read_corner_longitudes_fill self "u" "glamv" lon_values
              ni nj Hin Hshape eq_refl Hlon) as [-> Hlons].
  destruct (fill_corner_lats_u _ (fresh_corners ni nj) _ _
              Hlats eq_refl Hni Hnj) as (cl & El & Sl & Vl).
  destruct (fill_corner_lons_u _ (fresh_corners ni nj) _ _
              Hlons eq_refl Hni Hnj) as (co & Eo & So & Vo).
  exists cl, co. do 2 (split; [assumption|]).
  intros v c south2 south3 [(-> & -> & -> & ->)|(-> & -> & -> & ->)];
    assumption.
Qed.

Lemma west_in_range i ni : 1 <= ni -> 0 <= (i - 1) mod ni < ni.
Proof. intros Hni. apply Z.mod_pos_bound. lia. Qed.

Lemma east_in_range i ni : 1 <= ni -> 0 <= (i + 1) mod ni < ni.
Proof. intros Hni. apply Z.mod_pos_bound. lia. Qed.

(** X1.  T cells tile the grid: corners 1 and 2 of a cell are corners
    0 and 3 of the cell to its west (the last column for column 0), on
    every row, and on rows j >= 1 corners 3 and 2 are corners 0 and 1
    of the cell to its south; for latitudes and for longitudes. *)
Theorem t_cells_share_corners
    (self : OrcaGrid) (lat_values lon_values : np.ndarray F) (ni nj : Z) :
  shape self = (ni, nj) -> 1 <= ni -> 3 <= nj ->
  reads self "gphif" lat_values -> reads self "glamf" lon_values ->
  exists corner_lats corner_lons,
    read_corner_latitudes self "t" = Ok corner_lats /\
    read_corner_longitudes self "t" = Ok corner_lons /\
    forall c, c = corner_lats \/ c = corner_lons ->
    forall i j, 0 <= i < ni -> 0 <= j < nj ->
      np.item c [i; j; 1] = np.item c [(i - 1) mod ni; j; 0] /\
      np.item c [i; j; 2] = np.item c [(i - 1) mod ni; j; 3] /\
      (1 <= j ->
         np.item c [i; j; 3] = np.item c [i; j - 1; 0] /\
         np.item c [i; j; 2] = np.item c [i; j - 1; 1]).
Proof.
  intros Hshape Hni Hnj Hlat Hlon.
  destruct (read_corner_t self lat_values lon_values ni nj
              Hshape Hni Hnj Hlat Hlon) as (cl & co & El & Eo & V).
  exists cl, co. do 2 (split; [assumption|]).
  intros c Hc i j Hi Hj.
  pose proof (west_in_range i ni Hni) as Hw.
  assert (exists v south, forall i j, 0 <= i < ni -> 0 <= j < nj ->
            np.item c [i; j; 0] = np.item v [i; j] /\
            np.item c [i; j; 1] = np.item v [(i - 1) mod ni; j] /\
            np.item c [i; j; 2] =
              (if j =? 0 then south ((i - 1) mod ni)
               else np.item v [(i - 1) mod ni; j - 1]) /\
            np.item c [i; j; 3] =
              (if j =? 0 then south i else np.item v [i; j - 1]))
    as (v & south & Vc).
  { destruct Hc as [-> | ->]; eexists _, _; apply V; [left|right]; eauto. }
  destruct (Vc i j Hi Hj) as (_ & A1 & A2 & A3).
  destruct (Vc ((i - 1) mod ni) j Hw Hj) as (W0 & _ & _ & W3).
  split; [congruence|]. split; [congruence|].
  intros Hj1.
  destruct (Vc i (j - 1) Hi ltac:(lia)) as (S0 & S1 & _ & _).
  rewrite A2, A3, S0, S1. repeat decide_cmp. split; reflexivity.
Qed.

(** X2.  U cells: corner 0 of a cell is corner 1 of the cell to its
    east (column 0 for the last column) on every row, and on rows
    j >= 1 corner 3 is corner 2 of that cell and corners 2 and 3 are
    corners 1 and 0 of the cell to the south.  On the southern row
    corner 3 is corner 2 of the eastern cell for latitudes. *)
Theorem u_cells_share_corners
    (self : OrcaGrid) (lat_values lon_values : np.ndarray F) (ni nj : Z) :
  shape self = (ni, nj) -> 1 <= ni -> 3 <= nj ->
  reads self "gphiv" lat_values -> reads self "glamv" lon_values ->
  exists corner_lats corner_lons,
    read_corner_latitudes self "u" = Ok corner_lats /\
    read_corner_longitudes self "u" = Ok corner_lons /\
    forall i j, 0 <= i < ni -> 0 <= j < nj ->
      np.item corner_lats [i; j; 3] =
        np.item corner_lats [(i + 1) mod ni; j; 2] /\
      forall c, c = corner_lats \/ c = corner_lons ->
        np.item c [i; j; 0] = np.item c [(i + 1) mod ni; j; 1] /\
        (1 <= j ->
           np.item c [i; j; 3] = np.item c [(i + 1) mod ni; j; 2] /\
           np.item c [i; j; 2] = np.item c [i; j - 1; 1] /\
           np.item c [i; j; 3] = np.item c [i; j - 1; 0]).
Proof.
  intros Hshape Hni Hnj Hlat Hlon.
  destruct (read_corner_u self lat_values lon_values ni nj
              Hshape Hni Hnj Hlat Hlon) as (cl & co & El & Eo & V).
  exists cl, co. do 2 (split; [assumption|]).
  intros i j Hi Hj.
  pose proof (east_in_range i ni Hni) as He.
  split.
  - pose proof (V lat_values cl _ _
                  (or_introl (conj eq_refl (conj eq_refl
                     (conj eq_refl eq_refl))))) as Vl.
    destruct (Vl i j Hi Hj) as (_ & _ & _ & A3).
    destruct (Vl ((i + 1) mod ni) j He Hj) as (_ & _ & E2 & _).
    congruence.
  - intros c Hc.
    assert (exists v south2 south3,
              forall i j, 0 <= i < ni -> 0 <= j < nj ->
                np.item c [i; j; 0] = np.item v [(i + 1) mod ni; j] /\
                np.item c [i; j; 1] = np.item v [i; j] /\
                np.item c [i; j; 2] =
                  (if j =? 0 then south2 i else np.item v [i; j - 1]) /\
                np.item c [i; j; 3] =
                  (if j =? 0 then south3 ((i + 1) mod ni)
                   else np.item v [(i + 1) mod ni; j - 1]))
      as (v & south2 & south3 & Vc).
    { destruct Hc as [-> | ->]; eexists _, _, _; apply V;
        [left|right]; eauto 6. }
    destruct (Vc i j Hi Hj) as (A0 & _ & A2 & A3).
    destruct (Vc ((i + 1) mod ni) j He Hj) as (_ & E1 & E2 & _).
    split; [congruence|]. intros Hj1.
    destruct (Vc i (j - 1) Hi ltac:(lia)) as (S0 & S1 & _ & _).
    rewrite A2, A3, E2, S0, S1. repeat decide_cmp. repeat split; reflexivity.
Qed.

(** X3.  V cells: corners 1 and 2 of a cell are corners 0 and 3 of the
    cell to its west (the last column for column 0) on every row, the
    northern row of the fold included, and below the northern row
    corners 0 and 1 are corners 3 and 2 of the cell to the north; for
    latitudes and for longitudes. *)
Theorem v_cells_share_corners
    (self : OrcaGrid) (lat_values lon_values : np.ndarray F) (ni nj : Z) :
  shape self = (ni, nj) -> 1 <= ni -> 3 <= nj ->
  reads self "gphiu" lat_values -> reads self "glamu" lon_values ->
  exists corner_lats corner_lons,
    read_corner_latitudes self "v" = Ok corner_lats /\
    read_corner_longitudes self "v" = Ok corner_lons /\
    forall c, c = corner_lats \/ c = corner_lons ->
    forall i j, 0 <= i < ni -> 0 <= j < nj ->
      np.item c [i; j; 1] = np.item c [(i - 1) mod ni; j; 0] /\
      np.item c [i; j; 2] = np.item c [(i - 1) mod ni; j; 3] /\
      (j < nj - 1 ->
         np.item c [i; j; 0] = np.item c [i; j + 1; 3] /\
         np.item c [i; j; 1] = np.item c [i; j + 1; 2]).
Proof.
  intros Hshape Hni Hnj Hlat Hlon.
  destruct (read_corner_v self lat_values lon_values ni nj
              Hshape Hni Hnj Hlat Hlon) as (cl & co & El & Eo & V).
  exists cl, co. do 2 (split; [assumption|]).
  intros c Hc i j Hi Hj.
  pose proof (west_in_range i ni Hni) as Hw.
  assert (exists v, forall i j, 0 <= i < ni -> 0 <= j < nj ->
            np.item c [i; j; 0] =
              (if j =? nj - 1
               then (if i =? ni - 1 then np.item v [ni - 1; nj - 1]
                     else np.item v [ni - 2 - i; nj - 1])
               else np.item v [i; j + 1]) /\
            np.item c [i; j; 1] =
              (if j =? nj - 1 then np.item v [ni - 1 - i; nj - 1]
               else np.item v [(i - 1) mod ni; j + 1]) /\
            np.item c [i; j; 2] = np.item v [(i - 1) mod ni; j] /\
            np.item c [i; j; 3] = np.item v [i; j]) as (v & Vc).
  { destruct Hc as [-> | ->]; eexists; apply V; [left|right]; eauto. }
  destruct (Vc i j Hi Hj) as (A0 & A1 & A2 & _).
  destruct (Vc ((i - 1) mod ni) j Hw Hj) as (W0 & _ & _ & W3).
  split; [|split; [congruence|]].
  - rewrite A1, W0. rewrite !pred_mod by lia.
    destruct (Z.eqb_spec j (nj - 1)); [|reflexivity].
    destruct (Z.eqb_spec i 0); repeat decide_cmp; entry_eq.
  - intros Hj1.
    destruct (Vc i (j + 1) Hi ltac:(lia)) as (_ & _ & N2 & N3).
    rewrite A0, A1, N2, N3. repeat decide_cmp. split; reflexivity.
Qed.

(** X4.  U subgrid, southern row j = 0.  The latitude corners 2 and 3
    are the linear reflection 2*v[:,1] - v[:,2] at the cell's column and
    at the column to its east; the longitude corner 2 is v[i, 1], and
    the longitude corner 3 is v[(i+1) mod ni, 0], the value of row 0
    itself. *)
Theorem u_southern_row
    (self : OrcaGrid) (lat_values lon_values : np.ndarray F) (ni nj : Z) :
  shape self = (ni, nj) -> 1 <= ni -> 3 <= nj ->
  reads self "gphiv" lat_values -> reads self "glamv" lon_values ->
  exists corner_lats corner_lons,
    read_corner_latitudes self "u" = Ok corner_lats /\
    read_corner_longitudes self "u" = Ok corner_lons /\
    forall i, 0 <= i < ni ->
      np.item corner_lats [i; 0; 2] = linear_reflection lat_values i /\
      np.item corner_lats [i; 0; 3] =
        linear_reflection lat_values ((i + 1) mod ni) /\
      np.item corner_lons [i; 0; 2] = np.item lon_values [i; 1] /\
      np.item corner_lons [i; 0; 3] = np.item lon_values [(i + 1) mod ni; 0].
Proof.
  intros Hshape Hni Hnj Hlat Hlon.
  destruct (read_corner_u self lat_values lon_values ni nj
              Hshape Hni Hnj Hlat Hlon) as (cl & co & El & Eo & V).
  exists cl, co. do 2 (split; [assumption|]). intros i Hi.
  assert (0 <= 0 < nj) as Hj by lia.
  destruct (V lat_values cl _ _
              (or_introl (conj eq_refl (conj eq_refl
                 (conj eq_refl eq_refl)))) i 0 Hi Hj) as (_ & _ & A2 & A3).
  destruct (V lon_values co _ _
              (or_intror (conj eq_refl (conj eq_refl
                 (conj eq_refl eq_refl)))) i 0 Hi Hj) as (_ & _ & B2 & B3).
  repeat split; assumption.
Qed.

(** X5.  V subgrid, northern row j = nj-1 (the F-pivot).  Corners 0 and
    1 are read in the same row of the other-family array, in reverse
    order: corner 1 of column i is v[ni-1-i, nj-1]; corner 0 of column
    i is v[ni-2-i, nj-1] for i < ni-1 and v[ni-1, nj-1] for the last
    column.  Corners 2 and 3 follow the rule of the other rows. *)
Theorem v_northern_row
    (self : OrcaGrid) (lat_values lon_values : np.ndarray F) (ni nj : Z) :
  shape self = (ni, nj) -> 1 <= ni -> 3 <= nj ->
  reads self "gphiu" lat_values -> reads self "glamu" lon_values ->
  exists corner_lats corner_lons,
    read_corner_latitudes self "v" = Ok corner_lats /\
    read_corner_longitudes self "v" = Ok corner_lons /\
    forall v c,
      (v = lat_values /\ c = corner_lats) \/
      (v = lon_values /\ c = corner_lons) ->
      forall i, 0 <= i < ni ->
        (i < ni - 1 ->
           np.item c [i; nj - 1; 0] = np.item v [ni - 2 - i; nj - 1]) /\
        np.item c [ni - 1; nj - 1; 0] = np.item v [ni - 1; nj - 1] /\
        np.item c [i; nj - 1; 1] = np.item v [ni - 1 - i; nj - 1] /\
        np.item c [i; nj - 1; 2] = np.item v [(i - 1) mod ni; nj - 1] /\
        np.item c [i; nj - 1; 3] = np.item v [i; nj - 1].
Proof.
  intros Hshape Hni Hnj Hlat Hlon.
  destruct (read_corner_v self lat_values lon_values ni nj
              Hshape Hni Hnj Hlat Hlon) as (cl & co & El & Eo & V).
  exists cl, co. do 2 (split; [assumption|]).
  intros v c Hvc i Hi.
  assert (0 <= nj - 1 < nj) as Hj by lia.
  destruct (V v c Hvc i (nj - 1) Hi Hj) as (A0 & A1 & A2 & A3).
  destruct (V v c Hvc (ni - 1) (nj - 1) ltac:(lia) Hj) as (L0 & _).
  rewrite A0, A1, A2, A3, L0. repeat decide_cmp.
  split; [|repeat split; reflexivity].
  intros Hlt. repeat decide_cmp. reflexivity.
Qed.
End CornerMesh.

(** ** The chains on one array *)

Lemma resolve_At_out k n :
  0 <= n <= k -> exists msg, np.resolve (At k) n = Raise (IndexError msg).
Proof.
  intros Hk. unfold np.resolve. zcases; try lia; eexists; reflexivity.
Qed.

Section Chains.
Context {F : Type} `{Number F}.

(** X6.  Away from the edges of the grid each corner is the value of
    the other-family array at a fixed offset: for T the offsets of
    corners 0 to 3 are (0,0), (-1,0), (-1,-1), (0,-1); for U they are
    (+1,0), (0,0), (0,-1), (+1,-1); for V they are (0,+1), (-1,+1),
    (-1,0), (0,0).  The latitude and the longitude chain use the same
    offsets. *)
Theorem interior_corner_offsets
    (fill : string -> np.ndarray F -> np.ndarray F -> result (np.ndarray F))
    (v c0 : np.ndarray F) (ni nj : Z) :
  fill = fill_corner_lats \/ fill = fill_corner_lons ->
  np.shape v = [ni; nj] -> np.shape c0 = [ni; nj; 4] ->
  1 <= ni -> 3 <= nj ->
  exists ct cu cv,
    fill "t" v c0 = Ok ct /\ fill "u" v c0 = Ok cu /\
    fill "v" v c0 = Ok cv /\
    forall i j, 1 <= i < ni - 1 -> 1 <= j < nj - 1 ->
      (np.item ct [i; j; 0] = np.item v [i; j] /\
       np.item ct [i; j; 1] = np.item v [i - 1; j] /\
       np.item ct [i; j; 2] = np.item v [i - 1; j - 1] /\
       np.item ct [i; j; 3] = np.item v [i; j - 1]) /\
      (np.item cu [i; j; 0] = np.item v [i + 1; j] /\
       np.item cu [i; j; 1] = np.item v [i; j] /\
       np.item cu [i; j; 2] = np.item v [i; j - 1] /\
       np.item cu [i; j; 3] = np.item v [i + 1; j - 1]) /\
      (np.item cv [i; j; 0] = np.item v [i; j + 1] /\
       np.item cv [i; j; 1] = np.item v [i - 1; j + 1] /\
       np.item cv [i; j; 2] = np.item v [i - 1; j] /\
       np.item cv [i; j; 3] = np.item v [i; j]).
Proof.
  intros [-> | ->] Hv Hc0 Hni Hnj.
  - destruct (fill_corner_lats_t v c0 ni nj Hv Hc0 Hni Hnj)
      as (ct & Et & _ & Vt).
    destruct (fill_corner_lats_u v c0 ni nj Hv Hc0 Hni Hnj)
      as (cu & Eu & _ & Vu).
    destruct (fill_corner_lats_v v c0 ni nj Hv Hc0 Hni Hnj)
      as (cv & Ev & _ & Vv).
    exists ct, cu, cv. do 3 (split; [assumption|]). intros i j Hi Hj.
    destruct (Vt i j ltac:(lia) ltac:(lia)) as (T0 & T1 & T2 & T3).
    destruct (Vu i j ltac:(lia) ltac:(lia)) as (U0 & U1 & U2 & U3).
    destruct (Vv i j ltac:(lia) ltac:(lia)) as (V0 & V1 & V2 & V3).
    rewrite T0, T1, T2, T3, U0, U1, U2, U3, V0, V1, V2, V3.
    rewrite !pred_mod, !succ_mod by lia. repeat decide_cmp.
    repeat split; reflexivity.
  - destruct (fill_corner_lons_t v c0 ni nj Hv Hc0 Hni Hnj)
      as (ct & Et & _ & Vt).
    destruct (fill_corner_lons_u v c0 ni nj Hv Hc0 Hni Hnj)
      as (cu & Eu & _ & Vu).
    destruct (fill_corner_lons_v v c0 ni nj Hv Hc0 Hni Hnj)
      as (cv & Ev & _ & Vv).
    exists ct, cu, cv. do 3 (split; [assumption|]). intros i j Hi Hj.
    destruct (Vt i j ltac:(lia) ltac:(lia)) as (T0 & T1 & T2 & T3).
    destruct (Vu i j ltac:(lia) ltac:(lia)) as (U0 & U1 & U2 & U3).
    destruct (Vv i j ltac:(lia) ltac:(lia)) as (V0 & V1 & V2 & V3).
    rewrite T0, T1, T2, T3, U0, U1, U2, U3, V0, V1, V2, V3.
    rewrite !pred_mod, !succ_mod by lia. repeat decide_cmp.
    repeat split; reflexivity.
Qed.

(** X7.  Given one and the same array, the latitude chain and the
    longitude chain leave the same entries everywhere except at corners
    2 and 3 of the southern row of T and U: on the V subgrid, on every
    row j >= 1, and at corners 0 and 1 the two chains agree. *)
Theorem lat_lon_chains_agree
    (subgrid : string) (v c0 : np.ndarray F) (ni nj : Z) :
  subgrid ∈ ["t"; "u"; "v"] ->
  np.shape v = [ni; nj] -> np.shape c0 = [ni; nj; 4] ->
  1 <= ni -> 3 <= nj ->
  exists cl co,
    fill_corner_lats subgrid v c0 = Ok cl /\
    fill_corner_lons subgrid v c0 = Ok co /\
    forall i j k, 0 <= i < ni -> 0 <= j < nj -> 0 <= k < 4 ->
      subgrid = "v" \/ 1 <= j \/ k < 2 ->
      np.item cl [i; j; k] = np.item co [i; j; k].
Proof.
  intros Hin Hv Hc0 Hni Hnj.
  destruct (subgrid_cases _ Hin) as [->|[->| ->]].
  - destruct (fill_corner_lats_t v c0 ni nj Hv Hc0 Hni Hnj)
      as (cl & El & _ & Vl).
    destruct (fill_corner_lons_t v c0 ni nj Hv Hc0 Hni Hnj)
      as (co & Eo & _ & Vo).
    exists cl, co. do 2 (split; [assumption|]). intros i j k Hi Hj Hk Hwhere.
    destruct (Vl i j Hi Hj) as (A0 & A1 & A2 & A3).
    destruct (Vo i j Hi Hj) as (B0 & B1 & B2 & B3).
    four_cases k; try congruence;
      (destruct Hwhere as [?|[?|?]]; [discriminate| |lia]);
      rewrite ?A2, ?A3, ?B2, ?B3; repeat decide_cmp; reflexivity.
  - destruct (fill_corner_lats_u v c0 ni nj Hv Hc0 Hni Hnj)
      as (cl & El & _ & Vl).
    destruct (fill_corner_lons_u v c0 ni nj Hv Hc0 Hni Hnj)
      as (co & Eo & _ & Vo).
    exists cl, co. do 2 (split; [assumption|]). intros i j k Hi Hj Hk Hwhere.
    destruct (Vl i j Hi Hj) as (A0 & A1 & A2 & A3).
    destruct (Vo i j Hi Hj) as (B0 & B1 & B2 & B3).
    four_cases k; try congruence;
      (destruct Hwhere as [?|[?|?]]; [discriminate| |lia]);
      rewrite ?A2, ?A3, ?B2, ?B3; repeat decide_cmp; reflexivity.
  - destruct (fill_corner_lats_v v c0 ni nj Hv Hc0 Hni Hnj)
      as (cl & El & _ & Vl).
    destruct (fill_corner_lons_v v c0 ni nj Hv Hc0 Hni Hnj)
      as (co & Eo & _ & Vo).
    exists cl, co. do 2 (split; [assumption|]). intros i j k Hi Hj Hk _.
    destruct (Vl i j Hi Hj) as (A0 & A1 & A2 & A3).
    destruct (Vo i j Hi Hj) as (B0 & B1 & B2 & B3).
    four_cases k; congruence.
Qed.

(** X8.  A coordinate array with two rows only: the latitude chains of
    T and U raise IndexError, at the reflection that reads row 2, while
    the longitude chains of T and U, and both chains of V, run to their
    end. *)
Theorem two_rows_latitude_index_error (v c0 : np.ndarray F) (ni : Z) :
  np.shape v = [ni; 2] -> np.shape c0 = [ni; 2; 4] -> 1 <= ni ->
  (exists msg, fill_corner_lats "t" v c0 = Raise (IndexError msg)) /\
  (exists msg, fill_corner_lats "u" v c0 = Raise (IndexError msg)) /\
  (exists c, fill_corner_lons "t" v c0 = Ok c) /\
  (exists c, fill_corner_lons "u" v c0 = Ok c) /\
  (exists c, fill_corner_lats "v" v c0 = Ok c) /\
  (exists c, fill_corner_lons "v" v c0 = Ok c).
Proof.
  intros Hv Hc0 Hni. start_fill Hv Hc0.
  destruct (resolve_At_out 2 2 ltac:(lia)) as [msg Hout].
  repeat split.
  - unfold fill_corner_lats. change (str_in "t" "t") with true. cbv iota.
    do 4 step. unfold assign. np_eval. rewrite Hout. cbn [bind].
    eexists. reflexivity.
  - unfold fill_corner_lats. change (str_in "u" "t") with false.
    change (String.eqb "u" "u") with true. cbv iota.
    do 4 step. unfold assign. np_eval. rewrite Hout. cbn [bind].
    eexists. reflexivity.
  - unfold fill_corner_lons. change (str_in "t" "t") with true. cbv iota.
    do 9 step. eexists. reflexivity.
  - unfold fill_corner_lons. change (str_in "u" "t") with false.
    change (String.eqb "u" "u") with true. cbv iota.
    do 8 step. eexists. reflexivity.
  - unfold fill_corner_lats. change (str_in "v" "t") with false.
    change (String.eqb "v" "u") with false.
    change (String.eqb "v" "v") with true. cbv iota.
    np_eval. do 9 step. eexists. reflexivity.
  - unfold fill_corner_lons. change (str_in "v" "t") with false.
    change (String.eqb "v" "u") with false.
    change (String.eqb "v" "v") with true. cbv iota.
    np_eval. do 9 step. eexists. reflexivity.
Qed.
End Chains.

(** ** Reading fields *)

Section Reads.
Context {F : Type} `{Number F}.

(** The first record of a variable of shape (nt, nj, ni), transposed. *)
Lemma first_record_T_spec (nc : Dataset F) var_name var nt nj ni :
  variables nc !! var_name = Some var ->
  np.shape var = [nt; nj; ni] -> 1 <= nt -> 0 <= nj -> 0 <= ni ->
  exists a,
    first_record_T nc var_name = Ok a /\ np.shape a = [ni; nj] /\
    forall i j, np.item a [i; j] = np.item var [0; j; i].
Proof.
  intros Hvar Hshape Hnt Hnj Hni. destruct var as [s f].
  cbn [np.shape] in Hshape. subst s.
  unfold first_record_T, subscript. rewrite Hvar. cbn [bind].
  unfold np.getitem.
  cbn [np.shape length np.expand_ellipsis Nat.sub repeat app np.resolve_all].
  rewrite resolve_At by lia. rewrite !resolve_all_slice by lia.
  cbn [bind]. eexists. split; [reflexivity|]. split; [reflexivity|].
  intros i j. cbn [np.item np.T np.shape np.source_index reverse rev_append].
  entry_eq. reflexivity.
Qed.

(** X9.  [read_center_latitudes] and [read_center_longitudes] return
    the first record of [gphi<subgrid>] and of [glam<subgrid>] with the
    axes exchanged: for a variable of shape (nt, nj, ni) with nt >= 1
    the result has shape (ni, nj) and its entry (i, j) is the entry
    (0, j, i) of the variable. *)
Theorem read_center_transposes
    (self : OrcaGrid) (subgrid : string) (lat lon : np.ndarray F)
    (nt nj ni : Z) :
  subgrid ∈ ["t"; "u"; "v"] ->
  variables (domain_cfg self) !! ("gphi" +:+ subgrid) = Some lat ->
  variables (domain_cfg self) !! ("glam" +:+ subgrid) = Some lon ->
  np.shape lat = [nt; nj; ni] -> np.shape lon = [nt; nj; ni] ->
  1 <= nt -> 0 <= nj -> 0 <= ni ->
  exists center_lats center_lons,
    read_center_latitudes self subgrid = Ok center_lats /\
    read_center_longitudes self subgrid = Ok center_lons /\
    np.shape center_lats = [ni; nj] /\ np.shape center_lons = [ni; nj] /\
    forall i j,
      np.item center_lats [i; j] = np.item lat [0; j; i] /\
      np.item center_lons [i; j] = np.item lon [0; j; i].
Proof.
  intros Hin Hlat Hlon Hslat Hslon Hnt Hnj Hni.
  unfold read_center_latitudes, read_center_longitudes.
  rewrite _check_Ok by exact Hin. cbn [bind].
  destruct (first_record_T_spec _ _ _ _ _ _ Hlat Hslat Hnt Hnj Hni)
    as (a & -> & Sa & Va).
  destruct (first_record_T_spec _ _ _ _ _ _ Hlon Hslon Hnt Hnj Hni)
    as (b & -> & Sb & Vb).
  exists a, b. do 4 (split; [auto|]). intros i j. split; auto.
Qed.

(** X10.  [read_areas] returns the product, entry by entry, of the
    first records of [e1<subgrid>] and [e2<subgrid>], with the axes
    exchanged. *)
Theorem read_areas_product
    (self : OrcaGrid) (subgrid : string) (e1 e2 : np.ndarray F)
    (nt nj ni : Z) :
  subgrid ∈ ["t"; "u"; "v"] ->
  variables (domain_cfg self) !! ("e1" +:+ subgrid) = Some e1 ->
  variables (domain_cfg self) !! ("e2" +:+ subgrid) = Some e2 ->
  np.shape e1 = [nt; nj; ni] -> np.shape e2 = [nt; nj; ni] ->
  1 <= nt -> 0 <= nj -> 0 <= ni ->
  exists cell_areas,
    read_areas self subgrid = Ok cell_areas /\
    np.shape cell_areas = [ni; nj] /\
    forall i j,
      np.item cell_areas [i; j] =
        fmul (np.item e1 [0; j; i]) (np.item e2 [0; j; i]).
Proof.
  intros Hin He1 He2 Hs1 Hs2 Hnt Hnj Hni.
  unfold read_areas. rewrite _check_Ok by exact Hin. cbn [bind].
  destruct (first_record_T_spec _ _ _ _ _ _ He1 Hs1 Hnt Hnj Hni)
    as (a & -> & Sa & Va).
  destruct (first_record_T_spec _ _ _ _ _ _ He2 Hs2 Hnt Hnj Hni)
    as (b & -> & Sb & Vb).
  cbn [bind]. unfold np.zip. rewrite Sa, Sb.
  rewrite shape_eqb_true by reflexivity.
  eexists. split; [reflexivity|]. split; [reflexivity|].
  intros i j. cbn [np.item]. rewrite Va, Vb. reflexivity.
Qed.

(** X11.  With a mask file, [read_mask] thresholds the first record of
    [<subgrid>maskutil], with the axes exchanged: the mask is 0 where
    the value is greater than 0 and 1 elsewhere.  The domain file is
    not read. *)
Theorem read_mask_from_mask_file
    (self : OrcaGrid) (mask_file : Dataset F) (subgrid : string)
    (util : np.ndarray F) (nt nj ni : Z) :
  subgrid ∈ ["t"; "u"; "v"] ->
  masks self = Some mask_file ->
  variables mask_file !! (subgrid +:+ "maskutil") = Some util ->
  np.shape util = [nt; nj; ni] -> 1 <= nt -> 0 <= nj -> 0 <= ni ->
  exists mask,
    read_mask self subgrid = Ok mask /\
    np.shape mask = [ni; nj] /\
    forall i j,
      np.item mask [i; j] =
        (if fgtb (np.item util [0; j; i]) (of_int 0) then 0 else 1).
Proof.
  intros Hin Hmasks Hutil Hs Hnt Hnj Hni.
  unfold read_mask. rewrite _check_Ok by exact Hin. cbn [bind].
  rewrite Hmasks.
  destruct (first_record_T_spec _ _ _ _ _ _ Hutil Hs Hnt Hnj Hni)
    as (a & -> & Sa & Va).
  cbn [bind]. eexists. split; [reflexivity|].
  unfold np.where_, np.map. cbn [np.shape np.item].
  split; [exact Sa|]. intros i j. rewrite Va. reflexivity.
Qed.

(** X12.  A subgrid tag other than t, u, v makes each of the six
    [read_*] methods raise ValueError with the message that names the
    tag, whatever the grid and its files hold. *)
Theorem invalid_subgrid_raises (self : OrcaGrid) (subgrid : string) :
  subgrid ∉ ["t"; "u"; "v"] ->
  let e := ValueError
             ("Invalid ORCA subgrid: " +:+ dquote +:+ subgrid +:+ dquote) in
  read_center_latitudes self subgrid = Raise e /\
  read_center_longitudes self subgrid = Raise e /\
  read_corner_latitudes self subgrid = Raise e /\
  read_corner_longitudes self subgrid = Raise e /\
  read_areas self subgrid = Raise e /\
  read_mask self subgrid = Raise e.
Proof.
  intros Hout e.
  assert (_check subgrid = Raise e) as Hcheck.
  { unfold _check. rewrite bool_decide_eq_false_2 by exact Hout. reflexivity. }
  unfold read_center_latitudes, read_center_longitudes,
    read_corner_latitudes, read_corner_longitudes, read_areas, read_mask.
  rewrite Hcheck. repeat split; reflexivity.
Qed.

(** X13.  Without a mask file, the two edges of the derived masks: on
    the last column the U mask is the product of the T mask with its
    first column, and on the last row the V mask is the T mask
    itself. *)
Theorem derived_mask_edges
    (self : OrcaGrid) (top_level : np.ndarray F) (ni nj : Z) :
  masks self = None ->
  first_record_T (domain_cfg self) "top_level" = Ok top_level ->
  np.shape top_level = [ni; nj] -> 1 <= ni -> 1 <= nj ->
  exists tmask umask vmask,
    read_mask self "t" = Ok tmask /\
    read_mask self "u" = Ok umask /\
    read_mask self "v" = Ok vmask /\
    (forall j, 0 <= j < nj ->
       np.item umask [ni - 1; j] =
         np.item tmask [ni - 1; j] * np.item tmask [0; j]) /\
    (forall i, 0 <= i < ni ->
       np.item vmask [i; nj - 1] = np.item tmask [i; nj - 1]).
Proof.
  intros Hmasks Hread Hshape Hni Hnj.
  destruct (read_mask_derived self top_level ni nj Hmasks Hread Hshape
              ltac:(lia) ltac:(lia))
    as (tm & um & vm & Et & Eu & Ev & _ & _ & _ & V).
  exists tm, um, vm. do 3 (split; [assumption|]). split.
  - intros j Hj.
    destruct (V (ni - 1) j ltac:(lia) Hj) as (At & Au & _).
    destruct (V 0 j ltac:(lia) Hj) as (At0 & _).
    rewrite At, Au, At0. rewrite succ_mod by lia. repeat decide_cmp.
    reflexivity.
  - intros i Hi.
    destruct (V i (nj - 1) Hi ltac:(lia)) as (At & _ & Av).
    rewrite At, Av.
    replace (Z.min (nj - 1 + 1) (nj - 1)) with (nj - 1) by lia.
    destruct (land_cases (np.item top_level [i; nj - 1])) as [-> | ->];
      reflexivity.
Qed.

(** X14.  Without a mask file, when [top_level] is nowhere zero the
    mask is 0 everywhere, for each of the subgrids T, U and V. *)
Theorem nonzero_top_level_mask_all_zero
    (self : OrcaGrid) (top_level : np.ndarray F) (ni nj : Z)
    (subgrid : string) :
  masks self = None ->
  first_record_T (domain_cfg self) "top_level" = Ok top_level ->
  np.shape top_level = [ni; nj] -> 0 <= ni -> 0 <= nj ->
  (forall i j, 0 <= i < ni -> 0 <= j < nj ->
     feqb (np.item top_level [i; j]) (of_int 0) = false) ->
  subgrid ∈ ["t"; "u"; "v"] ->
  exists mask,
    read_mask self subgrid = Ok mask /\
    np.shape mask = [ni; nj] /\
    forall i j, 0 <= i < ni -> 0 <= j < nj -> np.item mask [i; j] = 0.
Proof.
  intros Hmasks Hread Hshape Hni Hnj Hnz Hin.
  destruct (read_mask_derived self top_level ni nj Hmasks Hread Hshape Hni Hnj)
    as (tm & um & vm & Et & Eu & Ev & St & Su & Sv & V).
  assert (forall i j, 0 <= i < ni -> 0 <= j < nj ->
            land (np.item top_level [i; j]) = 0) as Hland.
  { intros i j Hi Hj. unfold land. rewrite (Hnz i j Hi Hj). reflexivity. }
  destruct (subgrid_cases _ Hin) as [->|[->| ->]];
    [exists tm | exists um | exists vm];
    (split; [assumption|]); (split; [assumption|]);
    intros i j Hi Hj; destruct (V i j Hi Hj) as (At & Au & Av);
    rewrite ?At, ?Au, ?Av, (Hland i j Hi Hj); reflexivity.
Qed.
End Reads.

(** ** What the methods never do *)

Lemma bind_Ok_inv {A B} (r : result A) (k : A -> result B) b :
  bind r k = Ok b -> exists a, r = Ok a /\ k a = Ok b.
Proof. destruct r as [a|e]; [eauto | discriminate]. Qed.

Lemma bind_not_KeyError {A B} (r : result A) (k : A -> result B) :
  r <> Raise KeyError -> (forall a, k a <> Raise KeyError) ->
  bind r k <> Raise KeyError.
Proof. destruct r as [a|e]; cbn [bind]; [auto | congruence]. Qed.

Lemma resolve_not_KeyError ix n : np.resolve ix n <> Raise KeyError.
Proof.
  destruct ix as [z|start stop step|]; cbn [np.resolve]; try discriminate.
  - destruct (_ && _); discriminate.
  - unfold np.slice_indices. destruct (_ =? 0); cbn [bind]; discriminate.
Qed.

Lemma resolve_all_not_KeyError ixs shp :
  np.resolve_all ixs shp <> Raise KeyError.
Proof.
  revert shp. induction ixs as [|ix ixs IH]; intros shp; [discriminate|].
  destruct shp as [|n shp]; [discriminate|]. cbn [np.resolve_all].
  apply bind_not_KeyError; [apply resolve_not_KeyError|]. intros s.
  apply bind_not_KeyError; [apply IH|]. discriminate.
Qed.

Lemma getitem_not_KeyError {A} (a : np.ndarray A) ixs :
  np.getitem a ixs <> Raise KeyError.
Proof.
  unfold np.getitem.
  apply bind_not_KeyError; [apply resolve_all_not_KeyError | discriminate].
Qed.

Lemma setitem_not_KeyError {A} (a : np.ndarray A) ixs v :
  np.setitem a ixs v <> Raise KeyError.
Proof.
  unfold np.setitem.
  apply bind_not_KeyError; [apply resolve_all_not_KeyError|]. intros ss.
  destruct (np.shape_eqb _ _); discriminate.
Qed.

Lemma zip_not_KeyError {A B C} (f : A -> B -> C) a b :
  np.zip f a b <> Raise KeyError.
Proof. unfold np.zip. destruct (np.shape_eqb _ _); discriminate. Qed.

Lemma adjust_all_not_KeyError mode n l :
  np.adjust_all mode n l <> Raise KeyError.
Proof.
  induction l as [|i l IH]; [discriminate|]. cbn [np.adjust_all].
  apply bind_not_KeyError.
  - destruct mode; cbn [np.adjust]; try discriminate.
    destruct (_ && _); discriminate.
  - intros i'. apply bind_not_KeyError; [exact IH | discriminate].
Qed.

Lemma take_not_KeyError {A} (a : np.ndarray A) l axis mode :
  np.take a l axis mode <> Raise KeyError.
Proof.
  unfold np.take. destruct (np.shape a !! axis); [|discriminate].
  apply bind_not_KeyError; [apply adjust_all_not_KeyError | discriminate].
Qed.

Section Never.
Context {F : Type} `{Number F}.

Lemma minus_times_not_KeyError k (a b : result (np.ndarray F)) :
  a <> Raise KeyError -> b <> Raise KeyError ->
  minus (times k a) b <> Raise KeyError.
Proof.
  intros Ha Hb. unfold minus, times.
  apply bind_not_KeyError.
  - apply bind_not_KeyError; [exact Ha | discriminate].
  - intros x. apply bind_not_KeyError; [exact Hb|]. intros y.
    apply zip_not_KeyError.
Qed.

Lemma assign_not_KeyError (target : np.ndarray F) ixs value :
  value <> Raise KeyError -> assign target ixs value <> Raise KeyError.
Proof.
  intros Hv. unfold assign.
  apply bind_not_KeyError; [exact Hv|]. intros v. apply setitem_not_KeyError.
Qed.

Ltac no_KeyError :=
  repeat first
    [ discriminate
    | apply getitem_not_KeyError
    | apply zip_not_KeyError
    | apply minus_times_not_KeyError
    | apply assign_not_KeyError
    | apply bind_not_KeyError; [|intros ?] ].

Lemma fill_corner_lats_not_KeyError subgrid (v c0 : np.ndarray F) :
  fill_corner_lats subgrid v c0 <> Raise KeyError.
Proof.
  unfold fill_corner_lats.
  destruct (str_in subgrid "t"); [no_KeyError|].
  destruct (String.eqb subgrid "u"); [no_KeyError|].
  destruct (String.eqb subgrid "v"); no_KeyError.
Qed.

Lemma fill_corner_lons_not_KeyError subgrid (v c0 : np.ndarray F) :
  fill_corner_lons subgrid v c0 <> Raise KeyError.
Proof.
  unfold fill_corner_lons.
  destruct (str_in subgrid "t"); [no_KeyError|].
  destruct (String.eqb subgrid "u"); [no_KeyError|].
  destruct (String.eqb subgrid "v"); no_KeyError.
Qed.

Lemma first_record_T_not_KeyError (nc : Dataset F) var_name :
  is_Some (variables nc !! var_name) ->
  first_record_T nc var_name <> Raise KeyError.
Proof.
  intros [var Hvar]. unfold first_record_T, subscript. rewrite Hvar.
  cbn [bind]. no_KeyError.
Qed.

(** What the constructor has checked. *)
Lemma init_variables_present
    (cfg : Dataset F) mask_file (self : OrcaGrid) :
  __init__ cfg mask_file = Ok self ->
  (forall var_name, var_name ∈ _required ->
     is_Some (variables (domain_cfg self) !! var_name)) /\
  (forall mf, masks self = Some mf ->
     forall var_name, var_name ∈ ["tmaskutil"; "umaskutil"; "vmaskutil"] ->
       is_Some (variables mf !! var_name)).
Proof.
  intros Hinit. destruct (init_Ok cfg mask_file self Hinit)
    as (-> & -> & _). revert Hinit.
  unfold __init__, subscript.
  destruct (dimensions _ !! "x") as [ni|]; [|discriminate].
  destruct (dimensions _ !! "y") as [nj|]; [|discriminate].
  destruct (dimensions _ !! "z") as [nk|]; [|discriminate].
  cbn [bind except_KeyError fst snd].
  destruct (_orca_names !! (ni, nj, nk)) as [n|];
    [|intros Hbad; discriminate Hbad].
  cbn [bind except_KeyError]. unfold issubset.
  destruct (bool_decide (list_to_set _required ⊆ dom (variables cfg)))
    eqn:Hreq; [|intros Hbad; discriminate Hbad].
  cbn [negb bind]. apply bool_decide_eq_true_1 in Hreq. intros Hrest.
  split.
  - intros var_name Hin. apply elem_of_dom, Hreq, elem_of_list_to_set, Hin.
  - intros mf Hmf. subst mask_file.
    destruct (bool_decide (_ ⊆ dom (variables mf))) eqn:Hm;
      [|discriminate Hrest].
    apply bool_decide_eq_true_1 in Hm.
    intros var_name Hin. apply elem_of_dom, Hm, elem_of_list_to_set, Hin.
Qed.

Lemma _check_invalid subgrid :
  subgrid ∉ ["t"; "u"; "v"] ->
  _check subgrid =
  Raise (ValueError
           ("Invalid ORCA subgrid: " +:+ dquote +:+ subgrid +:+ dquote)).
Proof.
  intros Hout. unfold _check.
  rewrite bool_decide_eq_false_2 by exact Hout. reflexivity.
Qed.

Lemma init_not_KeyError (cfg : Dataset F) mask_file :
  __init__ cfg mask_file <> Raise KeyError.
Proof.
  unfold __init__, subscript.
  destruct (dimensions cfg !! "x"); [|discriminate].
  destruct (dimensions cfg !! "y"); [|discriminate].
  destruct (dimensions cfg !! "z"); [|discriminate].
  cbn [bind except_KeyError fst snd].
  destruct (_orca_names !! _); [|discriminate].
  cbn [bind except_KeyError].
  destruct (negb _); [discriminate|]. cbn [bind].
  destruct mask_file as [m|]; [destruct (negb _); [discriminate|]|];
    discriminate.
Qed.

Lemma corner_variables_required subgrid :
  subgrid ∈ ["t"; "u"; "v"] ->
  exists lat_name lon_name,
    subscript lat_var subgrid = Ok lat_name /\
    subscript lon_var subgrid = Ok lon_name /\
    lat_name ∈ _required /\ lon_name ∈ _required /\
    "gphi" +:+ subgrid ∈ _required /\ "glam" +:+ subgrid ∈ _required /\
    "e1" +:+ subgrid ∈ _required /\ "e2" +:+ subgrid ∈ _required /\
    subgrid +:+ "maskutil" ∈ ["tmaskutil"; "umaskutil"; "vmaskutil"].
Proof.
  intros Hin.
  destruct (subgrid_cases _ Hin) as [->|[->| ->]]; eexists _, _;
    (split; [vm_compute; reflexivity|]);
    (split; [vm_compute; reflexivity|]);
    repeat split; apply (bool_decide_unpack _); vm_compute; exact I.
Qed.

Lemma derived_mask_not_KeyError (subgrid : string) (tmask : np.ndarray Z) :
  (if String.eqb subgrid "t" then Ok tmask
   else if String.eqb subgrid "u" then
     let* n := shape_at tmask 0 in
     let* shifted := np.take tmask (range 1 (n + 1)) 0 np.mode_wrap in
     let* umask := np.zip Z.mul tmask shifted in
     Ok umask
   else if String.eqb subgrid "v" then
     let* n := shape_at tmask 1 in
     let* shifted := np.take tmask (range 1 (n + 1)) 1 np.mode_clip in
     let* vmask := np.zip Z.mul tmask shifted in
     Ok vmask
   else Raise (ValueError "no mask")) <> Raise KeyError.
Proof.
  destruct (String.eqb subgrid "t"); [discriminate|].
  destruct (String.eqb subgrid "u"); [|destruct (String.eqb subgrid "v")];
    try discriminate;
    (apply bind_not_KeyError;
     [unfold shape_at; destruct (_ !! _); discriminate|]; intros n;
     apply bind_not_KeyError; [apply take_not_KeyError|]; intros b;
     apply bind_not_KeyError; [apply zip_not_KeyError | discriminate]).
Qed.

(** The six methods on a grid the constructor returned. *)
Lemma built_grid_reads_not_KeyError
    (cfg : Dataset F) mask_file (self : OrcaGrid) (subgrid : string) :
  __init__ cfg mask_file = Ok self ->
  read_center_latitudes self subgrid <> Raise KeyError /\
  read_center_longitudes self subgrid <> Raise KeyError /\
  read_corner_latitudes self subgrid <> Raise KeyError /\
  read_corner_longitudes self subgrid <> Raise KeyError /\
  read_areas self subgrid <> Raise KeyError /\
  read_mask self subgrid <> Raise KeyError.
Proof.
  intros Hinit.
  destruct (init_variables_present cfg mask_file self Hinit) as [Hreq Hmask].
  unfold read_center_latitudes, read_center_longitudes,
    read_corner_latitudes, read_corner_longitudes, read_areas, read_mask.
  destruct (decide (subgrid ∈ ["t"; "u"; "v"])) as [Hin|Hout];
    [|rewrite (_check_invalid subgrid Hout); repeat split; discriminate].
  rewrite (_check_Ok subgrid Hin). cbn [bind].
  destruct (corner_variables_required subgrid Hin)
    as (lat_name & lon_name & -> & -> & Hlat & Hlon & Hgphi & Hglam
        & He1 & He2 & Hutil).
  cbn [bind].
  pose proof (fun var_name Hin =>
                first_record_T_not_KeyError (domain_cfg self) var_name
                  (Hreq var_name Hin)) as Hread.
  split; [apply Hread, Hgphi|]. split; [apply Hread, Hglam|].
  split.
  { apply bind_not_KeyError; [apply Hread, Hlat|]. intros a.
    apply fill_corner_lats_not_KeyError. }
  split.
  { apply bind_not_KeyError; [apply Hread, Hlon|]. intros a.
    apply fill_corner_lons_not_KeyError. }
  split.
  { apply bind_not_KeyError; [apply Hread, He1|]. intros a.
    apply bind_not_KeyError; [apply Hread, He2|]. intros b.
    apply zip_not_KeyError. }
  destruct (masks self) as [mf|] eqn:Hmf.
  - apply bind_not_KeyError; [|discriminate].
    apply first_record_T_not_KeyError, (Hmask mf eq_refl), Hutil.
  - apply bind_not_KeyError;
      [apply Hread; apply (bool_decide_unpack _); vm_compute; exact I|].
    intros a. apply derived_mask_not_KeyError.
Qed.

(** X15.  The three view constructors never raise KeyError: a key
    that is absent from a file is reported by the constructor of
    [OrcaGrid] as a RuntimeError, and the methods only look up
    variables that the constructor has found. *)
Theorem views_never_raise_KeyError
    (cfg : Dataset F) (mask_file : option (Dataset F)) :
  OrcaTGrid cfg mask_file <> Raise KeyError /\
  OrcaUGrid cfg mask_file <> Raise KeyError /\
  OrcaVGrid cfg mask_file <> Raise KeyError.
Proof.
  unfold OrcaTGrid, OrcaUGrid, OrcaVGrid.
  pose proof (init_not_KeyError cfg mask_file) as Hinit.
  destruct (__init__ cfg mask_file) as [self|e] eqn:Einit; cbn [bind];
    [|repeat split; intros [= ->]; apply Hinit; reflexivity].
  repeat split.
  - destruct (built_grid_reads_not_KeyError cfg mask_file self "t" Einit)
      as (H1 & H2 & H3 & H4 & H5 & H6).
    repeat (apply bind_not_KeyError; [assumption|]; intros ?). discriminate.
  - destruct (built_grid_reads_not_KeyError cfg mask_file self "u" Einit)
      as (H1 & H2 & H3 & H4 & H5 & H6).
    repeat (apply bind_not_KeyError; [assumption|]; intros ?). discriminate.
  - destruct (built_grid_reads_not_KeyError cfg mask_file self "v" Einit)
      as (H1 & H2 & H3 & H4 & H5 & H6).
    repeat (apply bind_not_KeyError; [assumption|]; intros ?). discriminate.
Qed.
End Never.

(** ** Shapes *)

Section Shapes.
Context {F : Type} `{Number F}.

Lemma assign_shape (target : np.ndarray F) ixs value c :
  assign target ixs value = Ok c -> np.shape c = np.shape target.
Proof.
  unfold assign, np.setitem. intros Hc.
  apply bind_Ok_inv in Hc as (v & _ & Hc).
  apply bind_Ok_inv in Hc as (ss & _ & Hc).
  destruct (np.shape_eqb _ _); [|discriminate].
  injection Hc as <-. reflexivity.
Qed.

Ltac chain_shape Hc :=
  repeat
    (let x := fresh "x" in let Hx := fresh "Hx" in
     apply bind_Ok_inv in Hc as (x & Hx & Hc);
     try (apply assign_shape in Hx));
  injection Hc as <-; congruence.

Lemma fill_corner_lats_shape subgrid (v c0 c : np.ndarray F) :
  fill_corner_lats subgrid v c0 = Ok c -> np.shape c = np.shape c0.
Proof.
  unfold fill_corner_lats. intros Hc.
  destruct (str_in subgrid "t"); [chain_shape Hc|].
  destruct (String.eqb subgrid "u"); [chain_shape Hc|].
  destruct (String.eqb subgrid "v"); chain_shape Hc.
Qed.

Lemma fill_corner_lons_shape subgrid (v c0 c : np.ndarray F) :
  fill_corner_lons subgrid v c0 = Ok c -> np.shape c = np.shape c0.
Proof.
  unfold fill_corner_lons. intros Hc.
  destruct (str_in subgrid "t"); [chain_shape Hc|].
  destruct (String.eqb subgrid "u"); [chain_shape Hc|].
  destruct (String.eqb subgrid "v"); chain_shape Hc.
Qed.

(** X16.  Whatever the files hold and whatever the subgrid, a corner
    array that [read_corner_latitudes] or [read_corner_longitudes]
    returns has the shape (ni, nj, 4) of the grid. *)
Theorem corner_array_shape
    (self : OrcaGrid) (subgrid : string) (c : np.ndarray F) :
  read_corner_latitudes self subgrid = Ok c \/
  read_corner_longitudes self subgrid = Ok c ->
  np.shape c = [(shape self).1; (shape self).2; 4].
Proof.
  unfold read_corner_latitudes, read_corner_longitudes.
  intros [Hc | Hc];
    apply bind_Ok_inv in Hc as (u & _ & Hc);
    apply bind_Ok_inv in Hc as (var_name & _ & Hc);
    apply bind_Ok_inv in Hc as (values & _ & Hc).
  - apply fill_corner_lats_shape in Hc. exact Hc.
  - apply fill_corner_lons_shape in Hc. exact Hc.
Qed.
End Shapes.

(** ** The constructor *)

Section Constructor.
Context {F : Type} `{Number F}.

Lemma orca_name_known (ni nj nk : Z) :
  (ni, nj, nk) = (362, 292, 75) \/ (ni, nj, nk) = (360, 331, 75) ->
  _orca_names !! (ni, nj, nk) =
  Some (if ni =? 362 then "ORCA1L75" else "eORCA1L75").
Proof. intros [[= -> -> ->] | [= -> -> ->]]; reflexivity. Qed.

Lemma issubset_true {V} (required : list string) (d : gmap string V) :
  (forall var_name, var_name ∈ required -> is_Some (d !! var_name)) ->
  issubset (list_to_set required) d = true.
Proof.
  intros Hall. unfold issubset. apply bool_decide_eq_true_2.
  intros var_name Hin. apply elem_of_dom, Hall.
  apply elem_of_list_to_set in Hin. exact Hin.
Qed.

(** The constructor on a file that passes its three checks. *)
Lemma init_accepts (cfg : Dataset F) mask_file ni nj nk :
  dimensions cfg !! "x" = Some ni -> dimensions cfg !! "y" = Some nj ->
  dimensions cfg !! "z" = Some nk ->
  (ni, nj, nk) = (362, 292, 75) \/ (ni, nj, nk) = (360, 331, 75) ->
  (forall var_name, var_name ∈ _required ->
     is_Some (variables cfg !! var_name)) ->
  (forall mf, mask_file = Some mf ->
     forall var_name, var_name ∈ ["tmaskutil"; "umaskutil"; "vmaskutil"] ->
       is_Some (variables mf !! var_name)) ->
  __init__ cfg mask_file =
  Ok {| domain_cfg := cfg; masks := mask_file;
        shape := (ni, nj); size := ni * nj;
        name := if ni =? 362 then "ORCA1L75" else "eORCA1L75" |}.
Proof.
  intros Hx Hy Hz Hknown Hreq Hmask. unfold __init__, subscript.
  rewrite Hx, Hy, Hz. cbn [bind except_KeyError fst snd].
  rewrite (orca_name_known ni nj nk Hknown). cbn [bind except_KeyError].
  rewrite (issubset_true _ _ Hreq). cbn [negb bind].
  destruct mask_file as [mf|]; [|reflexivity].
  rewrite (issubset_true _ _ (Hmask mf eq_refl)). reflexivity.
Qed.

(** X17.  The constructor returns a grid exactly when the domain file
    has the dimensions x, y and z, their sizes are those of one of the
    two supported configurations, the file holds the seventeen required
    variables and, when a mask file is given, that file holds
    tmaskutil, umaskutil and vmaskutil. *)
Theorem init_accepts_iff (cfg : Dataset F) (mask_file : option (Dataset F)) :
  (exists self, __init__ cfg mask_file = Ok self) <->
  (exists ni nj nk,
     dimensions cfg !! "x" = Some ni /\ dimensions cfg !! "y" = Some nj /\
     dimensions cfg !! "z" = Some nk /\
     ((ni, nj, nk) = (362, 292, 75) \/ (ni, nj, nk) = (360, 331, 75)) /\
     (forall var_name, var_name ∈ _required ->
        is_Some (variables cfg !! var_name)) /\
     (forall mf, mask_file = Some mf ->
        forall var_name, var_name ∈ ["tmaskutil"; "umaskutil"; "vmaskutil"] ->
          is_Some (variables mf !! var_name))).
Proof.
  split.
  - intros [self Hinit].
    destruct (init_variables_present cfg mask_file self Hinit) as [Hreq Hmask].
    destruct (init_Ok cfg mask_file self Hinit) as (Hcfg & Hm & _).
    rewrite Hcfg in Hreq. rewrite Hm in Hmask.
    revert Hinit. unfold __init__, subscript.
    destruct (dimensions cfg !! "x") as [ni|]; [|discriminate].
    destruct (dimensions cfg !! "y") as [nj|]; [|discriminate].
    destruct (dimensions cfg !! "z") as [nk|]; [|discriminate].
    cbn [bind except_KeyError fst snd].
    destruct (_orca_names !! (ni, nj, nk)) as [n|] eqn:Hname;
      [|intros Hbad; discriminate Hbad].
    intros _. exists ni, nj, nk. do 3 (split; [reflexivity|]).
    split; [|split; assumption].
    unfold _orca_names in Hname.
    apply lookup_insert_Some in Hname as [[E _]|[_ Hname]]; [left; auto|].
    apply lookup_singleton_Some in Hname as [E _]. right; auto.
  - intros (ni & nj & nk & Hx & Hy & Hz & Hknown & Hreq & Hmask).
    eexists. apply (init_accepts cfg mask_file ni nj nk); assumption.
Qed.

(** X18.  The grid the constructor returns keeps the two files, has the
    shape (x, y) and the size x * y of the dimensions, and is named
    ORCA1L75 for the dimensions (362, 292, 75) and eORCA1L75 for
    (360, 331, 75). *)
Theorem init_fields
    (cfg : Dataset F) (mask_file : option (Dataset F)) (self : OrcaGrid) :
  __init__ cfg mask_file = Ok self ->
  exists ni nj nk,
    dimensions cfg !! "x" = Some ni /\ dimensions cfg !! "y" = Some nj /\
    dimensions cfg !! "z" = Some nk /\
    domain_cfg self = cfg /\ masks self = mask_file /\
    shape self = (ni, nj) /\ size self = ni * nj /\
    (((ni, nj, nk) = (362, 292, 75) /\ name self = "ORCA1L75") \/
     ((ni, nj, nk) = (360, 331, 75) /\ name self = "eORCA1L75")).
Proof.
  unfold __init__, subscript.
  destruct (dimensions cfg !! "x") as [ni|]; [|discriminate].
  destruct (dimensions cfg !! "y") as [nj|]; [|discriminate].
  destruct (dimensions cfg !! "z") as [nk|]; [|discriminate].
  cbn [bind except_KeyError fst snd].
  destruct (_orca_names !! (ni, nj, nk)) as [n|] eqn:Hname;
    [|intros Hbad; discriminate Hbad].
  cbn [bind except_KeyError].
  destruct (negb _); [intros Hbad; discriminate Hbad|]. cbn [bind].
  assert (((ni, nj, nk) = (362, 292, 75) /\ n = "ORCA1L75") \/
          ((ni, nj, nk) = (360, 331, 75) /\ n = "eORCA1L75")) as Hknown.
  { unfold _orca_names in Hname.
    apply lookup_insert_Some in Hname as [[E <-]|[_ Hname]]; [left; auto|].
    apply lookup_singleton_Some in Hname as [E <-]. right; auto. }
  destruct mask_file as [m|];
    [destruct (negb _); [intros Hbad; discriminate Hbad|]|];
    cbn [bind]; intros [= <-]; exists ni, nj, nk; cbn;
    repeat (split; [reflexivity|]); exact Hknown.
Qed.

(** X19.  A mask file that lacks one of tmaskutil, umaskutil and
    vmaskutil makes the constructor raise RuntimeError, with the message
    of the mask file, once the domain file has passed its checks. *)
Theorem init_rejects_incomplete_mask_file
    (cfg mask_file : Dataset F) (ni nj nk : Z) (var_name : string) :
  dimensions cfg !! "x" = Some ni -> dimensions cfg !! "y" = Some nj ->
  dimensions cfg !! "z" = Some nk ->
  (ni, nj, nk) = (362, 292, 75) \/ (ni, nj, nk) = (360, 331, 75) ->
  (forall required, required ∈ _required ->
     is_Some (variables cfg !! required)) ->
  var_name ∈ ["tmaskutil"; "umaskutil"; "vmaskutil"] ->
  variables mask_file !! var_name = None ->
  __init__ cfg (Some mask_file) =
  Raise (RuntimeError "Missing variables in NEMO masks file").
Proof.
  intros Hx Hy Hz Hknown Hreq Hin Hnone. unfold __init__, subscript.
  rewrite Hx, Hy, Hz. cbn [bind except_KeyError fst snd].
  rewrite (orca_name_known ni nj nk Hknown). cbn [bind except_KeyError].
  rewrite (issubset_true _ _ Hreq). cbn [negb bind].
  unfold issubset. rewrite bool_decide_eq_false_2; [reflexivity|].
  intros Hsub. assert (var_name ∈ dom (variables mask_file)) as Hdom.
  { apply Hsub. apply elem_of_list_to_set. exact Hin. }
  apply elem_of_dom in Hdom. rewrite Hnone in Hdom.
  destruct Hdom. discriminate.
Qed.
End Constructor.

(** ** The three views *)

Section Views.
Context {F : Type} `{Number F}.

Lemma field_read (cfg : Dataset F) ni nj var_name :
  fields_shaped cfg ni nj -> 0 <= ni -> 0 <= nj ->
  var_name ∈ _required ->
  exists a var,
    variables cfg !! var_name = Some var /\
    first_record_T cfg var_name = Ok a /\ np.shape a = [ni; nj] /\
    forall i j, np.item a [i; j] = np.item var [0; j; i].
Proof.
  intros Hfields Hni Hnj Hin.
  destruct (Hfields var_name Hin) as (var & nt & Hvar & Hs & Hnt).
  destruct (first_record_T_spec cfg var_name var nt nj ni Hvar Hs Hnt Hnj Hni)
    as (a & Ha & Sa & Va).
  exists a, var. auto.
Qed.

(** The six fields of a subgrid, read from a file all of whose required
    variables have the shape of the grid. *)
Lemma subgrid_fields_read (self : OrcaGrid) (subgrid : string) ni nj :
  subgrid ∈ ["t"; "u"; "v"] ->
  shape self = (ni, nj) -> masks self = None ->
  fields_shaped (domain_cfg self) ni nj -> 1 <= ni -> 3 <= nj ->
  exists center_lats center_lons corner_lats corner_lons cell_areas mask,
    read_center_latitudes self subgrid = Ok center_lats /\
    read_center_longitudes self subgrid = Ok center_lons /\
    read_corner_latitudes self subgrid = Ok corner_lats /\
    read_corner_longitudes self subgrid = Ok corner_lons /\
    read_areas self subgrid = Ok cell_areas /\
    read_mask self subgrid = Ok mask /\
    np.shape center_lats = [ni; nj] /\ np.shape center_lons = [ni; nj] /\
    np.shape corner_lats = [ni; nj; 4] /\
    np.shape corner_lons = [ni; nj; 4] /\
    np.shape cell_areas = [ni; nj] /\ np.shape mask = [ni; nj].
Proof.
  intros Hin Hshape Hmasks Hfields Hni Hnj.
  destruct (corner_variables_required subgrid Hin)
    as (lat_name & lon_name & Hlatv & Hlonv & Hlat & Hlon & Hgphi & Hglam
        & He1 & He2 & _).
  pose proof (field_read (domain_cfg self) ni nj) as Hread.
  destruct (Hread _ Hfields ltac:(lia) ltac:(lia) Hgphi)
    as (cla & ? & _ & Rcla & Scla & _).
  destruct (Hread _ Hfields ltac:(lia) ltac:(lia) Hglam)
    as (clo & ? & _ & Rclo & Sclo & _).
  destruct (Hread _ Hfields ltac:(lia) ltac:(lia) Hlat)
    as (lat & ? & _ & Rlat & Slat & _).
  destruct (Hread _ Hfields ltac:(lia) ltac:(lia) Hlon)
    as (lon & ? & _ & Rlon & Slon & _).
  destruct (Hread _ Hfields ltac:(lia) ltac:(lia) He1)
    as (e1 & ? & _ & Re1 & Se1 & _).
  destruct (Hread _ Hfields ltac:(lia) ltac:(lia) He2)
    as (e2 & ? & _ & Re2 & Se2 & _).
  assert ("top_level" ∈ _required) as Htop
    by (apply (bool_decide_unpack _); vm_compute; exact I).
  destruct (Hread _ Hfields ltac:(lia) ltac:(lia) Htop)
    as (top & ? & _ & Rtop & Stop & _).
  destruct (read_mask_derived self top ni nj Hmasks Rtop Stop
              ltac:(lia) ltac:(lia))
    as (tm & um & vm & Et & Eu & Ev & St & Su & Sv & _).
  assert (exists corner_lats,
            fill_corner_lats subgrid lat (fresh_corners ni nj)
              = Ok corner_lats /\ np.shape corner_lats = [ni; nj; 4])
    as (kla & Ekla & Skla).
  { destruct (subgrid_cases _ Hin) as [->|[->| ->]];
      [ destruct (fill_corner_lats_t lat (fresh_corners ni nj) ni nj
                    Slat eq_refl Hni Hnj) as (c & E & S & _)
      | destruct (fill_corner_lats_u lat (fresh_corners ni nj) ni nj
                    Slat eq_refl Hni Hnj) as (c & E & S & _)
      | destruct (fill_corner_lats_v lat (fresh_corners ni nj) ni nj
                    Slat eq_refl Hni Hnj) as (c & E & S & _) ];
      exists c; auto. }
  assert (exists corner_lons,
            fill_corner_lons subgrid lon (fresh_corners ni nj)
              = Ok corner_lons /\ np.shape corner_lons = [ni; nj; 4])
    as (klo & Eklo & Sklo).
  { destruct (subgrid_cases _ Hin) as [->|[->| ->]];
      [ destruct (fill_corner_lons_t lon (fresh_corners ni nj) ni nj
                    Slon eq_refl Hni Hnj) as (c & E & S & _)
      | destruct (fill_corner_lons_u lon (fresh_corners ni nj) ni nj
                    Slon eq_refl Hni Hnj) as (c & E & S & _)
      | destruct (fill_corner_lons_v lon (fresh_corners ni nj) ni nj
                    Slon eq_refl Hni Hnj) as (c & E & S & _) ];
      exists c; auto. }
  assert (exists mask, read_mask self subgrid = Ok mask /\
                       np.shape mask = [ni; nj]) as (mk & Emk & Smk).
  { destruct (subgrid_cases _ Hin) as [->|[->| ->]]; eauto. }
  exists cla, clo, kla, klo.
  eexists (np.mk [ni; nj] _), mk.
  unfold read_center_latitudes, read_center_longitudes,
    read_corner_latitudes, read_corner_longitudes, read_areas.
  rewrite (_check_Ok subgrid Hin), Hlatv, Hlonv. cbn [bind].
  rewrite Rcla, Rclo, Rlat, Rlon, Re1, Re2, Hshape. cbn [bind fst snd].
  unfold np.zip. rewrite Se1, Se2. rewrite shape_eqb_true by reflexivity.
  change (np.full [ni; nj; 4] _MISSING_VALUE) with (fresh_corners ni nj).
  rewrite Ekla, Eklo.
  repeat (split; [first [reflexivity | assumption]|]). assumption.
Qed.

(** X20.  On a domain file of a supported configuration whose required
    variables all have the shape (nt, nj, ni) with nt >= 1, and without
    a mask file, the three view constructors return their view: it
    carries the name, the shape (ni, nj) and the size ni * nj of the
    configuration, center arrays, areas and mask of shape (ni, nj), and
    corner arrays of shape (ni, nj, 4). *)
Theorem views_of_well_formed_file (cfg : Dataset F) (ni nj nk : Z) :
  dimensions cfg !! "x" = Some ni -> dimensions cfg !! "y" = Some nj ->
  dimensions cfg !! "z" = Some nk ->
  (ni, nj, nk) = (362, 292, 75) \/ (ni, nj, nk) = (360, 331, 75) ->
  fields_shaped cfg ni nj ->
  exists tview uview vview,
    OrcaTGrid cfg None = Ok tview /\
    OrcaUGrid cfg None = Ok uview /\
    OrcaVGrid cfg None = Ok vview /\
    forall w, w = tview \/ w = uview \/ w = vview ->
      view.name w = (if ni =? 362 then "ORCA1L75" else "eORCA1L75") /\
      view.shape w = (ni, nj) /\ view.size w = ni * nj /\
      np.shape (view.center_latitudes w) = [ni; nj] /\
      np.shape (view.center_longitudes w) = [ni; nj] /\
      np.shape (view.corner_latitudes w) = [ni; nj; 4] /\
      np.shape (view.corner_longitudes w) = [ni; nj; 4] /\
      np.shape (view.areas w) = [ni; nj] /\
      np.shape (view.mask w) = [ni; nj].
Proof.
  intros Hx Hy Hz Hknown Hfields.
  assert (1 <= ni /\ 3 <= nj) as [Hni Hnj]
    by (destruct Hknown as [[= -> -> ->] | [= -> -> ->]]; lia).
  assert (forall var_name, var_name ∈ _required ->
            is_Some (variables cfg !! var_name)) as Hreq.
  { intros var_name Hin.
    destruct (Hfields var_name Hin) as (var & nt & -> & _). eauto. }
  assert (forall mf : Dataset F, None = Some mf ->
            forall var_name,
              var_name ∈ ["tmaskutil"; "umaskutil"; "vmaskutil"] ->
              is_Some (variables mf !! var_name)) as Hnone by discriminate.
  pose proof (init_accepts cfg None ni nj nk Hx Hy Hz Hknown Hreq Hnone)
    as Hinit.
  set (ogrid := {| domain_cfg := cfg; masks := None; shape := (ni, nj);
                   size := ni * nj;
                   name := if ni =? 362 then "ORCA1L75" else "eORCA1L75" |})
    in Hinit.
  pose proof (fun subgrid Hin =>
                subgrid_fields_read ogrid subgrid ni nj Hin eq_refl eq_refl
                  Hfields Hni Hnj) as Hsub.
  assert ("t" ∈ ["t"; "u"; "v"]) as Ht
    by (apply (bool_decide_unpack _); vm_compute; exact I).
  assert ("u" ∈ ["t"; "u"; "v"]) as Hu
    by (apply (bool_decide_unpack _); vm_compute; exact I).
  assert ("v" ∈ ["t"; "u"; "v"]) as Hv
    by (apply (bool_decide_unpack _); vm_compute; exact I).
  destruct (Hsub "t" Ht)
    as (t1 & t2 & t3 & t4 & t5 & t6 & Et1 & Et2 & Et3 & Et4 & Et5 & Et6 & St).
  destruct (Hsub "u" Hu)
    as (u1 & u2 & u3 & u4 & u5 & u6 & Eu1 & Eu2 & Eu3 & Eu4 & Eu5 & Eu6 & Su).
  destruct (Hsub "v" Hv)
    as (v1 & v2 & v3 & v4 & v5 & v6 & Ev1 & Ev2 & Ev3 & Ev4 & Ev5 & Ev6 & Sv).
  unfold OrcaTGrid, OrcaUGrid, OrcaVGrid. rewrite Hinit. cbn [bind].
  rewrite Et1, Et2, Et3, Et4, Et5, Et6, Eu1, Eu2, Eu3, Eu4, Eu5, Eu6,
    Ev1, Ev2, Ev3, Ev4, Ev5, Ev6. cbn [bind].
  do 3 eexists. do 3 (split; [reflexivity|]).
  intros w [-> | [-> | ->]]; cbn; tauto.
Qed.
End Views.

(** ** prpoas/grids/assign.py *)

Section AssignProofs.
Context {Grid Coupled Mask Kwarg : Type}.
Context (GridA GridB : list Z -> gmap string Kwarg -> result Grid).
Context (CoupleGrid : Grid -> string -> result Coupled).
Context (get_mask : Grid -> Mask) (set_mask : Grid -> Mask -> Grid).

(** Every entry of the table is made with the two defaults. *)
Lemma map_entry_defaults name factory :
  assign._map (Mask:=Mask) GridA GridB !! name = Some factory ->
  assign.kwargs factory = ∅ /\ assign.mask_mod factory = [] /\
  name ∈ ["IOCL"; "ILCL"; "RNFA"; "NOUM"; "NOVM"; "NOTM"].
Proof.
  unfold assign._map. intros Hentry.
  apply elem_of_list_to_map_2 in Hentry.
  rewrite !elem_of_cons, elem_of_nil in Hentry.
  destruct Hentry as [E|[E|[E|[E|[E|[E|[]]]]]]]; injection E as -> ->;
    (split; [reflexivity|]); (split; [reflexivity|]);
    apply (bool_decide_unpack _); vm_compute; exact I.
Qed.

Lemma map_lookup_unknown name :
  name ∉ ["IOCL"; "ILCL"; "RNFA"; "NOUM"; "NOVM"; "NOTM"] ->
  assign._map (Mask:=Mask) GridA GridB !! name = None.
Proof.
  intros Hout. unfold assign._map. apply not_elem_of_list_to_map_1.
  exact Hout.
Qed.

(** X21.  For an id that is not one of the six of the table,
    [couple_grid] logs one error that names the id and raises KeyError;
    no grid is built. *)
Theorem couple_grid_unknown_id (name : string) :
  name ∉ ["IOCL"; "ILCL"; "RNFA"; "NOUM"; "NOVM"; "NOTM"] ->
  assign.couple_grid GridA GridB CoupleGrid get_mask set_mask name =
  (["Grid id " +:+ dquote +:+ name +:+ dquote
      +:+ " not found in the assign map"],
   Raise KeyError).
Proof.
  intros Hout. unfold assign.couple_grid, subscript.
  rewrite (map_lookup_unknown name Hout). reflexivity.
Qed.

(** X22.  For an id of the table whose class builds a grid,
    [couple_grid] logs nothing and returns [CoupleGrid] of that very
    grid and the id: no keyword argument is passed to the class and no
    mask modifier is applied, since every entry of the table takes the
    two defaults. *)
Theorem couple_grid_known_id (name : string) factory (base_grid : Grid) :
  assign._map (Mask:=Mask) GridA GridB !! name = Some factory ->
  assign.type factory (assign.args factory) ∅ = Ok base_grid ->
  assign.couple_grid GridA GridB CoupleGrid get_mask set_mask name =
  ([], CoupleGrid base_grid name).
Proof.
  intros Hentry Hbuilt.
  destruct (map_entry_defaults name factory Hentry) as (Hkw & Hmod & _).
  unfold assign.couple_grid, subscript. rewrite Hentry. cbn [bind].
  rewrite Hkw, Hbuilt, Hmod. reflexivity.
Qed.

(** X23.  An exception raised by the class of a table entry leaves
    [couple_grid] unchanged; when it is a KeyError it is logged with
    the message of an unknown id, and any other exception is not
    logged. *)
Theorem couple_grid_class_error (name : string) factory (e : exn) :
  assign._map (Mask:=Mask) GridA GridB !! name = Some factory ->
  assign.type factory (assign.args factory) ∅ = Raise e ->
  assign.couple_grid GridA GridB CoupleGrid get_mask set_mask name =
  (match e with
   | KeyError => ["Grid id " +:+ dquote +:+ name +:+ dquote
                    +:+ " not found in the assign map"]
   | _ => []
   end,
   Raise e).
Proof.
  intros Hentry Hraised.
  destruct (map_entry_defaults name factory Hentry) as (Hkw & _ & _).
  unfold assign.couple_grid, subscript. rewrite Hentry. cbn [bind].
  rewrite Hkw, Hraised. destruct e; reflexivity.
Qed.
End AssignProofs.

(** ** The further properties on the example files *)

(** Every required variable of the ORCA1L75 example has the shape
    (1, 292, 362). *)
Lemma orca1_fields_shaped : fields_shaped orca1_cfg 362 292.
Proof.
  intros var_name Hin. unfold _required in Hin.
  rewrite !elem_of_cons, elem_of_nil in Hin.
  repeat (destruct Hin as [-> | Hin];
          [eexists _, 1; split; [vm_compute; reflexivity|];
           split; [reflexivity | lia]|]).
  destruct Hin.
Qed.

Lemma orca1_required_present var_name :
  var_name ∈ _required -> is_Some (variables orca1_cfg !! var_name).
Proof.
  intros Hin. destruct (orca1_fields_shaped var_name Hin) as (var & nt & -> & _).
  eauto.
Qed.

(** Witness of X1. *)
Lemma t_cells_share_corners_orca1 :
  exists corner_lats corner_lons,
    read_corner_latitudes orca1 "t" = Ok corner_lats /\
    read_corner_longitudes orca1 "t" = Ok corner_lons /\
    forall c, c = corner_lats \/ c = corner_lons ->
    forall i j, 0 <= i < 362 -> 0 <= j < 292 ->
      np.item c [i; j; 1] = np.item c [(i - 1) mod 362; j; 0] /\
      np.item c [i; j; 2] = np.item c [(i - 1) mod 362; j; 3] /\
      (1 <= j ->
         np.item c [i; j; 3] = np.item c [i; j - 1; 0] /\
         np.item c [i; j; 2] = np.item c [i; j - 1; 1]).
Proof.
  apply (t_cells_share_corners orca1
           (read_of orca1_cfg "gphif") (read_of orca1_cfg "glamf") 362 292);
    [ reflexivity | lia | lia
    | split; vm_compute; reflexivity | split; vm_compute; reflexivity ].
Defined.

(** Witness of X2. *)
Lemma u_cells_share_corners_orca1 :
  exists corner_lats corner_lons,
    read_corner_latitudes orca1 "u" = Ok corner_lats /\
    read_corner_longitudes orca1 "u" = Ok corner_lons /\
    forall i j, 0 <= i < 362 -> 0 <= j < 292 ->
      np.item corner_lats [i; j; 3] =
        np.item corner_lats [(i + 1) mod 362; j; 2] /\
      forall c, c = corner_lats \/ c = corner_lons ->
        np.item c [i; j; 0] = np.item c [(i + 1) mod 362; j; 1] /\
        (1 <= j ->
           np.item c [i; j; 3] = np.item c [(i + 1) mod 362; j; 2] /\
           np.item c [i; j; 2] = np.item c [i; j - 1; 1] /\
           np.item c [i; j; 3] = np.item c [i; j - 1; 0]).
Proof.
  apply (u_cells_share_corners orca1
           (read_of orca1_cfg "gphiv") (read_of orca1_cfg "glamv") 362 292);
    [ reflexivity | lia | lia
    | split; vm_compute; reflexivity | split; vm_compute; reflexivity ].
Defined.

(** Witness of X3. *)
Lemma v_cells_share_corners_orca1 :
  exists corner_lats corner_lons,
    read_corner_latitudes orca1 "v" = Ok corner_lats /\
    read_corner_longitudes orca1 "v" = Ok corner_lons /\
    forall c, c = corner_lats \/ c = corner_lons ->
    forall i j, 0 <= i < 362 -> 0 <= j < 292 ->
      np.item c [i; j; 1] = np.item c [(i - 1) mod 362; j; 0] /\
      np.item c [i; j; 2] = np.item c [(i - 1) mod 362; j; 3] /\
      (j < 292 - 1 ->
         np.item c [i; j; 0] = np.item c [i; j + 1; 3] /\
         np.item c [i; j; 1] = np.item c [i; j + 1; 2]).
Proof.
  apply (v_cells_share_corners orca1
           (read_of orca1_cfg "gphiu") (read_of orca1_cfg "glamu") 362 292);
    [ reflexivity | lia | lia
    | split; vm_compute; reflexivity | split; vm_compute; reflexivity ].
Defined.

(** Witness of X4. *)
Lemma u_southern_row_orca1 :
  exists corner_lats corner_lons,
    read_corner_latitudes orca1 "u" = Ok corner_lats /\
    read_corner_longitudes orca1 "u" = Ok corner_lons /\
    forall i, 0 <= i < 362 ->
      np.item corner_lats [i; 0; 2] =
        linear_reflection (read_of orca1_cfg "gphiv") i /\
      np.item corner_lats [i; 0; 3] =
        linear_reflection (read_of orca1_cfg "gphiv") ((i + 1) mod 362) /\
      np.item corner_lons [i; 0; 2] =
        np.item (read_of orca1_cfg "glamv") [i; 1] /\
      np.item corner_lons [i; 0; 3] =
        np.item (read_of orca1_cfg "glamv") [(i + 1) mod 362; 0].
Proof.
  apply (u_southern_row orca1
           (read_of orca1_cfg "gphiv") (read_of orca1_cfg "glamv") 362 292);
    [ reflexivity | lia | lia
    | split; vm_compute; reflexivity | split; vm_compute; reflexivity ].
Defined.

(** Witness of X5. *)
Lemma v_northern_row_orca1 :
  exists corner_lats corner_lons,
    read_corner_latitudes orca1 "v" = Ok corner_lats /\
    read_corner_longitudes orca1 "v" = Ok corner_lons /\
    forall v c,
      (v = read_of orca1_cfg "gphiu" /\ c = corner_lats) \/
      (v = read_of orca1_cfg "glamu" /\ c = corner_lons) ->
      forall i, 0 <= i < 362 ->
        (i < 362 - 1 ->
           np.item c [i; 292 - 1; 0] = np.item v [362 - 2 - i; 292 - 1]) /\
        np.item c [362 - 1; 292 - 1; 0] = np.item v [362 - 1; 292 - 1] /\
        np.item c [i; 292 - 1; 1] = np.item v [362 - 1 - i; 292 - 1] /\
        np.item c [i; 292 - 1; 2] = np.item v [(i - 1) mod 362; 292 - 1] /\
        np.item c [i; 292 - 1; 3] = np.item v [i; 292 - 1].
Proof.
  apply (v_northern_row orca1
           (read_of orca1_cfg "gphiu") (read_of orca1_cfg "glamu") 362 292);
    [ reflexivity | lia | lia
    | split; vm_compute; reflexivity | split; vm_compute; reflexivity ].
Defined.

(** Witness of X6: the latitude chains on the array read from gphif. *)
Lemma interior_corner_offsets_orca1 :
  exists ct cu cv,
    let v := read_of orca1_cfg "gphif" in
    let c0 := fresh_corners 362 292 in
    fill_corner_lats "t" v c0 = Ok ct /\ fill_corner_lats "u" v c0 = Ok cu /\
    fill_corner_lats "v" v c0 = Ok cv /\
    forall i j, 1 <= i < 362 - 1 -> 1 <= j < 292 - 1 ->
      (np.item ct [i; j; 0] = np.item v [i; j] /\
       np.item ct [i; j; 1] = np.item v [i - 1; j] /\
       np.item ct [i; j; 2] = np.item v [i - 1; j - 1] /\
       np.item ct [i; j; 3] = np.item v [i; j - 1]) /\
      (np.item cu [i; j; 0] = np.item v [i + 1; j] /\
       np.item cu [i; j; 1] = np.item v [i; j] /\
       np.item cu [i; j; 2] = np.item v [i; j - 1] /\
       np.item cu [i; j; 3] = np.item v [i + 1; j - 1]) /\
      (np.item cv [i; j; 0] = np.item v [i; j + 1] /\
       np.item cv [i; j; 1] = np.item v [i - 1; j + 1] /\
       np.item cv [i; j; 2] = np.item v [i - 1; j] /\
       np.item cv [i; j; 3] = np.item v [i; j]).
Proof.
  apply (interior_corner_offsets fill_corner_lats
           (read_of orca1_cfg "gphif") (fresh_corners 362 292) 362 292);
    [ left; reflexivity | vm_compute; reflexivity | reflexivity | lia | lia ].
Defined.

(** Witness of X7: the two chains of T on the array read from gphif. *)
Lemma lat_lon_chains_agree_orca1 :
  exists cl co,
    fill_corner_lats "t" (read_of orca1_cfg "gphif") (fresh_corners 362 292)
      = Ok cl /\
    fill_corner_lons "t" (read_of orca1_cfg "gphif") (fresh_corners 362 292)
      = Ok co /\
    forall i j k, 0 <= i < 362 -> 0 <= j < 292 -> 0 <= k < 4 ->
      "t" = "v" \/ 1 <= j \/ k < 2 ->
      np.item cl [i; j; k] = np.item co [i; j; k].
Proof.
  apply (lat_lon_chains_agree "t"
           (read_of orca1_cfg "gphif") (fresh_corners 362 292) 362 292);
    [ apply (bool_decide_unpack _); vm_compute; exact I
    | vm_compute; reflexivity | reflexivity | lia | lia ].
Defined.

(** Witness of X8. *)
Lemma two_rows_latitude_index_error_example :
  (exists msg, fill_corner_lats "t" two_rows (np.full [2; 2; 4] 0)
                 = Raise (IndexError msg)) /\
  (exists msg, fill_corner_lats "u" two_rows (np.full [2; 2; 4] 0)
                 = Raise (IndexError msg)) /\
  (exists c, fill_corner_lons "t" two_rows (np.full [2; 2; 4] 0) = Ok c) /\
  (exists c, fill_corner_lons "u" two_rows (np.full [2; 2; 4] 0) = Ok c) /\
  (exists c, fill_corner_lats "v" two_rows (np.full [2; 2; 4] 0) = Ok c) /\
  (exists c, fill_corner_lons "v" two_rows (np.full [2; 2; 4] 0) = Ok c).
Proof.
  apply (two_rows_latitude_index_error two_rows (np.full [2; 2; 4] 0) 2);
    [ reflexivity | reflexivity | lia ].
Defined.

(** Witness of X9. *)
Lemma read_center_transposes_orca1 :
  exists center_lats center_lons,
    read_center_latitudes orca1 "t" = Ok center_lats /\
    read_center_longitudes orca1 "t" = Ok center_lons /\
    np.shape center_lats = [362; 292] /\ np.shape center_lons = [362; 292] /\
    forall i j,
      np.item center_lats [i; j] = np.item ramp [0; j; i] /\
      np.item center_lons [i; j] = np.item ramp [0; j; i].
Proof.
  apply (read_center_transposes orca1 "t" ramp ramp 1 292 362);
    [ apply (bool_decide_unpack _); vm_compute; exact I
    | vm_compute; reflexivity | vm_compute; reflexivity
    | reflexivity | reflexivity | lia | lia | lia ].
Defined.

(** Witness of X10. *)
Lemma read_areas_product_orca1 :
  exists cell_areas,
    read_areas orca1 "u" = Ok cell_areas /\
    np.shape cell_areas = [362; 292] /\
    forall i j,
      np.item cell_areas [i; j] =
        fmul (np.item (np.full [1; 292; 362] 1) [0; j; i])
             (np.item (np.full [1; 292; 362] 1) [0; j; i]).
Proof.
  apply (read_areas_product orca1 "u"
           (np.full [1; 292; 362] 1) (np.full [1; 292; 362] 1) 1 292 362);
    [ apply (bool_decide_unpack _); vm_compute; exact I
    | vm_compute; reflexivity | vm_compute; reflexivity
    | reflexivity | reflexivity | lia | lia | lia ].
Defined.

(** Witness of X11. *)
Lemma read_mask_from_mask_file_orca1 :
  exists mask,
    read_mask orca1_masked "v" = Ok mask /\
    np.shape mask = [362; 292] /\
    forall i j,
      np.item mask [i; j] =
        (if fgtb (np.item checkerboard [0; j; i]) (of_int 0) then 0 else 1).
Proof.
  apply (read_mask_from_mask_file orca1_masked orca1_masks "v"
           checkerboard 1 292 362);
    [ apply (bool_decide_unpack _); vm_compute; exact I
    | reflexivity | vm_compute; reflexivity | reflexivity
    | lia | lia | lia ].
Defined.

(** Witness of X12: the tag f. *)
Lemma invalid_subgrid_raises_f :
  let e := ValueError
             ("Invalid ORCA subgrid: " +:+ dquote +:+ "f" +:+ dquote) in
  read_center_latitudes orca1 "f" = Raise e /\
  read_center_longitudes orca1 "f" = Raise e /\
  read_corner_latitudes orca1 "f" = Raise e /\
  read_corner_longitudes orca1 "f" = Raise e /\
  read_areas orca1 "f" = Raise e /\
  read_mask orca1 "f" = Raise e.
Proof.
  apply (invalid_subgrid_raises orca1 "f").
  apply (bool_decide_unpack _). vm_compute. exact I.
Defined.

(** Witness of X13. *)
Lemma derived_mask_edges_orca1 :
  exists tmask umask vmask,
    read_mask orca1 "t" = Ok tmask /\
    read_mask orca1 "u" = Ok umask /\
    read_mask orca1 "v" = Ok vmask /\
    (forall j, 0 <= j < 292 ->
       np.item umask [362 - 1; j] =
         np.item tmask [362 - 1; j] * np.item tmask [0; j]) /\
    (forall i, 0 <= i < 362 ->
       np.item vmask [i; 292 - 1] = np.item tmask [i; 292 - 1]).
Proof.
  apply (derived_mask_edges orca1 (read_of orca1_cfg "top_level") 362 292);
    [ reflexivity | vm_compute; reflexivity | vm_compute; reflexivity
    | lia | lia ].
Defined.

(** Witness of X14. *)
Lemma nonzero_top_level_mask_all_zero_orca1 :
  exists mask,
    read_mask orca1_land "v" = Ok mask /\
    np.shape mask = [362; 292] /\
    forall i j, 0 <= i < 362 -> 0 <= j < 292 -> np.item mask [i; j] = 0.
Proof.
  apply (nonzero_top_level_mask_all_zero orca1_land
           (read_of orca1_land_cfg "top_level") 362 292 "v");
    [ reflexivity | vm_compute; reflexivity | vm_compute; reflexivity
    | lia | lia
    | intros i j _ _; reflexivity
    | apply (bool_decide_unpack _); vm_compute; exact I ].
Defined.

(** Witness of X16: the T latitudes of the ORCA1L75 example. *)
Lemma corner_array_shape_orca1 :
  exists c,
    read_corner_latitudes orca1 "t" = Ok c /\ np.shape c = [362; 292; 4].
Proof.
  destruct (read_corner_t orca1
              (read_of orca1_cfg "gphif") (read_of orca1_cfg "glamf") 362 292)
    as (c & _ & Hc & _);
    [ reflexivity | lia | lia
    | split; vm_compute; reflexivity | split; vm_compute; reflexivity | ].
  exists c. split; [exact Hc|].
  apply (corner_array_shape orca1 "t" c). left. exact Hc.
Defined.

(** Witness of X17: the ORCA1L75 example is accepted. *)
Lemma init_accepts_iff_orca1 :
  exists self, __init__ orca1_cfg (Some orca1_masks) = Ok self.
Proof.
  apply (proj2 (init_accepts_iff orca1_cfg (Some orca1_masks))).
  exists 362, 292, 75.
  split; [reflexivity|]. split; [reflexivity|]. split; [reflexivity|].
  split; [left; reflexivity|]. split; [exact orca1_required_present|].
  intros mf [= <-] var_name Hin.
  rewrite !elem_of_cons, elem_of_nil in Hin.
  destruct Hin as [->|[->|[->|[]]]]; vm_compute; eauto.
Defined.

(** Witness of X18. *)
Lemma init_fields_orca1 :
  exists ni nj nk,
    dimensions orca1_cfg !! "x" = Some ni /\
    dimensions orca1_cfg !! "y" = Some nj /\
    dimensions orca1_cfg !! "z" = Some nk /\
    domain_cfg orca1_masked = orca1_cfg /\
    masks orca1_masked = Some orca1_masks /\
    shape orca1_masked = (ni, nj) /\ size orca1_masked = ni * nj /\
    (((ni, nj, nk) = (362, 292, 75) /\ name orca1_masked = "ORCA1L75") \/
     ((ni, nj, nk) = (360, 331, 75) /\ name orca1_masked = "eORCA1L75")).
Proof.
  apply (init_fields orca1_cfg (Some orca1_masks) orca1_masked).
  vm_compute. reflexivity.
Defined.

(** Witness of X19: the mask file without vmaskutil. *)
Lemma init_rejects_incomplete_mask_file_orca1 :
  __init__ orca1_cfg (Some incomplete_masks) =
  Raise (RuntimeError "Missing variables in NEMO masks file").
Proof.
  apply (init_rejects_incomplete_mask_file orca1_cfg incomplete_masks
           362 292 75 "vmaskutil");
    [ reflexivity | reflexivity | reflexivity | left; reflexivity
    | exact orca1_required_present
    | apply (bool_decide_unpack _); vm_compute; exact I
    | vm_compute; reflexivity ].
Defined.

(** Witness of X20. *)
Lemma views_of_well_formed_file_orca1 :
  exists tview uview vview,
    OrcaTGrid orca1_cfg None = Ok tview /\
    OrcaUGrid orca1_cfg None = Ok uview /\
    OrcaVGrid orca1_cfg None = Ok vview /\
    forall w, w = tview \/ w = uview \/ w = vview ->
      view.name w = "ORCA1L75" /\
      view.shape w = (362, 292) /\ view.size w = 362 * 292 /\
      np.shape (view.center_latitudes w) = [362; 292] /\
      np.shape (view.center_longitudes w) = [362; 292] /\
      np.shape (view.corner_latitudes w) = [362; 292; 4] /\
      np.shape (view.corner_longitudes w) = [362; 292; 4] /\
      np.shape (view.areas w) = [362; 292] /\
      np.shape (view.mask w) = [362; 292].
Proof.
  apply (views_of_well_formed_file orca1_cfg 362 292 75);
    [ reflexivity | reflexivity | reflexivity | left; reflexivity
    | exact orca1_fields_shaped ].
Defined.

(** Witness of X21: an id that is not in the table. *)
Lemma couple_grid_unknown_id_example :
  assign.couple_grid example_GridA example_GridB example_CoupleGrid
    example_get_mask example_set_mask "NOFM" =
  (["Grid id " +:+ dquote +:+ "NOFM" +:+ dquote
      +:+ " not found in the assign map"],
   Raise KeyError).
Proof.
  apply (couple_grid_unknown_id example_GridA example_GridB
           example_CoupleGrid example_get_mask example_set_mask "NOFM").
  apply (bool_decide_unpack _). vm_compute. exact I.
Defined.

(** Witness of X22: the id NOUM. *)
Lemma couple_grid_known_id_example :
  assign.couple_grid example_GridA example_GridB example_CoupleGrid
    example_get_mask example_set_mask "NOUM" =
  ([], Ok ("A", [54; 18], "NOUM")).
Proof.
  apply (couple_grid_known_id example_GridA example_GridB
           example_CoupleGrid example_get_mask example_set_mask
           "NOUM" (assign._bgf example_GridA [54; 18]) ("A", [54; 18]));
    [ vm_compute; reflexivity | reflexivity ].
Defined.

(** Witness of X23: the class of the id NOTM refuses its arguments. *)
Lemma couple_grid_class_error_example :
  assign.couple_grid refusing_Grid example_GridB example_CoupleGrid
    example_get_mask example_set_mask "NOTM" =
  ([], Raise (ValueError "no such resolution")).
Proof.
  apply (couple_grid_class_error refusing_Grid example_GridB
           example_CoupleGrid example_get_mask example_set_mask
           "NOTM" (assign._bgf refusing_Grid [56; 18])
           (ValueError "no such resolution"));
    [ vm_compute; reflexivity | reflexivity ].
Defined.
